(** * ObjectBox model reconciliation: a shallow embedding

    The Go generator merges a freshly parsed binding (entities, properties,
    standalone relations) into the persisted model document
    ([mergeBindingWithModelInfo] and its helpers) and loads the document from
    its JSON file ([loadModelFromJSONFile]).  This file embeds those functions
    and proves the properties stated about them.

    Go pointers into the document are modelled as positions: a
    [*modelinfo.Entity] is an index into [Entities], a [*modelinfo.Property]
    is a pair of an entity index and a property index.  Mutation through a
    pointer is state passing over the whole document; an error leaves the
    document as it was when the error was raised, as in-place mutation does. *)

From Stdlib Require Import ZArith String List Lia Bool.
From stdpp Require Import base option list strings.

Open Scope string_scope.
Open Scope list_scope.
Open Scope Z_scope.

(** ** Numeric identifiers *)

(** The local id is a [uint32] and the global uid a [uint64] in the source. *)
Definition Id := Z.
Definition Uid := Z.

Definition MaxId : Z := 4294967295.
Definition MaxUid : Z := 18446744073709551615.

(** ** Errors

    The source builds its errors with [fmt.Errorf]; the embedding keeps the
    data each message is formatted from. *)
Inductive Error : Type :=
| ErrEntityUidNotFound (uid : Uid)
    (* FindEntityByUid: unknown UID *)
| ErrEntityNameNotFound (name : string)
    (* FindEntityByName *)
| ErrPropertyUidNotFound (uid : Uid) (entity : string)
    (* FindPropertyByUid: unknown UID *)
| ErrPropertyNameNotFound (name : string) (entity : string)
    (* FindPropertyByName *)
| ErrRelationUidNotFound (uid : Uid) (entity : string)
| ErrRelationNameNotFound (name : string) (entity : string)
| ErrJoin (e1 e2 : Error)
    (* fmt.Errorf("%v; %v", err, err2) *)
| ErrUidRequestEntity (modelUid : option Uid) (name : string)
    (* "uid annotation value must not be empty (%s) on entity %s" with
       errInfo "model entity UID = %d" or "entity not found in the model" *)
| ErrUidRequestProperty (name entity : string) (uid newUid : Uid)
    (* "uid annotation value must not be empty on property %s, entity %s:
        [rename] apply the current UID %d  [change/reset] apply a new UID %d" *)
| ErrUidRequestUnknownProperty (name entity : string)
    (* "uid annotation value must not be empty on an unknown property ..." *)
| ErrUidRequestRelation (modelUid : option Uid) (name entity : string)
    (* "uid annotation value must not be empty (%s) on relation %s, entity %s" *)
| ErrUidExhausted
    (* the UID pool could not produce a fresh UID *)
| ErrCounterOverflow
    (* a local id counter would leave uint32 *)
| ErrNilPointer
    (* a pointer that does not designate an element of the document *)
| ErrFile (path : string) (cause : string).
    (* "can't read file %s: %s", or the error of os.OpenFile *)

Inductive Result (A : Type) : Type :=
| Ok (a : A)
| Err (e : Error).
Arguments Ok {A} a.
Arguments Err {A} e.

Definition isOk {A} (r : Result A) : bool :=
  match r with Ok _ => true | Err _ => false end.

(** First position of a list at which a test holds: the Go loops of the form
    [for _, x := range xs { if test(x) { return x, nil } }]. *)
Fixpoint find_index {A} (test : A -> bool) (l : list A) : option nat :=
  match l with
  | [] => None
  | x :: rest => if test x then Some O else option_map S (find_index test rest)
  end.

Module modelinfo.

(** Modelled from the spec: the type [IdUid] and its constructor
    [CreateIdUid] (package modelinfo, not among the sources).  The spec gives
    the Identity Pair as [{id: uint32, uid: uint64}]. *)
Record IdUid : Type := CreateIdUid { IdUid_id : Id; IdUid_uid : Uid }.

(** Modelled from the spec: [IdUid.Get] and [IdUid.GetUid], which read the two
    components of the pair.  The source's callers test an error result, so the
    result type is kept. *)
Definition Get (x : IdUid) : Result (Id * Uid) := Ok (IdUid_id x, IdUid_uid x).
Definition GetUid (x : IdUid) : Result Uid := Ok (IdUid_uid x).

(** The zero value of a Go struct field of this type. *)
Definition zeroIdUid : IdUid := CreateIdUid 0 0.

(** Modelled from the spec: the document's record types (package modelinfo).
    Property: [{Identity, name, type, flags, indexId: optional Identity,
    relationTarget: optional entity name}]; the absent relation target is the
    empty string, as [mergeModelProperty] writes it. *)
Record Property : Type := mkProperty {
  Property_Id : IdUid;
  Property_Name : string;
  Property_IndexId : option IdUid;
  Property_Type : Z;
  Property_Flags : Z;
  Property_RelationTarget : string
}.

(** StandaloneRelation: [{Identity, name, targetEntityId: Identity}]. *)
Record StandaloneRelation : Type := mkRelation {
  Relation_Id : IdUid;
  Relation_Name : string;
  Relation_TargetId : IdUid
}.

(** Entity: [{Identity, name, lastPropertyId, properties, relations}]. *)
Record Entity : Type := mkEntity {
  Entity_Id : IdUid;
  Entity_LastPropertyId : IdUid;
  Entity_Name : string;
  Entity_Properties : list Property;
  Entity_Relations : list StandaloneRelation
}.

(** The Model Document.  [Note1], [ModelVersion] and [MinimumParserVersion]
    are read by [loadModelFromJSONFile]; [Package] is written by
    [mergeBindingWithModelInfo].  [rand] is the random source of the UID pool,
    as the sequence of values it will draw; [issued] are the UIDs handed out
    in this run. *)
Record ModelInfo : Type := mkModelInfo {
  Note1 : string;
  Note2 : string;
  Note3 : string;
  Entities : list Entity;
  LastEntityId : IdUid;
  LastIndexId : IdUid;
  LastRelationId : IdUid;
  ModelVersion : Z;
  MinimumParserVersion : Z;
  RetiredEntityUids : list Uid;
  RetiredIndexUids : list Uid;
  RetiredPropertyUids : list Uid;
  RetiredRelationUids : list Uid;
  Package : string;
  rand : list Uid;
  issued : list Uid
}.

(** *** Field updates *)

Definition set_Property_Id (v : IdUid) (p : Property) : Property :=
  mkProperty v (Property_Name p) (Property_IndexId p) (Property_Type p)
             (Property_Flags p) (Property_RelationTarget p).
Definition set_Property_Name (v : string) (p : Property) : Property :=
  mkProperty (Property_Id p) v (Property_IndexId p) (Property_Type p)
             (Property_Flags p) (Property_RelationTarget p).
Definition set_Property_IndexId (v : option IdUid) (p : Property) : Property :=
  mkProperty (Property_Id p) (Property_Name p) v (Property_Type p)
             (Property_Flags p) (Property_RelationTarget p).
Definition set_Property_Type (v : Z) (p : Property) : Property :=
  mkProperty (Property_Id p) (Property_Name p) (Property_IndexId p) v
             (Property_Flags p) (Property_RelationTarget p).
Definition set_Property_Flags (v : Z) (p : Property) : Property :=
  mkProperty (Property_Id p) (Property_Name p) (Property_IndexId p)
             (Property_Type p) v (Property_RelationTarget p).
Definition set_Property_RelationTarget (v : string) (p : Property) : Property :=
  mkProperty (Property_Id p) (Property_Name p) (Property_IndexId p)
             (Property_Type p) (Property_Flags p) v.

Definition set_Relation_Name (v : string) (r : StandaloneRelation) : StandaloneRelation :=
  mkRelation (Relation_Id r) v (Relation_TargetId r).
Definition set_Relation_TargetId (v : IdUid) (r : StandaloneRelation) : StandaloneRelation :=
  mkRelation (Relation_Id r) (Relation_Name r) v.

Definition set_Entity_LastPropertyId (v : IdUid) (e : Entity) : Entity :=
  mkEntity (Entity_Id e) v (Entity_Name e) (Entity_Properties e) (Entity_Relations e).
Definition set_Entity_Name (v : string) (e : Entity) : Entity :=
  mkEntity (Entity_Id e) (Entity_LastPropertyId e) v (Entity_Properties e) (Entity_Relations e).
Definition set_Entity_Properties (v : list Property) (e : Entity) : Entity :=
  mkEntity (Entity_Id e) (Entity_LastPropertyId e) (Entity_Name e) v (Entity_Relations e).
Definition set_Entity_Relations (v : list StandaloneRelation) (e : Entity) : Entity :=
  mkEntity (Entity_Id e) (Entity_LastPropertyId e) (Entity_Name e) (Entity_Properties e) v.

Definition set_Notes (n1 n2 n3 : string) (m : ModelInfo) : ModelInfo :=
  mkModelInfo n1 n2 n3 (Entities m) (LastEntityId m) (LastIndexId m)
    (LastRelationId m) (ModelVersion m) (MinimumParserVersion m)
    (RetiredEntityUids m) (RetiredIndexUids m) (RetiredPropertyUids m)
    (RetiredRelationUids m) (Package m) (rand m) (issued m).
Definition set_Entities (v : list Entity) (m : ModelInfo) : ModelInfo :=
  mkModelInfo (Note1 m) (Note2 m) (Note3 m) v (LastEntityId m) (LastIndexId m)
    (LastRelationId m) (ModelVersion m) (MinimumParserVersion m)
    (RetiredEntityUids m) (RetiredIndexUids m) (RetiredPropertyUids m)
    (RetiredRelationUids m) (Package m) (rand m) (issued m).
Definition set_LastEntityId (v : IdUid) (m : ModelInfo) : ModelInfo :=
  mkModelInfo (Note1 m) (Note2 m) (Note3 m) (Entities m) v (LastIndexId m)
    (LastRelationId m) (ModelVersion m) (MinimumParserVersion m)
    (RetiredEntityUids m) (RetiredIndexUids m) (RetiredPropertyUids m)
    (RetiredRelationUids m) (Package m) (rand m) (issued m).
Definition set_LastIndexId (v : IdUid) (m : ModelInfo) : ModelInfo :=
  mkModelInfo (Note1 m) (Note2 m) (Note3 m) (Entities m) (LastEntityId m) v
    (LastRelationId m) (ModelVersion m) (MinimumParserVersion m)
    (RetiredEntityUids m) (RetiredIndexUids m) (RetiredPropertyUids m)
    (RetiredRelationUids m) (Package m) (rand m) (issued m).
Definition set_LastRelationId (v : IdUid) (m : ModelInfo) : ModelInfo :=
  mkModelInfo (Note1 m) (Note2 m) (Note3 m) (Entities m) (LastEntityId m)
    (LastIndexId m) v (ModelVersion m) (MinimumParserVersion m)
    (RetiredEntityUids m) (RetiredIndexUids m) (RetiredPropertyUids m)
    (RetiredRelationUids m) (Package m) (rand m) (issued m).
Definition set_Versions (mv mpv : Z) (m : ModelInfo) : ModelInfo :=
  mkModelInfo (Note1 m) (Note2 m) (Note3 m) (Entities m) (LastEntityId m)
    (LastIndexId m) (LastRelationId m) mv mpv
    (RetiredEntityUids m) (RetiredIndexUids m) (RetiredPropertyUids m)
    (RetiredRelationUids m) (Package m) (rand m) (issued m).
Definition set_RetiredIndexUids (v : list Uid) (m : ModelInfo) : ModelInfo :=
  mkModelInfo (Note1 m) (Note2 m) (Note3 m) (Entities m) (LastEntityId m)
    (LastIndexId m) (LastRelationId m) (ModelVersion m) (MinimumParserVersion m)
    (RetiredEntityUids m) v (RetiredPropertyUids m)
    (RetiredRelationUids m) (Package m) (rand m) (issued m).
Definition set_RetiredPropertyUids (v : list Uid) (m : ModelInfo) : ModelInfo :=
  mkModelInfo (Note1 m) (Note2 m) (Note3 m) (Entities m) (LastEntityId m)
    (LastIndexId m) (LastRelationId m) (ModelVersion m) (MinimumParserVersion m)
    (RetiredEntityUids m) (RetiredIndexUids m) v
    (RetiredRelationUids m) (Package m) (rand m) (issued m).
Definition set_RetiredRelationUids (v : list Uid) (m : ModelInfo) : ModelInfo :=
  mkModelInfo (Note1 m) (Note2 m) (Note3 m) (Entities m) (LastEntityId m)
    (LastIndexId m) (LastRelationId m) (ModelVersion m) (MinimumParserVersion m)
    (RetiredEntityUids m) (RetiredIndexUids m) (RetiredPropertyUids m)
    v (Package m) (rand m) (issued m).
Definition set_Package (v : string) (m : ModelInfo) : ModelInfo :=
  mkModelInfo (Note1 m) (Note2 m) (Note3 m) (Entities m) (LastEntityId m)
    (LastIndexId m) (LastRelationId m) (ModelVersion m) (MinimumParserVersion m)
    (RetiredEntityUids m) (RetiredIndexUids m) (RetiredPropertyUids m)
    (RetiredRelationUids m) v (rand m) (issued m).
Definition set_pool (tape handed : list Uid) (m : ModelInfo) : ModelInfo :=
  mkModelInfo (Note1 m) (Note2 m) (Note3 m) (Entities m) (LastEntityId m)
    (LastIndexId m) (LastRelationId m) (ModelVersion m) (MinimumParserVersion m)
    (RetiredEntityUids m) (RetiredIndexUids m) (RetiredPropertyUids m)
    (RetiredRelationUids m) (Package m) tape handed.

(** *** The state and error monad of the reconciler

    A computation reads and mutates the document and returns a value or an
    error; the document is returned in both cases. *)
Definition M (A : Type) : Type := ModelInfo -> Result A * ModelInfo.

Definition ret {A} (a : A) : M A := fun m => (Ok a, m).
Definition fail {A} (e : Error) : M A := fun m => (Err e, m).
Definition bind {A B} (c : M A) (k : A -> M B) : M B :=
  fun m => match c m with
           | (Ok a, m') => k a m'
           | (Err e, m') => (Err e, m')
           end.
Definition lift {A} (r : Result A) : M A := fun m => (r, m).
Definition get : M ModelInfo := fun m => (Ok m, m).
Definition modify (f : ModelInfo -> ModelInfo) : M unit := fun m => (Ok tt, f m).
(** [x, _ := c]: the error is dropped and the value is nil on error. *)
Definition ignoreErr {A} (c : M A) : M (option A) :=
  fun m => match c m with
           | (Ok a, m') => (Ok (Some a), m')
           | (Err _, m') => (Ok None, m')
           end.

Declare Scope monad_scope.
Notation "'let*' x ':=' c 'in' k" := (bind c (fun x => k))
  (at level 10, x pattern, c at level 100, k at level 200) : monad_scope.
Notation "c ';;' k" := (bind c (fun _ => k))
  (at level 100, k at level 200, right associativity) : monad_scope.
Local Open Scope monad_scope.

(** *** Pointers into the document *)

(** Reading through a [*Entity]. *)
Definition getEntity (e : nat) : M Entity :=
  fun m => match Entities m !! e with
           | Some x => (Ok x, m)
           | None => (Err ErrNilPointer, m)
           end.

(** Writing through a [*Entity]. *)
Definition updEntity (e : nat) (f : Entity -> Entity) : M unit :=
  let* x := getEntity e in
  modify (fun m => set_Entities (<[e := f x]> (Entities m)) m).

(** Reading through a [*Property] of entity [e]. *)
Definition getProperty (e p : nat) : M Property :=
  let* x := getEntity e in
  match Entity_Properties x !! p with
  | Some y => ret y
  | None => fail ErrNilPointer
  end.

(** Writing through a [*Property]. *)
Definition updProperty (e p : nat) (f : Property -> Property) : M unit :=
  let* y := getProperty e p in
  updEntity e (fun x => set_Entity_Properties (<[p := f y]> (Entity_Properties x)) x).

Definition getRelation (e r : nat) : M StandaloneRelation :=
  let* x := getEntity e in
  match Entity_Relations x !! r with
  | Some y => ret y
  | None => fail ErrNilPointer
  end.

Definition updRelation (e r : nat) (f : StandaloneRelation -> StandaloneRelation) : M unit :=
  let* y := getRelation e r in
  updEntity e (fun x => set_Entity_Relations (<[r := f y]> (Entity_Relations x)) x).

(** *** UID pool *)

Definition propertyUids (p : Property) : list Uid :=
  IdUid_uid (Property_Id p) ::
  match Property_IndexId p with Some i => [IdUid_uid i] | None => [] end.

Definition entityUids (e : Entity) : list Uid :=
  IdUid_uid (Entity_Id e) ::
  flat_map propertyUids (Entity_Properties e) ++
  map (fun r => IdUid_uid (Relation_Id r)) (Entity_Relations e).

(** Modelled from the spec: the known-UID set of the UID Pool (package
    modelinfo, not among the sources): "active identities across all
    entities/properties/relations/indexes, plus all four retired lists, plus
    UIDs already handed out this run". *)
Definition knownUids (m : ModelInfo) : list Uid :=
  flat_map entityUids (Entities m) ++
  RetiredEntityUids m ++ RetiredIndexUids m ++
  RetiredPropertyUids m ++ RetiredRelationUids m ++
  issued m.

Definition containsUid (known : list Uid) (u : Uid) : bool :=
  existsb (Z.eqb u) known.

(** Draws from the random source until a value is neither zero (the unset
    value) nor known; [None] when the source is exhausted. *)
Fixpoint draw (known : list Uid) (tape : list Uid) : option (Uid * list Uid) :=
  match tape with
  | [] => None
  | t :: rest =>
      if (t =? 0) || containsUid known t then draw known rest
      else Some (t, rest)
  end.

(** Modelled from the spec: [ModelInfo.GenerateUid] (package modelinfo, not
    among the sources): "draws a random 64-bit value excluding zero and the
    sentinel used to mean unset; retries on collision against the full
    known-UID set [...]. Fails only if practically exhausted". *)
Definition GenerateUid : M Uid :=
  fun m => match draw (knownUids m) (rand m) with
           | Some (u, rest) => (Ok u, set_pool rest (issued m ++ [u]) m)
           | None => (Err ErrUidExhausted, set_pool [] (issued m) m)
           end.

(** One past a local id counter; "counter overflow" is among the failures the
    spec lists for creation steps. *)
Definition nextId (last : IdUid) : Result Id :=
  if IdUid_id last + 1 <=? MaxId then Ok (IdUid_id last + 1)
  else Err ErrCounterOverflow.

(** *** Lookups *)

(** Modelled from the spec: [ModelInfo.FindEntityByUid] (not among the
    sources): "look it up in the document. Found: that is the target. Not
    found: fail with an unknown UID error naming the missing UID". *)
Definition FindEntityByUid (uid : Uid) : M nat :=
  fun m => match find_index (fun x => IdUid_uid (Entity_Id x) =? uid) (Entities m) with
           | Some e => (Ok e, m)
           | None => (Err (ErrEntityUidNotFound uid), m)
           end.

(** Modelled from the spec: [ModelInfo.FindEntityByName] (not among the
    sources): "look up by name". *)
Definition FindEntityByName (name : string) : M nat :=
  fun m => match find_index (fun x => String.eqb (Entity_Name x) name) (Entities m) with
           | Some e => (Ok e, m)
           | None => (Err (ErrEntityNameNotFound name), m)
           end.

(** Modelled from the spec: [Entity.FindPropertyByUid] and
    [Entity.FindPropertyByName] (not among the sources): the same lookups
    "scoped to the entity's own property list". *)
Definition FindPropertyByUid (e : nat) (uid : Uid) : M (nat * nat) :=
  let* x := getEntity e in
  match find_index (fun y => IdUid_uid (Property_Id y) =? uid) (Entity_Properties x) with
  | Some p => ret (e, p)
  | None => fail (ErrPropertyUidNotFound uid (Entity_Name x))
  end.

Definition FindPropertyByName (e : nat) (name : string) : M (nat * nat) :=
  let* x := getEntity e in
  match find_index (fun y => String.eqb (Property_Name y) name) (Entity_Properties x) with
  | Some p => ret (e, p)
  | None => fail (ErrPropertyNameNotFound name (Entity_Name x))
  end.

(** Modelled from the spec: [Entity.FindRelationByUid] and
    [Entity.FindRelationByName] (not among the sources): "standalone relations
    resolve the same four-step way, scoped to the entity". *)
Definition FindRelationByUid (e : nat) (uid : Uid) : M (nat * nat) :=
  let* x := getEntity e in
  match find_index (fun y => IdUid_uid (Relation_Id y) =? uid) (Entity_Relations x) with
  | Some r => ret (e, r)
  | None => fail (ErrRelationUidNotFound uid (Entity_Name x))
  end.

Definition FindRelationByName (e : nat) (name : string) : M (nat * nat) :=
  let* x := getEntity e in
  match find_index (fun y => String.eqb (Relation_Name y) name) (Entity_Relations x) with
  | Some r => ret (e, r)
  | None => fail (ErrRelationNameNotFound name (Entity_Name x))
  end.

(** *** Creation *)

(** Modelled from the spec: [ModelInfo.CreateEntity] (not among the sources):
    "create a new entity with a fresh Identity Pair (local id = one past the
    document's lastEntityId.id, uid = UID Pool generation) and append it to
    the document"; [lastEntityId] is the last-used pair.  The source passes
    the binding's name. *)
Definition CreateEntity (name : string) : M nat :=
  let* m := get in
  let* id := lift (nextId (LastEntityId m)) in
  let* uniqueUid := GenerateUid in
  let entity := mkEntity (CreateIdUid id uniqueUid) zeroIdUid name [] [] in
  modify (fun m => set_LastEntityId (Entity_Id entity)
                     (set_Entities (Entities m ++ [entity]) m)) ;;
  ret (length (Entities m)).

(** Modelled from the spec: [Entity.CreateProperty] (not among the sources):
    the entity step "scoped to the entity's own property list and its own
    lastPropertyId counter"; "Email created with id=3 (lastPropertyId was 2,
    so next is 3), fresh uid; lastPropertyId becomes 3:<newuid>". *)
Definition CreateProperty (e : nat) : M (nat * nat) :=
  let* x := getEntity e in
  let* id := lift (nextId (Entity_LastPropertyId x)) in
  let* uniqueUid := GenerateUid in
  let property := mkProperty (CreateIdUid id uniqueUid) "" None 0 0 "" in
  updEntity e (fun x => set_Entity_LastPropertyId (Property_Id property)
                          (set_Entity_Properties (Entity_Properties x ++ [property]) x)) ;;
  ret (e, length (Entity_Properties x)).

(** Modelled from the spec: [Entity.CreateRelation] (not among the sources):
    a fresh Identity Pair for a standalone relation; the counter is the
    document's [lastRelationId], the "last-used Identity Pair per category". *)
Definition CreateRelation (e : nat) : M (nat * nat) :=
  let* x := getEntity e in
  let* m := get in
  let* id := lift (nextId (LastRelationId m)) in
  let* uniqueUid := GenerateUid in
  let relation := mkRelation (CreateIdUid id uniqueUid) "" zeroIdUid in
  updEntity e (fun x => set_Entity_Relations (Entity_Relations x ++ [relation]) x) ;;
  modify (set_LastRelationId (Relation_Id relation)) ;;
  ret (e, length (Entity_Relations x)).

(** Modelled from the spec: [Property.CreateIndex] (not among the sources):
    "creating an index Identity Pair when the binding now requests one and
    none existed"; the counter is the document's [lastIndexId]. *)
Definition CreateIndex (ptr : nat * nat) : M unit :=
  let* m := get in
  let* id := lift (nextId (LastIndexId m)) in
  let* uniqueUid := GenerateUid in
  updProperty (fst ptr) (snd ptr) (set_Property_IndexId (Some (CreateIdUid id uniqueUid))) ;;
  modify (set_LastIndexId (CreateIdUid id uniqueUid)).

(** *** Removal *)

(** Modelled from the spec: [Property.RemoveIndex] (not among the sources):
    "retiring the existing index UID when the binding no longer requests
    one". *)
Definition RemoveIndex (ptr : nat * nat) : M unit :=
  let* y := getProperty (fst ptr) (snd ptr) in
  match Property_IndexId y with
  | None => fail ErrNilPointer
  | Some i =>
      modify (fun m => set_RetiredIndexUids (RetiredIndexUids m ++ [IdUid_uid i]) m) ;;
      updProperty (fst ptr) (snd ptr) (set_Property_IndexId None)
  end.

(** Modelled from the spec: [Entity.RemoveProperty] (not among the sources):
    the property "is removed: its UID is retired, its slot is deleted from the
    entity's property list".  An index of the property is removed with it,
    and "when an entity/property/index/relation is removed during
    reconciliation, its UID moves into the matching retired set". *)
Definition RemoveProperty (e : nat) (p : nat) : M unit :=
  let* y := getProperty e p in
  match Property_IndexId y with
  | Some _ => RemoveIndex (e, p)
  | None => ret tt
  end ;;
  updEntity e (fun x => set_Entity_Properties (delete p (Entity_Properties x)) x) ;;
  modify (fun m => set_RetiredPropertyUids
                     (RetiredPropertyUids m ++ [IdUid_uid (Property_Id y)]) m).

(** Modelled from the spec: [Entity.RemoveRelation] (not among the sources):
    "Relations with no matching binding entry are removed and their UID
    retired". *)
Definition RemoveRelation (e : nat) (r : nat) : M unit :=
  let* y := getRelation e r in
  updEntity e (fun x => set_Entity_Relations (delete r (Entity_Relations x)) x) ;;
  modify (fun m => set_RetiredRelationUids
                     (RetiredRelationUids m ++ [IdUid_uid (Relation_Id y)]) m).

(** Modelled from the spec: [StandaloneRelation.SetTarget] (not among the
    sources): the relation references its target "strictly by its
    already-resolved Identity". *)
Definition SetTarget (ptr : nat * nat) (target : nat) : M unit :=
  let* t := getEntity target in
  updRelation (fst ptr) (snd ptr) (set_Relation_TargetId (Entity_Id t)).

End modelinfo.

Notation "'let*' x ':=' c 'in' k" := (modelinfo.bind c (fun x => k))
  (at level 10, x pattern, c at level 100, k at level 200) : monad_scope.
Notation "c ';;' k" := (modelinfo.bind c (fun _ => k))
  (at level 100, k at level 200, right associativity) : monad_scope.
Open Scope monad_scope.

Module generator.

(** ** Binding descriptors

    The types [Binding], [Entity], [Property], [Index] and
    [StandaloneRelation] of package generator are declared outside the
    sources at hand; the records below hold the fields that the merge reads or
    writes. *)

(** [bindingProperty.Index]: nil, or the index whose [Id] and [Uid] the merge
    writes back. *)
Record Index : Type := mkIndex {
  Index_Id : Id;
  Index_Uid : Uid
}.

(** [Property_Relation] is [bindingProperty.Relation], as the
    [Relation.Target.Name] it carries or [None] for nil.  [Property_entity]
    is the name reached through the back pointer [bindingProperty.entity].
    [Property_ObFlagsCombined] is the value of [ObFlagsCombined()]. *)
Record Property : Type := mkProperty {
  Property_Id : Id;
  Property_Uid : Uid;
  Property_Name : string;
  Property_uidRequest : bool;
  Property_Index : option Index;
  Property_Relation : option string;
  Property_ObType : Z;
  Property_ObFlagsCombined : Z;
  Property_entity : string
}.

(** [bindingRelation.Target] with its [Name], [Id] and [Uid]. *)
Record StandaloneRelation : Type := mkRelation {
  Relation_Id : Id;
  Relation_Uid : Uid;
  Relation_Name : string;
  Relation_uidRequest : bool;
  Relation_Target_Name : string;
  Relation_Target_Id : Id;
  Relation_Target_Uid : Uid
}.

Record Entity : Type := mkEntity {
  Entity_Id : Id;
  Entity_Uid : Uid;
  Entity_Name : string;
  Entity_uidRequest : bool;
  Entity_Properties : list Property;
  Entity_Relations : list StandaloneRelation;
  Entity_LastPropertyId : modelinfo.IdUid
}.

(** [Binding_Package] is [binding.Package.Name()]. *)
Record Binding : Type := mkBinding {
  Binding_Package : string;
  Binding_Entities : list Entity
}.

Definition set_Property_IdUid (id : Id) (uid : Uid) (p : Property) : Property :=
  mkProperty id uid (Property_Name p) (Property_uidRequest p) (Property_Index p)
    (Property_Relation p) (Property_ObType p) (Property_ObFlagsCombined p)
    (Property_entity p).
Definition set_Property_Index (v : option Index) (p : Property) : Property :=
  mkProperty (Property_Id p) (Property_Uid p) (Property_Name p)
    (Property_uidRequest p) v (Property_Relation p) (Property_ObType p)
    (Property_ObFlagsCombined p) (Property_entity p).
Definition set_Relation_IdUid (id : Id) (uid : Uid) (r : StandaloneRelation) : StandaloneRelation :=
  mkRelation id uid (Relation_Name r) (Relation_uidRequest r)
    (Relation_Target_Name r) (Relation_Target_Id r) (Relation_Target_Uid r).
Definition set_Relation_Target_IdUid (id : Id) (uid : Uid) (r : StandaloneRelation) : StandaloneRelation :=
  mkRelation (Relation_Id r) (Relation_Uid r) (Relation_Name r)
    (Relation_uidRequest r) (Relation_Target_Name r) id uid.
Definition set_Entity_IdUid (id : Id) (uid : Uid) (e : Entity) : Entity :=
  mkEntity id uid (Entity_Name e) (Entity_uidRequest e) (Entity_Properties e)
    (Entity_Relations e) (Entity_LastPropertyId e).
Definition set_Entity_Properties (v : list Property) (e : Entity) : Entity :=
  mkEntity (Entity_Id e) (Entity_Uid e) (Entity_Name e) (Entity_uidRequest e) v
    (Entity_Relations e) (Entity_LastPropertyId e).
Definition set_Entity_Relations (v : list StandaloneRelation) (e : Entity) : Entity :=
  mkEntity (Entity_Id e) (Entity_Uid e) (Entity_Name e) (Entity_uidRequest e)
    (Entity_Properties e) v (Entity_LastPropertyId e).
Definition set_Entity_LastPropertyId (v : modelinfo.IdUid) (e : Entity) : Entity :=
  mkEntity (Entity_Id e) (Entity_Uid e) (Entity_Name e) (Entity_uidRequest e)
    (Entity_Properties e) (Entity_Relations e) v.

Import modelinfo (M, ret, fail, bind, lift, get, modify, ignoreErr).

(** ** The reconciler (package generator)

    A function that mutates its binding descriptor returns the descriptor as
    it stands on success. *)

(** [getModelEntity]: the pointer to the model entity of a binding entity. *)
Definition getModelEntity (bindingEntity : Entity) : M nat :=
  if negb (Entity_Uid bindingEntity =? 0) then
    modelinfo.FindEntityByUid (Entity_Uid bindingEntity)
  else
    (* we don't care about this error = either the entity is found or we create it *)
    let* entity := ignoreErr (modelinfo.FindEntityByName (Entity_Name bindingEntity)) in
    (* handle uid request *)
    if Entity_uidRequest bindingEntity then
      match entity with
      | Some e =>
          let* x := modelinfo.getEntity e in
          let* uid := lift (modelinfo.GetUid (modelinfo.Entity_Id x)) in
          fail (ErrUidRequestEntity (Some uid) (Entity_Name bindingEntity))
      | None =>
          fail (ErrUidRequestEntity None (Entity_Name bindingEntity))
      end
    else
      match entity with
      | None => modelinfo.CreateEntity (Entity_Name bindingEntity)
      | Some e => ret e
      end.

(** [getModelProperty]: the pointer to the model property of a binding
    property, within the model entity [modelEntity].  The notice written with
    [log.Printf] is not part of the model. *)
Definition getModelProperty (bindingProperty : Property) (modelEntity : nat) : M (nat * nat) :=
  if negb (Property_Uid bindingProperty =? 0) then
    fun m =>
      match modelinfo.FindPropertyByUid modelEntity (Property_Uid bindingProperty) m with
      | (Ok property, m1) => (Ok property, m1)
      | (Err err, m1) =>
          (* handle "reset property data" use-case - adding a new UID to an existing property *)
          match modelinfo.FindPropertyByName modelEntity (Property_Name bindingProperty) m1 with
          | (Err err2, m2) => (Err (ErrJoin err err2), m2)
          | (Ok property, m2) => (Ok property, m2)
          end
      end
  else
    (* we don't care about this error, either the property is found or we create it *)
    let* property := ignoreErr (modelinfo.FindPropertyByName modelEntity (Property_Name bindingProperty)) in
    (* handle uid request *)
    if Property_uidRequest bindingProperty then
      match property with
      | Some ptr =>
          let* y := modelinfo.getProperty (fst ptr) (snd ptr) in
          let* uid := lift (modelinfo.GetUid (modelinfo.Property_Id y)) in
          let* newUid := modelinfo.GenerateUid in
          fail (ErrUidRequestProperty (Property_Name bindingProperty)
                  (Property_entity bindingProperty) uid newUid)
      | None =>
          fail (ErrUidRequestUnknownProperty (Property_Name bindingProperty)
                  (Property_entity bindingProperty))
      end
    else
      match property with
      | None => modelinfo.CreateProperty modelEntity
      | Some ptr => ret ptr
      end.

(** [mergeModelProperty]. *)
Definition mergeModelProperty (bindingProperty : Property) (modelProperty : nat * nat) : M Property :=
  let '(e, p) := modelProperty in
  modelinfo.updProperty e p (modelinfo.set_Property_Name (Property_Name bindingProperty)) ;;
  (* handle "reset property data" use-case - adding a new UID to an existing property *)
  (if negb (Property_Uid bindingProperty =? 0) then
     let* y := modelinfo.getProperty e p in
     let* (id, _) := lift (modelinfo.Get (modelinfo.Property_Id y)) in
     modelinfo.updProperty e p
       (modelinfo.set_Property_Id (modelinfo.CreateIdUid id (Property_Uid bindingProperty)))
   else ret tt) ;;
  let* y := modelinfo.getProperty e p in
  let* (id, uid) := lift (modelinfo.Get (modelinfo.Property_Id y)) in
  let bindingProperty := set_Property_IdUid id uid bindingProperty in
  let* bindingProperty :=
    match Property_Index bindingProperty with
    | None =>
        (* if there shouldn't be an index *)
        let* y := modelinfo.getProperty e p in
        match modelinfo.Property_IndexId y with
        | Some _ =>
            (* if there originally was an index, remove it *)
            modelinfo.RemoveIndex (e, p) ;; ret bindingProperty
        | None => ret bindingProperty
        end
    | Some _ =>
        (* if there should be an index, create it (or reuse an existing one) *)
        let* y := modelinfo.getProperty e p in
        match modelinfo.Property_IndexId y with
        | None => modelinfo.CreateIndex (e, p)
        | Some _ => ret tt
        end ;;
        let* y := modelinfo.getProperty e p in
        match modelinfo.Property_IndexId y with
        | None => fail ErrNilPointer
        | Some indexId =>
            let* (iid, iuid) := lift (modelinfo.Get indexId) in
            ret (set_Property_Index (Some (mkIndex iid iuid)) bindingProperty)
        end
    end in
  modelinfo.updProperty e p
    (modelinfo.set_Property_RelationTarget
       (match Property_Relation bindingProperty with
        | Some target => target
        | None => ""
        end)) ;;
  modelinfo.updProperty e p (modelinfo.set_Property_Type (Property_ObType bindingProperty)) ;;
  modelinfo.updProperty e p (modelinfo.set_Property_Flags (Property_ObFlagsCombined bindingProperty)) ;;
  ret bindingProperty.

(** [bindingPropertyExists]. *)
Definition bindingPropertyExists (modelProperty : modelinfo.Property) (bindingEntity : Entity) : bool :=
  existsb (fun bindingProperty =>
             String.eqb (Property_Name bindingProperty) (modelinfo.Property_Name modelProperty))
          (Entity_Properties bindingEntity).

(** [getModelRelation]. *)
Definition getModelRelation (bindingRelation : StandaloneRelation) (modelEntity : nat) : M (nat * nat) :=
  if negb (Relation_Uid bindingRelation =? 0) then
    modelinfo.FindRelationByUid modelEntity (Relation_Uid bindingRelation)
  else
    (* we don't care about this error, either the relation is found or we create it *)
    let* relation := ignoreErr (modelinfo.FindRelationByName modelEntity (Relation_Name bindingRelation)) in
    (* handle uid request *)
    if Relation_uidRequest bindingRelation then
      let* x := modelinfo.getEntity modelEntity in
      match relation with
      | Some ptr =>
          let* y := modelinfo.getRelation (fst ptr) (snd ptr) in
          let* uid := lift (modelinfo.GetUid (modelinfo.Relation_Id y)) in
          fail (ErrUidRequestRelation (Some uid) (Relation_Name bindingRelation)
                  (modelinfo.Entity_Name x))
      | None =>
          fail (ErrUidRequestRelation None (Relation_Name bindingRelation)
                  (modelinfo.Entity_Name x))
      end
    else
      match relation with
      | None => modelinfo.CreateRelation modelEntity
      | Some ptr => ret ptr
      end.

(** [mergeModelRelation]. *)
Definition mergeModelRelation (bindingRelation : StandaloneRelation) (modelRelation : nat * nat) : M StandaloneRelation :=
  let '(e, r) := modelRelation in
  modelinfo.updRelation e r (modelinfo.set_Relation_Name (Relation_Name bindingRelation)) ;;
  let* y := modelinfo.getRelation e r in
  let* (id, uid) := lift (modelinfo.Get (modelinfo.Relation_Id y)) in
  let bindingRelation := set_Relation_IdUid id uid bindingRelation in
  (* find the target entity & read it's ID/UID for the binding code *)
  let* targetEntity := modelinfo.FindEntityByName (Relation_Target_Name bindingRelation) in
  let* t := modelinfo.getEntity targetEntity in
  let* (tid, tuid) := lift (modelinfo.Get (modelinfo.Entity_Id t)) in
  let bindingRelation := set_Relation_Target_IdUid tid tuid bindingRelation in
  modelinfo.SetTarget (e, r) targetEntity ;;
  ret bindingRelation.

(** [bindingRelationExists]. *)
Definition bindingRelationExists (modelRelation : modelinfo.StandaloneRelation) (bindingEntity : Entity) : bool :=
  existsb (fun bindingRelation =>
             String.eqb (Relation_Name bindingRelation) (modelinfo.Relation_Name modelRelation))
          (Entity_Relations bindingEntity).

(** Positions, from [i] on, of the elements that fail a test: the pointers
    that the source gathers in [removedProperties] and [removedRelations]. *)
Fixpoint missingFrom {A} (exists_ : A -> bool) (l : list A) (i : nat) : list nat :=
  match l with
  | [] => []
  | x :: rest =>
      if exists_ x then missingFrom exists_ rest (S i)
      else i :: missingFrom exists_ rest (S i)
  end.

(** [for _, property := range removedProperties { RemoveProperty(property) }].
    The pointers were gathered in list order, and each removal deletes a slot
    in front of the ones still to come: after [k] removals the element
    gathered at position [p] stands at position [p - k]. *)
Fixpoint removeProperties (modelEntity : nat) (removedProperties : list nat) (k : nat) : M unit :=
  match removedProperties with
  | [] => ret tt
  | p :: rest =>
      modelinfo.RemoveProperty modelEntity (p - k) ;;
      removeProperties modelEntity rest (S k)
  end.

Fixpoint removeRelations (modelEntity : nat) (removedRelations : list nat) (k : nat) : M unit :=
  match removedRelations with
  | [] => ret tt
  | r :: rest =>
      modelinfo.RemoveRelation modelEntity (r - k) ;;
      removeRelations modelEntity rest (S k)
  end.

(** [for _, bindingProperty := range bindingEntity.Properties]: resolve, then
    merge, each binding property in turn. *)
Fixpoint mergeProperties (bindingProperties : list Property) (modelEntity : nat) : M (list Property) :=
  match bindingProperties with
  | [] => ret []
  | bindingProperty :: rest =>
      let* modelProperty := getModelProperty bindingProperty modelEntity in
      let* bindingProperty := mergeModelProperty bindingProperty modelProperty in
      let* rest := mergeProperties rest modelEntity in
      ret (bindingProperty :: rest)
  end.

(** [for _, bindingRelation := range bindingEntity.Relations]. *)
Fixpoint mergeRelations (bindingRelations : list StandaloneRelation) (modelEntity : nat) : M (list StandaloneRelation) :=
  match bindingRelations with
  | [] => ret []
  | bindingRelation :: rest =>
      let* modelRelation := getModelRelation bindingRelation modelEntity in
      let* bindingRelation := mergeModelRelation bindingRelation modelRelation in
      let* rest := mergeRelations rest modelEntity in
      ret (bindingRelation :: rest)
  end.

(** The block "remove the missing (removed) properties" of
    [mergeModelEntity]: gather the model properties without a binding
    property of their name, then remove them. *)
Definition removeMissingProperties (bindingEntity : Entity) (modelEntity : nat) : M unit :=
  let* x := modelinfo.getEntity modelEntity in
  let removedProperties :=
    missingFrom (fun modelProperty => bindingPropertyExists modelProperty bindingEntity)
                (modelinfo.Entity_Properties x) 0 in
  removeProperties modelEntity removedProperties 0.

(** The block "remove the missing (removed) relations". *)
Definition removeMissingRelations (bindingEntity : Entity) (modelEntity : nat) : M unit :=
  let* x := modelinfo.getEntity modelEntity in
  let removedRelations :=
    missingFrom (fun modelRelation => bindingRelationExists modelRelation bindingEntity)
                (modelinfo.Entity_Relations x) 0 in
  removeRelations modelEntity removedRelations 0.

(** [mergeModelEntity]. *)
Definition mergeModelEntity (bindingEntity : Entity) (modelEntity : nat) : M Entity :=
  modelinfo.updEntity modelEntity (modelinfo.set_Entity_Name (Entity_Name bindingEntity)) ;;
  let* x := modelinfo.getEntity modelEntity in
  let* (id, uid) := lift (modelinfo.Get (modelinfo.Entity_Id x)) in
  let bindingEntity := set_Entity_IdUid id uid bindingEntity in
  (* region Properties *)
  (* add all properties from the bindings to the model and update/rename the changed ones *)
  let* properties := mergeProperties (Entity_Properties bindingEntity) modelEntity in
  let bindingEntity := set_Entity_Properties properties bindingEntity in
  (* remove the missing (removed) properties *)
  removeMissingProperties bindingEntity modelEntity ;;
  let* x := modelinfo.getEntity modelEntity in
  let bindingEntity := set_Entity_LastPropertyId (modelinfo.Entity_LastPropertyId x) bindingEntity in
  (* region Relations *)
  (* add all standalone relations from the bindings to the model and update/rename the changed ones *)
  let* relations := mergeRelations (Entity_Relations bindingEntity) modelEntity in
  let bindingEntity := set_Entity_Relations relations bindingEntity in
  (* remove the missing (removed) relations *)
  removeMissingRelations bindingEntity modelEntity ;;
  ret bindingEntity.

(** First loop of [mergeBindingWithModelInfo]:
    [models[k], err = getModelEntity(bindingEntity, modelInfo)]. *)
Fixpoint getModelEntities (bindingEntities : list Entity) : M (list nat) :=
  match bindingEntities with
  | [] => ret []
  | bindingEntity :: rest =>
      let* model := getModelEntity bindingEntity in
      let* models := getModelEntities rest in
      ret (model :: models)
  end.

(** Second loop: [mergeModelEntity(bindingEntity, models[k], modelInfo)]. *)
Fixpoint mergeModelEntities (bindingEntities : list Entity) (models : list nat) : M (list Entity) :=
  match bindingEntities, models with
  | [], _ => ret []
  | bindingEntity :: rest, model :: models =>
      let* bindingEntity := mergeModelEntity bindingEntity model in
      let* rest := mergeModelEntities rest models in
      ret (bindingEntity :: rest)
  | _ :: _, [] => fail ErrNilPointer
  end.

(** [mergeBindingWithModelInfo]. *)
Definition mergeBindingWithModelInfo (binding : Binding) : M Binding :=
  (* we need to first prepare all entities - otherwise relations wouldn't be
     able to find them in the model *)
  let* models := getModelEntities (Binding_Entities binding) in
  let* entities := mergeModelEntities (Binding_Entities binding) models in
  (* NOTE this is not ideal as there could be models across multiple packages *)
  modify (modelinfo.set_Package (Binding_Package binding)) ;;
  ret (mkBinding (Binding_Package binding) entities).

End generator.

Module fileio.

Import modelinfo.

(** ** The model file (package modelinfo, fileio.go)

    What [os.OpenFile], [ioutil.ReadAll] and [json.Unmarshal] yield for an
    existing file: an error of the open, an error of the read or of the
    decoding, or the decoded document.  [json.Unmarshal] fills a zeroed
    [ModelInfo], so a field absent from the file is zero (the empty string for
    a note). *)
Inductive FileContent : Type :=
| OpenFails (cause : string)
| ReadFails (cause : string)
| Decodes (model : ModelInfo).

(** The files that exist ([os.Stat]) and, for a path without a file, whether
    the file can be created and written. *)
Record FileSystem : Type := mkFileSystem {
  stat : string -> option FileContent;
  creatable : string -> Result unit
}.

Definition defaultNote1 : string :=
  "KEEP THIS FILE! Check it into a version control system (VCS) like git.".
Definition defaultNote2 : string :=
  "ObjectBox manages crucial IDs for your object model. See docs for details.".
Definition defaultNote3 : string :=
  "If you have VCS merge conflicts, you must resolve them according to ObjectBox docs.".

(** Modelled from the spec: the current version fields that a synthesized
    document carries (constants of package modelinfo, not among the sources);
    the value is the one of the generated model file of the test data. *)
Definition currentModelVersion : Z := 5.

(** Modelled from the spec: [createModelInfo] (not among the sources):
    "synthesize an empty Model Document with current version fields". *)
Definition createModelInfo : ModelInfo :=
  mkModelInfo defaultNote1 defaultNote2 defaultNote3 [] zeroIdUid zeroIdUid
    zeroIdUid currentModelVersion currentModelVersion [] [] [] [] "" [] [].

(** Modelled from the spec: [ModelInfo.fillMissing] (not among the sources):
    "fill any other missing optional fields with defaults", the version
    fields being handled by the caller.  The optional fields that can be
    missing in this model are the notes; a missing list is the empty list
    already. *)
Definition fillMissing (model : ModelInfo) : ModelInfo :=
  set_Notes
    (if (String.length (Note1 model) =? 0)%nat then defaultNote1 else Note1 model)
    (if (String.length (Note2 model) =? 0)%nat then defaultNote2 else Note2 model)
    (if (String.length (Note3 model) =? 0)%nat then defaultNote3 else Note3 model)
    model.

(** [loadModelFromJSONFile]. *)
Definition loadModelFromJSONFile (fs : FileSystem) (path : string) : Result ModelInfo :=
  match stat fs path with
  | None => Err (ErrFile path "file does not exist")
  | Some (OpenFails cause) => Err (ErrFile path cause)
  | Some (ReadFails cause) => Err (ErrFile path cause)
  | Some (Decodes model) =>
      (* until objectbox-go 0.9 we didn't have model version in the file but
         it was basically version 4; recognize this *)
      let model :=
        if (ModelVersion model =? 0) && (MinimumParserVersion model =? 0)
           && (String.length (Note1 model) =? 0)%nat
        then set_Versions 4 4 model
        else model in
      Ok (fillMissing model)
  end.

(** [createModelJSONFile]. *)
Definition createModelJSONFile (fs : FileSystem) (path : string) : Result ModelInfo :=
  match creatable fs path with
  | Err e => Err e
  | Ok _ => Ok createModelInfo
  end.

(** [fileExists]. *)
Definition fileExists (fs : FileSystem) (path : string) : bool :=
  match stat fs path with Some _ => true | None => false end.

(** [LoadOrCreateModel]. *)
Definition LoadOrCreateModel (fs : FileSystem) (path : string) : Result ModelInfo :=
  if fileExists fs path then loadModelFromJSONFile fs path
  else createModelJSONFile fs path.

End fileio.

(** ** Reading and writing the document at a pointer

    The element a pointer designates, and the document with that element
    replaced; the statements below are written with them. *)

Definition entityAt (m : modelinfo.ModelInfo) (e : nat) : option modelinfo.Entity :=
  modelinfo.Entities m !! e.

Definition propertyAt (m : modelinfo.ModelInfo) (e p : nat) : option modelinfo.Property :=
  match modelinfo.Entities m !! e with
  | Some x => modelinfo.Entity_Properties x !! p
  | None => None
  end.

Definition relationAt (m : modelinfo.ModelInfo) (e r : nat) : option modelinfo.StandaloneRelation :=
  match modelinfo.Entities m !! e with
  | Some x => modelinfo.Entity_Relations x !! r
  | None => None
  end.

Definition withEntity (e : nat) (x : modelinfo.Entity) (m : modelinfo.ModelInfo) : modelinfo.ModelInfo :=
  modelinfo.set_Entities (<[e := x]> (modelinfo.Entities m)) m.

Definition withProperty (e p : nat) (y : modelinfo.Property) (m : modelinfo.ModelInfo) : modelinfo.ModelInfo :=
  match modelinfo.Entities m !! e with
  | Some x =>
      withEntity e (modelinfo.set_Entity_Properties
                      (<[p := y]> (modelinfo.Entity_Properties x)) x) m
  | None => m
  end.

Definition withRelation (e r : nat) (y : modelinfo.StandaloneRelation) (m : modelinfo.ModelInfo) : modelinfo.ModelInfo :=
  match modelinfo.Entities m !! e with
  | Some x =>
      withEntity e (modelinfo.set_Entity_Relations
                      (<[r := y]> (modelinfo.Entity_Relations x)) x) m
  | None => m
  end.

(** What [mergeModelProperty] copies from the binding onto the model
    property after identity and index are settled. *)
Definition copyAttributes (bp : generator.Property) (y : modelinfo.Property) : modelinfo.Property :=
  modelinfo.set_Property_Flags (generator.Property_ObFlagsCombined bp)
    (modelinfo.set_Property_Type (generator.Property_ObType bp)
       (modelinfo.set_Property_RelationTarget
          (match generator.Property_Relation bp with Some target => target | None => "" end)
          y)).

(** The model property after the name and the explicit UID of the binding
    property are applied: the first two steps of [mergeModelProperty]. *)
Definition applyIdentity (bp : generator.Property) (y : modelinfo.Property) : modelinfo.Property :=
  let y1 := modelinfo.set_Property_Name (generator.Property_Name bp) y in
  if negb (generator.Property_Uid bp =? 0)
  then modelinfo.set_Property_Id
         (modelinfo.CreateIdUid (modelinfo.IdUid_id (modelinfo.Property_Id y1))
                                (generator.Property_Uid bp)) y1
  else y1.

(** The UIDs of the indexes that the properties of a list carry, in order. *)
Definition indexUids (l : list modelinfo.Property) : list Uid :=
  flat_map (fun y => match modelinfo.Property_IndexId y with
                     | Some i => [modelinfo.IdUid_uid i]
                     | None => []
                     end) l.

(** ** Relations between the document before and after a step *)

(** A computation keeps a relation when the document it leaves, with or
    without error, is related to the document it started from. *)
Definition preserves (R : modelinfo.ModelInfo -> modelinfo.ModelInfo -> Prop)
           {A} (c : modelinfo.M A) : Prop :=
  forall m, R m (snd (c m)).

(** A step on the entity at [e]: the other entities are the same, the one at
    [e] is related to the one before by [K], and the document as a whole is
    related to the one before by [G]. *)
Definition stepAt (K : modelinfo.Entity -> modelinfo.Entity -> Prop)
           (G : modelinfo.ModelInfo -> modelinfo.ModelInfo -> Prop)
           (e : nat) (m m' : modelinfo.ModelInfo) : Prop :=
  length (modelinfo.Entities m') = length (modelinfo.Entities m) /\
  (forall e', e' <> e -> entityAt m' e' = entityAt m e') /\
  (forall x, entityAt m e = Some x -> exists x', entityAt m' e = Some x' /\ K x x') /\
  G m m'.

(** What every step keeps of an entity: its identity pair, and a
    [lastPropertyId] whose local id did not decrease. *)
Definition entityKept (x x' : modelinfo.Entity) : Prop :=
  modelinfo.Entity_Id x' = modelinfo.Entity_Id x /\
  modelinfo.IdUid_id (modelinfo.Entity_LastPropertyId x) <=
  modelinfo.IdUid_id (modelinfo.Entity_LastPropertyId x').

(** What the steps on the relations of an entity keep of it: everything but
    its relations. *)
Definition propertiesKept (x x' : modelinfo.Entity) : Prop :=
  modelinfo.Entity_Id x' = modelinfo.Entity_Id x /\
  modelinfo.Entity_Name x' = modelinfo.Entity_Name x /\
  modelinfo.Entity_LastPropertyId x' = modelinfo.Entity_LastPropertyId x /\
  modelinfo.Entity_Properties x' = modelinfo.Entity_Properties x.

(** What the steps on the properties of an entity keep of it: its identity
    pair, its name and its relations. *)
Definition relationsKept (x x' : modelinfo.Entity) : Prop :=
  modelinfo.Entity_Id x' = modelinfo.Entity_Id x /\
  modelinfo.Entity_Name x' = modelinfo.Entity_Name x /\
  modelinfo.Entity_Relations x' = modelinfo.Entity_Relations x.

(** Relations between whole documents: none, and the retired property UIDs
    being the same. *)
Definition anyDocument (m m' : modelinfo.ModelInfo) : Prop := True.

Definition retiredPropertiesKept (m m' : modelinfo.ModelInfo) : Prop :=
  modelinfo.RetiredPropertyUids m' = modelinfo.RetiredPropertyUids m.

(** The package name of the document is the same. *)
Definition samePackage (m m' : modelinfo.ModelInfo) : Prop :=
  modelinfo.Package m' = modelinfo.Package m.

(** The document may have grown by entities, and every entity it had is
    kept. *)
Definition grows (m m' : modelinfo.ModelInfo) : Prop :=
  forall e x, entityAt m e = Some x -> exists x', entityAt m' e = Some x' /\ entityKept x x'.

(** ** A document that reflects a binding

    The binding property [bp] is settled in the entity [x] when the first
    property of its name is what a merge of [bp] would leave; likewise for a
    binding relation, whose target is the first entity of the target's name. *)

Definition propertySettled (bp : generator.Property) (x : modelinfo.Entity) : Prop :=
  exists p y,
    find_index (fun y => String.eqb (modelinfo.Property_Name y) (generator.Property_Name bp))
               (modelinfo.Entity_Properties x) = Some p /\
    modelinfo.Entity_Properties x !! p = Some y /\
    copyAttributes bp (applyIdentity bp y) = y /\
    (is_Some (modelinfo.Property_IndexId y) <-> is_Some (generator.Property_Index bp)).

Definition relationSettled (br : generator.StandaloneRelation) (x : modelinfo.Entity)
           (m : modelinfo.ModelInfo) : Prop :=
  exists r z t xt,
    find_index (fun z => String.eqb (modelinfo.Relation_Name z) (generator.Relation_Name br))
               (modelinfo.Entity_Relations x) = Some r /\
    modelinfo.Entity_Relations x !! r = Some z /\
    find_index (fun x => String.eqb (modelinfo.Entity_Name x) (generator.Relation_Target_Name br))
               (modelinfo.Entities m) = Some t /\
    modelinfo.Entities m !! t = Some xt /\
    modelinfo.Relation_TargetId z = modelinfo.Entity_Id xt.

Definition entitySettled (be : generator.Entity) (m : modelinfo.ModelInfo) : Prop :=
  exists e x,
    find_index (fun x => String.eqb (modelinfo.Entity_Name x) (generator.Entity_Name be))
               (modelinfo.Entities m) = Some e /\
    modelinfo.Entities m !! e = Some x /\
    (forall bp, bp ∈ generator.Entity_Properties be -> propertySettled bp x) /\
    (forall y, y ∈ modelinfo.Entity_Properties x ->
               generator.bindingPropertyExists y be = true) /\
    (forall br, br ∈ generator.Entity_Relations be -> relationSettled br x m) /\
    (forall z, z ∈ modelinfo.Entity_Relations x ->
               generator.bindingRelationExists z be = true).

Definition settled (binding : generator.Binding) (m : modelinfo.ModelInfo) : Prop :=
  modelinfo.Package m = generator.Binding_Package binding /\
  forall be, be ∈ generator.Binding_Entities binding -> entitySettled be m.

(** The names and identity pairs of the entities of a document, in order:
    what the lookups of entities and of relation targets read. *)
Definition entityHeads (m : modelinfo.ModelInfo) : list (string * modelinfo.IdUid) :=
  map (fun x => (modelinfo.Entity_Name x, modelinfo.Entity_Id x)) (modelinfo.Entities m).

(** No descriptor of the binding carries an explicit UID or a UID request. *)
Definition implicitEntity (be : generator.Entity) : Prop :=
  generator.Entity_Uid be = 0 /\ generator.Entity_uidRequest be = false /\
  (forall bp, bp ∈ generator.Entity_Properties be ->
     generator.Property_Uid bp = 0 /\ generator.Property_uidRequest bp = false) /\
  (forall br, br ∈ generator.Entity_Relations be ->
     generator.Relation_Uid br = 0 /\ generator.Relation_uidRequest br = false).

Definition implicitBinding (binding : generator.Binding) : Prop :=
  forall be, be ∈ generator.Binding_Entities binding -> implicitEntity be.

(** The names of the binding are pairwise distinct in every scope: entities,
    the properties of an entity, the relations of an entity. *)
Definition distinctNames (binding : generator.Binding) : Prop :=
  NoDup (map generator.Entity_Name (generator.Binding_Entities binding)) /\
  forall be, be ∈ generator.Binding_Entities binding ->
    NoDup (map generator.Property_Name (generator.Entity_Properties be)) /\
    NoDup (map generator.Relation_Name (generator.Entity_Relations be)).

(** ** Example documents and bindings *)

Module examples.

Import modelinfo.

(** A document as [json.Unmarshal] leaves it for a file with notes but
    without version fields. *)
Definition notedUnversioned : ModelInfo :=
  mkModelInfo fileio.defaultNote1 "" "" [] zeroIdUid zeroIdUid zeroIdUid
    0 0 [] [] [] [] "" [] [].

(** A document of the time before version fields: no notes, no versions. *)
Definition legacy : ModelInfo :=
  mkModelInfo "" "" "" [] zeroIdUid zeroIdUid zeroIdUid 0 0 [] [] [] [] "" [] [].

Definition modelPath : string := "objectbox-model.json".

Definition fsHolding (model : ModelInfo) : fileio.FileSystem :=
  fileio.mkFileSystem
    (fun path => if String.eqb path modelPath then Some (fileio.Decodes model) else None)
    (fun _ => Ok tt).

(** The document of the spec's example: entity "Task" with the properties
    Id (1:100) and Name (2:101). *)
Definition taskId : Property :=
  mkProperty (CreateIdUid 1 100) "Id" None 6 1 "".
Definition taskName : Property :=
  mkProperty (CreateIdUid 2 101) "Name" None 9 0 "".
Definition task : Entity :=
  mkEntity (CreateIdUid 1 10) (CreateIdUid 2 101) "Task" [taskId; taskName] [].
Definition taskDoc : ModelInfo :=
  mkModelInfo fileio.defaultNote1 fileio.defaultNote2 fileio.defaultNote3
    [task] (CreateIdUid 1 10) zeroIdUid zeroIdUid 5 5 [] [] [] [] "model"
    [100; 0; 555; 556; 557] [].

(** A binding property "Name" that carries the explicit UID 999, which the
    document does not know. *)
Definition bindingName999 : generator.Property :=
  generator.mkProperty 0 999 "Name" false None None 9 0 "Task".

(** The binding property "Name" renamed to "Title" under its UID 101. *)
Definition bindingTitle101 : generator.Property :=
  generator.mkProperty 0 101 "Title" false None None 9 0 "Task".

(** The binding property "Name" with an index requested. *)
Definition bindingNameIndexed : generator.Property :=
  generator.mkProperty 0 0 "Name" false (Some (generator.mkIndex 0 0)) None 9 8 "Task".

(** A binding entity "Task" that requests its UID. *)
Definition bindingTaskRequest : generator.Entity :=
  generator.mkEntity 0 0 "Task" true [] [] zeroIdUid.

(** A document with the entities "A" and "Old"; "A" owns the standalone
    relation "friends" to "Old". *)
Definition friends : StandaloneRelation :=
  mkRelation (CreateIdUid 1 77) "friends" (CreateIdUid 2 5).
Definition renameDoc : ModelInfo :=
  mkModelInfo fileio.defaultNote1 fileio.defaultNote2 fileio.defaultNote3
    [mkEntity (CreateIdUid 1 10) zeroIdUid "A" [] [friends];
     mkEntity (CreateIdUid 2 5) zeroIdUid "Old" [] []]
    (CreateIdUid 2 5) zeroIdUid (CreateIdUid 1 77) 5 5 [] [] [] [] "model"
    [555; 556; 557] [].

(** The binding after "Old" was renamed to "New" under its UID 5; the
    relation of "A" names its target by the new name. *)
Definition bindingA : generator.Entity :=
  generator.mkEntity 0 0 "A" false []
    [generator.mkRelation 0 0 "friends" false "New" 0 0] zeroIdUid.
Definition bindingNew : generator.Entity :=
  generator.mkEntity 0 5 "New" false [] [] zeroIdUid.
Definition renameBinding : generator.Binding :=
  generator.mkBinding "model" [bindingA; bindingNew].
Definition renameBindingSwapped : generator.Binding :=
  generator.mkBinding "model" [bindingNew; bindingA].

(** The binding of "Task" after "Name" was dropped and "Email" added, and
    after "Name" was added again. *)
Definition bindingId : generator.Property :=
  generator.mkProperty 0 0 "Id" false None None 6 1 "Task".
Definition bindingEmail : generator.Property :=
  generator.mkProperty 0 0 "Email" false None None 9 0 "Task".
Definition bindingNameAgain : generator.Property :=
  generator.mkProperty 0 0 "Name" false None None 9 0 "Task".
Definition bindingTaskEmail : generator.Entity :=
  generator.mkEntity 0 0 "Task" false [bindingId; bindingEmail] [] zeroIdUid.
Definition bindingTaskEmailName : generator.Entity :=
  generator.mkEntity 0 0 "Task" false [bindingId; bindingEmail; bindingNameAgain] []
    zeroIdUid.

(** The binding that the example document was written from: "Task" with
    "Id" and "Name", no UID annotations. *)
Definition bindingTask : generator.Binding :=
  generator.mkBinding "model"
    [generator.mkEntity 0 0 "Task" false [bindingId; bindingNameAgain] [] zeroIdUid].

(** The binding relation "friends" of "A" with the target "Old", and with a
    target "Other" that no entity of the document is named like. *)
Definition bindingFriendsOld : generator.StandaloneRelation :=
  generator.mkRelation 0 0 "friends" false "Old" 0 0.
Definition bindingFriendsOther : generator.StandaloneRelation :=
  generator.mkRelation 0 0 "pals" false "Other" 0 0.

(** The binding relation "friends" and the binding property "Name" with a
    UID request. *)
Definition bindingFriendsRequest : generator.StandaloneRelation :=
  generator.mkRelation 0 0 "friends" true "Old" 0 0.
Definition bindingNameRequest : generator.Property :=
  generator.mkProperty 0 0 "Name" true None None 9 0 "Task".

(** The binding entity "A" without relations. *)
Definition bindingALone : generator.Entity :=
  generator.mkEntity 0 0 "A" false [] [] zeroIdUid.

(** The binding with "Name" dropped and "Email" added, and a binding that
    declares "Name" twice, with an index the first time and without the
    second time. *)
Definition bindingEmailOnly : generator.Binding :=
  generator.mkBinding "model" [bindingTaskEmail].
Definition bindingNameTwice : generator.Binding :=
  generator.mkBinding "model"
    [generator.mkEntity 0 0 "Task" false [bindingId; bindingNameIndexed; bindingNameAgain] []
       zeroIdUid].


(** The binding of "Task" after "Name" was renamed to "Title" under its UID
    101. *)
Definition bindingTaskTitle : generator.Entity :=
  generator.mkEntity 0 0 "Task" false [bindingId; bindingTitle101] [] zeroIdUid.
Definition bindingTitle : generator.Binding :=
  generator.mkBinding "model" [bindingTaskTitle].

(** The outcomes of two runs on the example document, evaluated: the merge
    of the binding property "Name" with an index requested, and the merge of
    the binding entity "Task" with "Name" dropped and "Email" added. *)
Definition indexedRun : Result generator.Property * ModelInfo :=
  Eval vm_compute in generator.mergeModelProperty bindingNameIndexed (0%nat, 1%nat) taskDoc.
Definition emailRun : Result generator.Entity * ModelInfo :=
  Eval vm_compute in generator.mergeModelEntity bindingTaskEmail 0 taskDoc.

End examples.

(** * Properties *)

(** ** Loading the model file *)

Definition versions (r : Result modelinfo.ModelInfo) : option (Z * Z) :=
  match r with
  | Ok m => Some (modelinfo.ModelVersion m, modelinfo.MinimumParserVersion m)
  | Err _ => None
  end.

(** C9, as stated, fails: a file that carries the first note but no version
    field decodes to a document whose version fields are all zero, and the
    loader leaves them zero. *)
Lemma C9_backfill_counterexample :
  modelinfo.ModelVersion examples.notedUnversioned = 0 /\
  modelinfo.MinimumParserVersion examples.notedUnversioned = 0 /\
  versions (fileio.LoadOrCreateModel (examples.fsHolding examples.notedUnversioned)
              examples.modelPath) = Some (0, 0).
Proof. repeat split. Qed.

(** C9, amended: for every existing file that decodes to a document [d],
    [LoadOrCreateModel] returns a document; its version fields are both 4 when
    [d] has both version fields zero and an empty first note, and are the
    stored ones of [d] otherwise (a version field set, or the first note
    present). *)
Theorem C9_backfill_amended (fs : fileio.FileSystem) (path : string) (d : modelinfo.ModelInfo) :
  fileio.stat fs path = Some (fileio.Decodes d) ->
  versions (fileio.LoadOrCreateModel fs path) =
  Some (if (modelinfo.ModelVersion d =? 0) && (modelinfo.MinimumParserVersion d =? 0)
           && (String.length (modelinfo.Note1 d) =? 0)%nat
        then (4, 4)
        else (modelinfo.ModelVersion d, modelinfo.MinimumParserVersion d)).
Proof.
  intros Hstat.
  unfold fileio.LoadOrCreateModel, fileio.fileExists, fileio.loadModelFromJSONFile.
  rewrite Hstat.
  destruct ((modelinfo.ModelVersion d =? 0) && (modelinfo.MinimumParserVersion d =? 0)
            && (String.length (modelinfo.Note1 d) =? 0)%nat); reflexivity.
Qed.

Lemma C9_backfill_amended_witness :
  versions (fileio.LoadOrCreateModel (examples.fsHolding examples.legacy) examples.modelPath)
  = Some (4, 4).
Proof.
  exact (C9_backfill_amended (examples.fsHolding examples.legacy) examples.modelPath
           examples.legacy eq_refl).
Defined.

(** ** Lookups and the UID pool *)

Section find_index.
Context {A : Type} (test : A -> bool).

Lemma find_index_Some (l : list A) (i : nat) :
    find_index test l = Some i ->
    exists x, l !! i = Some x /\ test x = true /\
              forall j y, (j < i)%nat -> l !! j = Some y -> test y = false.
  Proof.
    revert i. induction l as [|a l IH]; intros i; simpl; [discriminate|].
    destruct (test a) eqn:Ha.
    - intros [= <-]. exists a. repeat split; auto. intros j y Hj. lia.
    - destruct (find_index test l) as [k|] eqn:Hk; simpl; [|discriminate].
      intros [= <-]. destruct (IH k eq_refl) as (x & Hx & Htx & Hlt).
      exists x. repeat split; auto.
      intros [|j] y Hj; simpl.
      + intros [= <-]. exact Ha.
      + apply Hlt. lia.
  Qed.

Lemma find_index_None (l : list A) :
    find_index test l = None <-> (forall x, x ∈ l -> test x = false).
  Proof.
    induction l as [|a l IH]; simpl.
    - split; auto. intros _ x Hx. inversion Hx.
    - destruct (test a) eqn:Ha.
      + split; [discriminate|]. intros H. specialize (H a (list_elem_of_here _ _)). congruence.
      + destruct (find_index test l) as [k|]; simpl.
        * split; [discriminate|]. intros H.
          assert (Some k = None) as Hn; [|discriminate].
          apply IH. intros x Hx. apply H. by apply list_elem_of_further.
        * split; auto. intros _ x Hx.
          apply elem_of_cons in Hx as [->|Hx]; auto. by apply IH.
  Qed.

Lemma find_index_is_Some (l : list A) (x : A) :
    x ∈ l -> test x = true -> exists i, find_index test l = Some i.
  Proof.
    intros Hx Ht. destruct (find_index test l) as [i|] eqn:Hf; eauto.
    rewrite find_index_None in Hf. rewrite (Hf x Hx) in Ht. discriminate.
  Qed.

Lemma find_index_lt (l : list A) (i : nat) :
    find_index test l = Some i -> (i < length l)%nat.
  Proof.
    intros H. destruct (find_index_Some _ _ H) as (x & Hx & _).
    by eapply lookup_lt_Some.
  Qed.
End find_index.

Lemma containsUid_true (known : list Uid) (u : Uid) :
  modelinfo.containsUid known u = true <-> u ∈ known.
Proof.
  unfold modelinfo.containsUid. rewrite existsb_exists. split.
  - intros (x & Hx & Heq). apply Z.eqb_eq in Heq. subst. by apply list_elem_of_In.
  - intros H. exists u. split; [by apply list_elem_of_In | apply Z.eqb_refl].
Qed.

Lemma containsUid_false (known : list Uid) (u : Uid) :
  modelinfo.containsUid known u = false <-> u ∉ known.
Proof.
  rewrite <- containsUid_true. destruct (modelinfo.containsUid known u); split; done.
Qed.

(** A drawn UID is not zero, is not known and comes from the random source. *)
Lemma draw_fresh (known tape : list Uid) (u : Uid) (rest : list Uid) :
  modelinfo.draw known tape = Some (u, rest) ->
  u <> 0 /\ (u ∉ known) /\ u ∈ tape.
Proof.
  induction tape as [|t tape IH]; simpl; [discriminate|].
  destruct (t =? 0) eqn:Hz; simpl.
  - intros H. destruct (IH H) as (? & ? & ?). repeat split; auto. by apply list_elem_of_further.
  - destruct (modelinfo.containsUid known t) eqn:Hc.
    + intros H. destruct (IH H) as (? & ? & ?). repeat split; auto. by apply list_elem_of_further.
    + intros [= <- <-]. apply Z.eqb_neq in Hz. apply containsUid_false in Hc.
      repeat split; auto. apply list_elem_of_here.
Qed.

(** The pool yields a UID as soon as the random source holds a usable value. *)
Lemma draw_succeeds (known tape : list Uid) (u : Uid) :
  u ∈ tape -> u <> 0 -> u ∉ known ->
  exists v rest, modelinfo.draw known tape = Some (v, rest).
Proof.
  induction tape as [|t tape IH]; intros Hin Hnz Hnk; [inversion Hin|].
  simpl. destruct ((t =? 0) || modelinfo.containsUid known t) eqn:Hb; [|eauto].
  apply elem_of_cons in Hin as [->|Hin]; [|auto].
  apply orb_true_iff in Hb as [Hb|Hb].
  - apply Z.eqb_eq in Hb. contradiction.
  - apply containsUid_true in Hb. contradiction.
Qed.

(** ** Entity resolution *)

(** C2: precedence of entity resolution.  (1) With an explicit UID the entity
    is the first one of the document with that UID, and resolution fails with
    the unknown-UID error when there is none; nothing is created.  (2) Without
    explicit UID and without UID request, an entity of the binding's name is
    the result.  (3) When no entity has the name, the counter is below its
    maximum and the random source holds a usable value, a new entity is
    appended; its local id is one past [lastEntityId.id], its UID is fresh. *)
Theorem C2_entity_resolution (be : generator.Entity) (m : modelinfo.ModelInfo) :
  (generator.Entity_Uid be <> 0 ->
     (exists e x, generator.getModelEntity be m = (Ok e, m) /\
                  modelinfo.Entities m !! e = Some x /\
                  modelinfo.IdUid_uid (modelinfo.Entity_Id x) = generator.Entity_Uid be)
     \/ (generator.getModelEntity be m = (Err (ErrEntityUidNotFound (generator.Entity_Uid be)), m) /\
         forall x, x ∈ modelinfo.Entities m ->
                   modelinfo.IdUid_uid (modelinfo.Entity_Id x) <> generator.Entity_Uid be)) /\
  (generator.Entity_Uid be = 0 -> generator.Entity_uidRequest be = false ->
     forall x, x ∈ modelinfo.Entities m ->
               modelinfo.Entity_Name x = generator.Entity_Name be ->
     exists e y, generator.getModelEntity be m = (Ok e, m) /\
                 modelinfo.Entities m !! e = Some y /\
                 modelinfo.Entity_Name y = generator.Entity_Name be) /\
  (generator.Entity_Uid be = 0 -> generator.Entity_uidRequest be = false ->
     (forall x, x ∈ modelinfo.Entities m ->
                modelinfo.Entity_Name x <> generator.Entity_Name be) ->
     modelinfo.IdUid_id (modelinfo.LastEntityId m) + 1 <= MaxId ->
     forall u, u ∈ modelinfo.rand m -> u <> 0 -> u ∉ modelinfo.knownUids m ->
     exists uid m',
       generator.getModelEntity be m = (Ok (length (modelinfo.Entities m)), m') /\
       uid <> 0 /\ (uid ∉ modelinfo.knownUids m) /\
       modelinfo.Entities m' =
         modelinfo.Entities m ++
         [modelinfo.mkEntity
            (modelinfo.CreateIdUid (modelinfo.IdUid_id (modelinfo.LastEntityId m) + 1) uid)
            modelinfo.zeroIdUid (generator.Entity_Name be) [] []] /\
       modelinfo.LastEntityId m' =
         modelinfo.CreateIdUid (modelinfo.IdUid_id (modelinfo.LastEntityId m) + 1) uid).
Proof.
  unfold generator.getModelEntity. repeat split.
  - intros Hu. apply Z.eqb_neq in Hu. rewrite Hu. simpl.
    unfold modelinfo.FindEntityByUid.
    destruct (find_index _ (modelinfo.Entities m)) as [e|] eqn:Hf.
    + left. destruct (find_index_Some _ _ _ Hf) as (x & Hx & Ht & _).
      exists e, x. repeat split; auto. by apply Z.eqb_eq in Ht.
    + right. split; auto. intros x Hx.
      rewrite find_index_None in Hf. specialize (Hf x Hx). by apply Z.eqb_neq in Hf.
  - intros Hu Hr x Hx Hn. rewrite Hu, Hr. simpl.
    unfold modelinfo.bind, modelinfo.ignoreErr, modelinfo.FindEntityByName.
    destruct (find_index_is_Some (fun x => String.eqb (modelinfo.Entity_Name x)
                                   (generator.Entity_Name be)) _ x Hx) as [e He].
    { by apply String.eqb_eq. }
    rewrite He. destruct (find_index_Some _ _ _ He) as (y & Hy & Ht & _).
    exists e, y. repeat split; auto. by apply String.eqb_eq in Ht.
  - intros Hu Hr Hnone Hid u Hin Hnz Hnk. rewrite Hu, Hr. simpl.
    unfold modelinfo.bind, modelinfo.ignoreErr, modelinfo.FindEntityByName.
    assert (find_index (fun x => String.eqb (modelinfo.Entity_Name x)
                                   (generator.Entity_Name be)) (modelinfo.Entities m) = None) as ->.
    { apply find_index_None. intros x Hx. apply String.eqb_neq. by apply Hnone. }
    unfold modelinfo.CreateEntity, modelinfo.bind, modelinfo.get, modelinfo.lift,
      modelinfo.nextId, modelinfo.GenerateUid.
    apply Z.leb_le in Hid. rewrite Hid.
    destruct (draw_succeeds _ _ u Hin Hnz Hnk) as (v & rest & Hd). rewrite Hd.
    destruct (draw_fresh _ _ _ _ Hd) as (Hv0 & Hvk & _).
    exists v. eexists. split; [reflexivity|]. repeat split; auto.
Qed.

(** Resolving an entity only ever appends to the entity list. *)
Lemma getModelEntity_appends (be : generator.Entity) (m : modelinfo.ModelInfo) :
  exists added,
    modelinfo.Entities (snd (generator.getModelEntity be m)) = modelinfo.Entities m ++ added.
Proof.
  unfold generator.getModelEntity.
  destruct (negb (generator.Entity_Uid be =? 0)).
  - unfold modelinfo.FindEntityByUid. exists [].
    destruct (find_index _ _); simpl; by rewrite app_nil_r.
  - unfold modelinfo.bind, modelinfo.ignoreErr, modelinfo.FindEntityByName.
    destruct (find_index _ (modelinfo.Entities m)) as [e|];
      destruct (generator.Entity_uidRequest be).
    + exists []. rewrite app_nil_r. unfold modelinfo.getEntity.
      destruct (modelinfo.Entities m !! e); reflexivity.
    + exists []. by rewrite app_nil_r.
    + exists []. by rewrite app_nil_r.
    + unfold modelinfo.CreateEntity, modelinfo.bind, modelinfo.get, modelinfo.lift,
        modelinfo.GenerateUid.
      destruct (modelinfo.nextId (modelinfo.LastEntityId m)).
      * destruct (modelinfo.draw (modelinfo.knownUids m) (modelinfo.rand m))
          as [[u rest]|]; simpl.
        -- eexists; reflexivity.
        -- exists []; by rewrite app_nil_r.
      * exists []; by rewrite app_nil_r.
Qed.

Lemma getModelEntities_appends (bes : list generator.Entity) (m : modelinfo.ModelInfo) :
  exists added,
    modelinfo.Entities (snd (generator.getModelEntities bes m)) = modelinfo.Entities m ++ added.
Proof.
  revert m. induction bes as [|be bes IH]; intros m; simpl.
  - exists []; by rewrite app_nil_r.
  - unfold modelinfo.bind.
    destruct (getModelEntity_appends be m) as [a1 H1].
    destruct (generator.getModelEntity be m) as [[e|err] m1]; simpl in *.
    + destruct (IH m1) as [a2 H2].
      destruct (generator.getModelEntities bes m1) as [[es|err] m2]; simpl in *;
        exists (a1 ++ a2); by rewrite H2, H1, app_assoc.
    + by exists a1.
Qed.

(** A UID request without explicit UID stops the first loop of the merge. *)
Lemma getModelEntity_uidRequest (be : generator.Entity) (m : modelinfo.ModelInfo) :
  generator.Entity_Uid be = 0 -> generator.Entity_uidRequest be = true ->
  generator.getModelEntity be m =
  (Err (ErrUidRequestEntity
          (match find_index (fun x => String.eqb (modelinfo.Entity_Name x)
                                        (generator.Entity_Name be)) (modelinfo.Entities m) with
           | Some e => option_map (fun x => modelinfo.IdUid_uid (modelinfo.Entity_Id x))
                                  (modelinfo.Entities m !! e)
           | None => None
           end)
          (generator.Entity_Name be)), m).
Proof.
  intros Hu Hr. unfold generator.getModelEntity. rewrite Hu, Hr. simpl.
  unfold modelinfo.bind, modelinfo.ignoreErr, modelinfo.FindEntityByName.
  destruct (find_index _ (modelinfo.Entities m)) as [e|] eqn:Hf; [|reflexivity].
  destruct (find_index_Some _ _ _ Hf) as (x & Hx & _).
  unfold modelinfo.getEntity. rewrite Hx. reflexivity.
Qed.

Lemma getModelEntities_uidRequest (bes : list generator.Entity) (be : generator.Entity)
      (m : modelinfo.ModelInfo) :
  be ∈ bes ->
  generator.Entity_Uid be = 0 -> generator.Entity_uidRequest be = true ->
  isOk (fst (generator.getModelEntities bes m)) = false.
Proof.
  intros Hin Hu Hr. revert m.
  induction bes as [|b bes IH]; intros m; [inversion Hin|].
  simpl. unfold modelinfo.bind.
  apply elem_of_cons in Hin as [<-|Hin].
  - by rewrite getModelEntity_uidRequest.
  - destruct (generator.getModelEntity b m) as [[e|err] m1]; [|reflexivity].
    specialize (IH Hin m1).
    destruct (generator.getModelEntities bes m1) as [[es|err] m2]; simpl in *; done.
Qed.

(** C4: a binding entity with the UID request flag and no explicit UID makes
    resolution fail and leaves the document as it is.  The error carries the
    UID of the first entity of that name when there is one, and reports the
    entity as not found otherwise.  The merge of any binding that holds such
    an entity fails as well, and every entity the document had is still in
    place, unchanged. *)
Theorem C4_uid_request_fails (be : generator.Entity) (m : modelinfo.ModelInfo) :
  generator.Entity_Uid be = 0 -> generator.Entity_uidRequest be = true ->
  ((exists e x,
       modelinfo.Entities m !! e = Some x /\
       modelinfo.Entity_Name x = generator.Entity_Name be /\
       generator.getModelEntity be m =
       (Err (ErrUidRequestEntity (Some (modelinfo.IdUid_uid (modelinfo.Entity_Id x)))
                                 (generator.Entity_Name be)), m))
   \/ ((forall x, x ∈ modelinfo.Entities m ->
                  modelinfo.Entity_Name x <> generator.Entity_Name be) /\
       generator.getModelEntity be m =
       (Err (ErrUidRequestEntity None (generator.Entity_Name be)), m))) /\
  (forall binding, be ∈ generator.Binding_Entities binding ->
     isOk (fst (generator.mergeBindingWithModelInfo binding m)) = false /\
     exists added,
       modelinfo.Entities (snd (generator.mergeBindingWithModelInfo binding m)) =
       modelinfo.Entities m ++ added).
Proof.
  intros Hu Hr. split.
  - rewrite (getModelEntity_uidRequest be m Hu Hr).
    destruct (find_index _ (modelinfo.Entities m)) as [e|] eqn:Hf.
    + left. destruct (find_index_Some _ _ _ Hf) as (x & Hx & Ht & _).
      exists e, x. rewrite Hx. simpl. repeat split; auto. by apply String.eqb_eq.
    + right. split; auto. intros x Hx. apply String.eqb_neq.
      rewrite find_index_None in Hf. by apply Hf.
  - intros binding Hin. unfold generator.mergeBindingWithModelInfo, modelinfo.bind.
    pose proof (getModelEntities_uidRequest _ be m Hin Hu Hr) as Hfail.
    pose proof (getModelEntities_appends (generator.Binding_Entities binding) m) as Happ.
    destruct (generator.getModelEntities (generator.Binding_Entities binding) m)
      as [[es|err] m1]; simpl in *; [discriminate|]. split; auto.
Qed.

(** ** Pointer operations *)

Lemma getEntity_eq (m : modelinfo.ModelInfo) (e : nat) (x : modelinfo.Entity) :
  entityAt m e = Some x -> modelinfo.getEntity e m = (Ok x, m).
Proof. unfold entityAt, modelinfo.getEntity. by intros ->. Qed.

Lemma updEntity_eq (m : modelinfo.ModelInfo) (e : nat) (x : modelinfo.Entity) f :
  entityAt m e = Some x -> modelinfo.updEntity e f m = (Ok tt, withEntity e (f x) m).
Proof.
  intros H. unfold modelinfo.updEntity, modelinfo.bind. by rewrite (getEntity_eq _ _ _ H).
Qed.

Lemma getProperty_eq (m : modelinfo.ModelInfo) (e p : nat) (y : modelinfo.Property) :
  propertyAt m e p = Some y -> modelinfo.getProperty e p m = (Ok y, m).
Proof.
  unfold propertyAt, modelinfo.getProperty, modelinfo.bind, modelinfo.getEntity.
  destruct (modelinfo.Entities m !! e); [|discriminate]. by intros ->.
Qed.

Lemma updProperty_eq (m : modelinfo.ModelInfo) (e p : nat) (y : modelinfo.Property) f :
  propertyAt m e p = Some y -> modelinfo.updProperty e p f m = (Ok tt, withProperty e p (f y) m).
Proof.
  intros H. unfold modelinfo.updProperty, modelinfo.bind. rewrite (getProperty_eq _ _ _ _ H).
  unfold propertyAt in H. unfold withProperty.
  destruct (modelinfo.Entities m !! e) as [x|] eqn:Hx; [|discriminate].
  by rewrite (updEntity_eq m e x).
Qed.

Lemma getRelation_eq (m : modelinfo.ModelInfo) (e r : nat) (y : modelinfo.StandaloneRelation) :
  relationAt m e r = Some y -> modelinfo.getRelation e r m = (Ok y, m).
Proof.
  unfold relationAt, modelinfo.getRelation, modelinfo.bind, modelinfo.getEntity.
  destruct (modelinfo.Entities m !! e); [|discriminate]. by intros ->.
Qed.

Lemma updRelation_eq (m : modelinfo.ModelInfo) (e r : nat) (y : modelinfo.StandaloneRelation) f :
  relationAt m e r = Some y -> modelinfo.updRelation e r f m = (Ok tt, withRelation e r (f y) m).
Proof.
  intros H. unfold modelinfo.updRelation, modelinfo.bind. rewrite (getRelation_eq _ _ _ _ H).
  unfold relationAt in H. unfold withRelation.
  destruct (modelinfo.Entities m !! e) as [x|] eqn:Hx; [|discriminate].
  by rewrite (updEntity_eq m e x).
Qed.

Lemma entityAt_withEntity (m : modelinfo.ModelInfo) (e : nat) (x x' : modelinfo.Entity) :
  entityAt m e = Some x -> entityAt (withEntity e x' m) e = Some x'.
Proof.
  unfold entityAt, withEntity. simpl. intros H.
  apply list_lookup_insert_eq. by eapply lookup_lt_Some.
Qed.

Lemma entityAt_withEntity_ne (m : modelinfo.ModelInfo) (e e' : nat) (x' : modelinfo.Entity) :
  e <> e' -> entityAt (withEntity e x' m) e' = entityAt m e'.
Proof. unfold entityAt, withEntity. simpl. intros H. by apply list_lookup_insert_ne. Qed.

Lemma propertyAt_withProperty (m : modelinfo.ModelInfo) (e p : nat) (y y' : modelinfo.Property) :
  propertyAt m e p = Some y -> propertyAt (withProperty e p y' m) e p = Some y'.
Proof.
  unfold propertyAt, withProperty.
  destruct (modelinfo.Entities m !! e) as [x|] eqn:Hx; [|discriminate].
  intros Hy. unfold withEntity. simpl.
  rewrite list_lookup_insert_eq by (by eapply lookup_lt_Some). simpl.
  apply list_lookup_insert_eq. by eapply lookup_lt_Some.
Qed.

Lemma withProperty_twice (m : modelinfo.ModelInfo) (e p : nat) (y y' : modelinfo.Property) :
  withProperty e p y' (withProperty e p y m) = withProperty e p y' m.
Proof.
  unfold withProperty.
  destruct (modelinfo.Entities m !! e) as [x|] eqn:Hx; [|by rewrite Hx].
  unfold withEntity. simpl.
  rewrite list_lookup_insert_eq by (by eapply lookup_lt_Some). simpl.
  unfold modelinfo.set_Entities. simpl. f_equal.
  by rewrite list_insert_insert_eq, list_insert_insert_eq.
Qed.

Lemma propertyAt_pool m e p tape handed :
  propertyAt (modelinfo.set_pool tape handed m) e p = propertyAt m e p.
Proof. reflexivity. Qed.

Lemma propertyAt_retiredIndex m e p v :
  propertyAt (modelinfo.set_RetiredIndexUids v m) e p = propertyAt m e p.
Proof. reflexivity. Qed.

Lemma propertyAt_lastIndex m e p v :
  propertyAt (modelinfo.set_LastIndexId v m) e p = propertyAt m e p.
Proof. reflexivity. Qed.

Lemma withProperty_pool m e p y tape handed :
  withProperty e p y (modelinfo.set_pool tape handed m) =
  modelinfo.set_pool tape handed (withProperty e p y m).
Proof.
  unfold withProperty. simpl. by destruct (modelinfo.Entities m !! e).
Qed.

Lemma withProperty_retiredIndex m e p y v :
  withProperty e p y (modelinfo.set_RetiredIndexUids v m) =
  modelinfo.set_RetiredIndexUids v (withProperty e p y m).
Proof.
  unfold withProperty. simpl. by destruct (modelinfo.Entities m !! e).
Qed.

Lemma withProperty_lastIndex m e p y v :
  withProperty e p y (modelinfo.set_LastIndexId v m) =
  modelinfo.set_LastIndexId v (withProperty e p y m).
Proof.
  unfold withProperty. simpl. by destruct (modelinfo.Entities m !! e).
Qed.

(** Replacing a property leaves the other fields of the document alone. *)
Lemma withProperty_frame m e p y :
  let m' := withProperty e p y m in
  modelinfo.LastEntityId m' = modelinfo.LastEntityId m /\
  modelinfo.LastIndexId m' = modelinfo.LastIndexId m /\
  modelinfo.LastRelationId m' = modelinfo.LastRelationId m /\
  modelinfo.RetiredEntityUids m' = modelinfo.RetiredEntityUids m /\
  modelinfo.RetiredIndexUids m' = modelinfo.RetiredIndexUids m /\
  modelinfo.RetiredPropertyUids m' = modelinfo.RetiredPropertyUids m /\
  modelinfo.RetiredRelationUids m' = modelinfo.RetiredRelationUids m /\
  modelinfo.rand m' = modelinfo.rand m /\
  modelinfo.issued m' = modelinfo.issued m /\
  modelinfo.Package m' = modelinfo.Package m.
Proof.
  unfold withProperty. destruct (modelinfo.Entities m !! e); simpl; repeat split.
Qed.

Lemma withProperty_RetiredIndexUids m e p y :
  modelinfo.RetiredIndexUids (withProperty e p y m) = modelinfo.RetiredIndexUids m.
Proof. apply withProperty_frame. Qed.

Lemma withProperty_LastIndexId m e p y :
  modelinfo.LastIndexId (withProperty e p y m) = modelinfo.LastIndexId m.
Proof. apply withProperty_frame. Qed.

Lemma withProperty_rand m e p y :
  modelinfo.rand (withProperty e p y m) = modelinfo.rand m.
Proof. apply withProperty_frame. Qed.

Lemma withProperty_issued m e p y :
  modelinfo.issued (withProperty e p y m) = modelinfo.issued m.
Proof. apply withProperty_frame. Qed.

Ltac solve_at :=
  first [ eassumption
        | rewrite propertyAt_pool; solve_at
        | rewrite propertyAt_retiredIndex; solve_at
        | rewrite propertyAt_lastIndex; solve_at
        | eapply propertyAt_withProperty; solve_at ].

Ltac step_property :=
  first [ erewrite updProperty_eq by solve_at
        | erewrite getProperty_eq by solve_at ];
  cbv beta iota.

Ltac run_property :=
  repeat (unfold modelinfo.bind at 1; try step_property;
          unfold modelinfo.lift, modelinfo.ret, modelinfo.Get; cbv beta iota).

(** The first two steps of [mergeModelProperty] on a valid pointer: name and
    explicit UID. *)
Lemma identity_steps bp e p m y (k : modelinfo.M generator.Property) :
  propertyAt m e p = Some y ->
  (modelinfo.updProperty e p (modelinfo.set_Property_Name (generator.Property_Name bp)) ;;
   (if negb (generator.Property_Uid bp =? 0) then
      let* y := modelinfo.getProperty e p in
      let* (id, _) := modelinfo.lift (modelinfo.Get (modelinfo.Property_Id y)) in
      modelinfo.updProperty e p
        (modelinfo.set_Property_Id (modelinfo.CreateIdUid id (generator.Property_Uid bp)))
    else modelinfo.ret tt) ;; k) m =
  k (withProperty e p (applyIdentity bp y) m).
Proof.
  intros Hy. unfold applyIdentity.
  unfold modelinfo.bind at 1. step_property.
  unfold modelinfo.bind at 1.
  destruct (negb (generator.Property_Uid bp =? 0)).
  - unfold modelinfo.bind at 1. step_property.
    unfold modelinfo.lift, modelinfo.bind at 1. simpl.
    step_property. rewrite withProperty_twice. reflexivity.
  - reflexivity.
Qed.

Lemma applyIdentity_IndexId bp y :
  modelinfo.Property_IndexId (applyIdentity bp y) = modelinfo.Property_IndexId y.
Proof. unfold applyIdentity. by destruct (negb _). Qed.

(** [mergeModelProperty] when the binding requests no index and the model
    property has none. *)
Lemma mergeModelProperty_no_index bp e p m y :
  propertyAt m e p = Some y ->
  generator.Property_Index bp = None ->
  modelinfo.Property_IndexId y = None ->
  generator.mergeModelProperty bp (e, p) m =
  (Ok (generator.set_Property_IdUid
         (modelinfo.IdUid_id (modelinfo.Property_Id (applyIdentity bp y)))
         (modelinfo.IdUid_uid (modelinfo.Property_Id (applyIdentity bp y))) bp),
   withProperty e p (copyAttributes bp (applyIdentity bp y)) m).
Proof.
  intros Hy Hi Hn. unfold generator.mergeModelProperty.
  rewrite (identity_steps bp e p m y _ Hy).
  pose proof (propertyAt_withProperty m e p y (applyIdentity bp y) Hy) as Hy2.
  pose proof (applyIdentity_IndexId bp y) as Hix. rewrite Hn in Hix.
  set (y2 := applyIdentity bp y) in *. set (m2 := withProperty e p y2 m) in *.
  unfold modelinfo.bind at 1. step_property.
  unfold modelinfo.bind at 1. unfold modelinfo.lift, modelinfo.Get. cbv beta iota.
  simpl generator.Property_Index. rewrite Hi.
  unfold modelinfo.bind at 1. unfold modelinfo.bind at 1. step_property. rewrite Hix.
  unfold modelinfo.ret at 1. cbv beta iota.
  unfold modelinfo.bind at 1. step_property.
  unfold modelinfo.bind at 1. step_property.
  unfold modelinfo.bind at 1. step_property.
  unfold modelinfo.ret. subst m2. rewrite !withProperty_twice. reflexivity.
Qed.

(** ... when the binding requests no index and the model property has one:
    the index is removed and its UID retired. *)
Lemma mergeModelProperty_drop_index bp e p m y i :
  propertyAt m e p = Some y ->
  generator.Property_Index bp = None ->
  modelinfo.Property_IndexId y = Some i ->
  generator.mergeModelProperty bp (e, p) m =
  (Ok (generator.set_Property_IdUid
         (modelinfo.IdUid_id (modelinfo.Property_Id (applyIdentity bp y)))
         (modelinfo.IdUid_uid (modelinfo.Property_Id (applyIdentity bp y))) bp),
   modelinfo.set_RetiredIndexUids
     (modelinfo.RetiredIndexUids m ++ [modelinfo.IdUid_uid i])
     (withProperty e p
        (copyAttributes bp (modelinfo.set_Property_IndexId None (applyIdentity bp y))) m)).
Proof.
  intros Hy Hi Hn. unfold generator.mergeModelProperty.
  rewrite (identity_steps bp e p m y _ Hy).
  pose proof (propertyAt_withProperty m e p y (applyIdentity bp y) Hy) as Hy2.
  pose proof (applyIdentity_IndexId bp y) as Hix. rewrite Hn in Hix.
  set (y2 := applyIdentity bp y) in *. set (m2 := withProperty e p y2 m) in *.
  unfold modelinfo.bind at 1. step_property.
  unfold modelinfo.bind at 1. unfold modelinfo.lift, modelinfo.Get. cbv beta iota.
  simpl generator.Property_Index. rewrite Hi.
  unfold modelinfo.bind at 1. unfold modelinfo.bind at 1. step_property. rewrite Hix.
  unfold modelinfo.bind at 1. unfold modelinfo.RemoveIndex. simpl fst. simpl snd.
  unfold modelinfo.bind at 1. step_property. rewrite Hix.
  unfold modelinfo.bind at 1. unfold modelinfo.modify at 1. cbv beta iota.
  step_property.
  unfold modelinfo.ret at 1. cbv beta iota.
  unfold modelinfo.bind at 1. step_property.
  unfold modelinfo.bind at 1. step_property.
  unfold modelinfo.bind at 1. step_property.
  unfold modelinfo.ret. subst m2.
  rewrite !withProperty_retiredIndex, !withProperty_twice, withProperty_RetiredIndexUids.
  reflexivity.
Qed.

(** ... when the binding requests an index and the model property has one:
    the index is kept and read back. *)
Lemma mergeModelProperty_keep_index bp e p m y ix i :
  propertyAt m e p = Some y ->
  generator.Property_Index bp = Some ix ->
  modelinfo.Property_IndexId y = Some i ->
  generator.mergeModelProperty bp (e, p) m =
  (Ok (generator.set_Property_Index
         (Some (generator.mkIndex (modelinfo.IdUid_id i) (modelinfo.IdUid_uid i)))
         (generator.set_Property_IdUid
            (modelinfo.IdUid_id (modelinfo.Property_Id (applyIdentity bp y)))
            (modelinfo.IdUid_uid (modelinfo.Property_Id (applyIdentity bp y))) bp)),
   withProperty e p (copyAttributes bp (applyIdentity bp y)) m).
Proof.
  intros Hy Hi Hn. unfold generator.mergeModelProperty.
  rewrite (identity_steps bp e p m y _ Hy).
  pose proof (propertyAt_withProperty m e p y (applyIdentity bp y) Hy) as Hy2.
  pose proof (applyIdentity_IndexId bp y) as Hix. rewrite Hn in Hix.
  set (y2 := applyIdentity bp y) in *. set (m2 := withProperty e p y2 m) in *.
  unfold modelinfo.bind at 1. step_property.
  unfold modelinfo.bind at 1. unfold modelinfo.lift, modelinfo.Get. cbv beta iota.
  simpl generator.Property_Index. rewrite Hi.
  unfold modelinfo.bind at 1. unfold modelinfo.bind at 1. unfold modelinfo.bind at 1.
  step_property. rewrite Hix.
  unfold modelinfo.ret at 1. cbv beta iota.
  unfold modelinfo.bind at 1. step_property. rewrite Hix.
  unfold modelinfo.bind at 1. unfold modelinfo.lift, modelinfo.Get. cbv beta iota.
  unfold modelinfo.ret at 1. cbv beta iota.
  unfold modelinfo.bind at 1. step_property.
  unfold modelinfo.bind at 1. step_property.
  unfold modelinfo.bind at 1. step_property.
  unfold modelinfo.ret. subst m2.
  rewrite !withProperty_twice. reflexivity.
Qed.

(** ... when the binding requests an index and the model property has none:
    an index identity is created from the document's [lastIndexId] and the
    UID pool, unless the counter or the pool is exhausted. *)
Lemma mergeModelProperty_create_index bp e p m y ix :
  propertyAt m e p = Some y ->
  generator.Property_Index bp = Some ix ->
  modelinfo.Property_IndexId y = None ->
  generator.mergeModelProperty bp (e, p) m =
  let m2 := withProperty e p (applyIdentity bp y) m in
  match modelinfo.nextId (modelinfo.LastIndexId m) with
  | Err err => (Err err, m2)
  | Ok id =>
      match modelinfo.draw (modelinfo.knownUids m2) (modelinfo.rand m) with
      | None => (Err ErrUidExhausted, modelinfo.set_pool [] (modelinfo.issued m) m2)
      | Some (u, rest) =>
          (Ok (generator.set_Property_Index (Some (generator.mkIndex id u))
                 (generator.set_Property_IdUid
                    (modelinfo.IdUid_id (modelinfo.Property_Id (applyIdentity bp y)))
                    (modelinfo.IdUid_uid (modelinfo.Property_Id (applyIdentity bp y))) bp)),
           modelinfo.set_LastIndexId (modelinfo.CreateIdUid id u)
             (modelinfo.set_pool rest (modelinfo.issued m ++ [u])
                (withProperty e p
                   (copyAttributes bp
                      (modelinfo.set_Property_IndexId (Some (modelinfo.CreateIdUid id u))
                         (applyIdentity bp y))) m)))
      end
  end.
Proof.
  intros Hy Hi Hn. unfold generator.mergeModelProperty.
  rewrite (identity_steps bp e p m y _ Hy).
  pose proof (propertyAt_withProperty m e p y (applyIdentity bp y) Hy) as Hy2.
  pose proof (applyIdentity_IndexId bp y) as Hix. rewrite Hn in Hix.
  set (y2 := applyIdentity bp y) in *. cbv zeta. set (m2 := withProperty e p y2 m) in *.
  unfold modelinfo.bind at 1. step_property.
  unfold modelinfo.bind at 1. unfold modelinfo.lift, modelinfo.Get. cbv beta iota.
  simpl generator.Property_Index. rewrite Hi.
  unfold modelinfo.bind at 1. unfold modelinfo.bind at 1. unfold modelinfo.bind at 1.
  step_property. rewrite Hix.
  unfold modelinfo.CreateIndex. simpl fst. simpl snd.
  unfold modelinfo.bind at 1. unfold modelinfo.get at 1. cbv beta iota.
  unfold modelinfo.bind at 1.
  assert (modelinfo.LastIndexId m2 = modelinfo.LastIndexId m) as -> by apply withProperty_LastIndexId.
  destruct (modelinfo.nextId (modelinfo.LastIndexId m)) as [id|err]; [|reflexivity].
  unfold modelinfo.bind at 1. unfold modelinfo.GenerateUid at 1.
  unfold modelinfo.lift at 1. cbv beta iota.
  assert (modelinfo.rand m2 = modelinfo.rand m) as -> by apply withProperty_rand.
  assert (modelinfo.issued m2 = modelinfo.issued m) as -> by apply withProperty_issued.
  destruct (modelinfo.draw (modelinfo.knownUids m2) (modelinfo.rand m)) as [[u rest]|];
    [|reflexivity].
  cbv beta iota.
  unfold modelinfo.bind, modelinfo.modify, modelinfo.lift, modelinfo.Get, modelinfo.ret.
  repeat (step_property;
          cbn [modelinfo.Property_IndexId modelinfo.set_Property_IndexId]; cbv beta iota).
  subst m2. simpl modelinfo.IdUid_id. simpl modelinfo.IdUid_uid.
  rewrite !withProperty_lastIndex, !withProperty_pool, !withProperty_twice. reflexivity.
Qed.

Lemma C4_uid_request_fails_witness :
  isOk (fst (generator.mergeBindingWithModelInfo
               (generator.mkBinding "model" [examples.bindingTaskRequest])
               examples.taskDoc)) = false.
Proof.
  exact (proj1 (proj2 (C4_uid_request_fails examples.bindingTaskRequest examples.taskDoc
                         eq_refl eq_refl)
                  (generator.mkBinding "model" [examples.bindingTaskRequest])
                  (list_elem_of_here _ _))).
Defined.

(** ** Property resolution *)

(** Resolution of a binding property with an explicit UID: by UID, else by
    name, else the two lookup errors joined. *)
Lemma getModelProperty_explicit bp e m x :
  entityAt m e = Some x ->
  generator.Property_Uid bp <> 0 ->
  generator.getModelProperty bp e m =
  match find_index (fun y => modelinfo.IdUid_uid (modelinfo.Property_Id y) =? generator.Property_Uid bp)
                   (modelinfo.Entity_Properties x) with
  | Some p => (Ok (e, p), m)
  | None =>
      match find_index (fun y => String.eqb (modelinfo.Property_Name y) (generator.Property_Name bp))
                       (modelinfo.Entity_Properties x) with
      | Some p => (Ok (e, p), m)
      | None => (Err (ErrJoin (ErrPropertyUidNotFound (generator.Property_Uid bp) (modelinfo.Entity_Name x))
                              (ErrPropertyNameNotFound (generator.Property_Name bp) (modelinfo.Entity_Name x))), m)
      end
  end.
Proof.
  intros Hx Hu. unfold generator.getModelProperty.
  apply Z.eqb_neq in Hu. rewrite Hu. change (negb false) with true. cbv iota beta.
  unfold modelinfo.FindPropertyByUid, modelinfo.FindPropertyByName, modelinfo.bind.
  rewrite !(getEntity_eq _ _ _ Hx).
  destruct (find_index _ (modelinfo.Entity_Properties x)) as [p|]; [reflexivity|].
  unfold modelinfo.fail. cbv beta iota. rewrite (getEntity_eq _ _ _ Hx).
  destruct (find_index _ (modelinfo.Entity_Properties x)) as [p|]; reflexivity.
Qed.

(** C3, as stated, fails: the UID 999 is not known anywhere in the document,
    and the binding property that carries it is matched by its name; the
    merge then succeeds and gives the matched property the UID 999. *)
Lemma C3_unknown_uid_counterexample :
  modelinfo.containsUid (modelinfo.knownUids examples.taskDoc) 999 = false /\
  generator.getModelProperty examples.bindingName999 0 examples.taskDoc =
    (Ok (0%nat, 1%nat), examples.taskDoc) /\
  option_map modelinfo.Property_Id
    (propertyAt (snd (generator.mergeModelProperty examples.bindingName999 (0%nat, 1%nat)
                        examples.taskDoc)) 0 1)
  = Some (modelinfo.CreateIdUid 2 999).
Proof. repeat split. Qed.

(** C3, amended: a binding property carries an explicit non-zero UID that no
    property of the model entity has.  If the entity has no property of the
    binding's name either, resolution fails with the identity-not-found error
    that names the UID, joined with the error of the name lookup, and the
    document is untouched.  If the entity has a property of that name,
    resolution succeeds with a property of that name (the "reset property
    data" use case). *)
Theorem C3_unknown_uid_amended bp e m x :
  entityAt m e = Some x ->
  generator.Property_Uid bp <> 0 ->
  (forall y, y ∈ modelinfo.Entity_Properties x ->
             modelinfo.IdUid_uid (modelinfo.Property_Id y) <> generator.Property_Uid bp) ->
  ((forall y, y ∈ modelinfo.Entity_Properties x ->
              modelinfo.Property_Name y <> generator.Property_Name bp) ->
   generator.getModelProperty bp e m =
   (Err (ErrJoin (ErrPropertyUidNotFound (generator.Property_Uid bp) (modelinfo.Entity_Name x))
                 (ErrPropertyNameNotFound (generator.Property_Name bp) (modelinfo.Entity_Name x))),
    m)) /\
  (forall y, y ∈ modelinfo.Entity_Properties x ->
             modelinfo.Property_Name y = generator.Property_Name bp ->
   exists p y', generator.getModelProperty bp e m = (Ok (e, p), m) /\
                propertyAt m e p = Some y' /\
                modelinfo.Property_Name y' = generator.Property_Name bp).
Proof.
  intros Hx Hu Hnone. rewrite (getModelProperty_explicit bp e m x Hx Hu).
  assert (find_index (fun y => modelinfo.IdUid_uid (modelinfo.Property_Id y) =? generator.Property_Uid bp)
                     (modelinfo.Entity_Properties x) = None) as ->.
  { apply find_index_None. intros y Hy. apply Z.eqb_neq. by apply Hnone. }
  split.
  - intros Hname.
    assert (find_index (fun y => String.eqb (modelinfo.Property_Name y) (generator.Property_Name bp))
                       (modelinfo.Entity_Properties x) = None) as ->; [|reflexivity].
    apply find_index_None. intros y Hy. apply String.eqb_neq. by apply Hname.
  - intros y Hy Hname.
    destruct (find_index_is_Some
                (fun y => String.eqb (modelinfo.Property_Name y) (generator.Property_Name bp))
                _ y Hy) as [p Hp]; [by apply String.eqb_eq|].
    rewrite Hp. destruct (find_index_Some _ _ _ Hp) as (y' & Hy' & Ht & _).
    exists p, y'. repeat split.
    + unfold propertyAt. unfold entityAt in Hx. by rewrite Hx.
    + by apply String.eqb_eq.
Qed.

Lemma C3_unknown_uid_amended_witness :
  exists p y', generator.getModelProperty examples.bindingName999 0 examples.taskDoc
               = (Ok (0%nat, p), examples.taskDoc) /\
               propertyAt examples.taskDoc 0 p = Some y' /\
               modelinfo.Property_Name y' = "Name".
Proof.
  refine (proj2 (C3_unknown_uid_amended examples.bindingName999 0 examples.taskDoc
                   examples.task eq_refl _ _) examples.taskName _ eq_refl).
  - discriminate.
  - intros y Hy. apply elem_of_cons in Hy as [->|Hy]; [discriminate|].
    apply elem_of_cons in Hy as [->|Hy]; [discriminate|]. inversion Hy.
  - apply list_elem_of_further, list_elem_of_here.
Defined.

(** ** Merging a property *)

Lemma IdUid_eta (i : modelinfo.IdUid) :
  modelinfo.CreateIdUid (modelinfo.IdUid_id i) (modelinfo.IdUid_uid i) = i.
Proof. by destruct i. Qed.

Lemma applyIdentity_Id_explicit bp y :
  generator.Property_Uid bp <> 0 ->
  modelinfo.Property_Id (applyIdentity bp y) =
  modelinfo.CreateIdUid (modelinfo.IdUid_id (modelinfo.Property_Id y)) (generator.Property_Uid bp).
Proof.
  intros Hu. unfold applyIdentity. apply Z.eqb_neq in Hu. by rewrite Hu.
Qed.

Lemma applyIdentity_Id_implicit bp y :
  generator.Property_Uid bp = 0 ->
  modelinfo.Property_Id (applyIdentity bp y) = modelinfo.Property_Id y.
Proof. intros Hu. unfold applyIdentity. by rewrite Hu. Qed.

Lemma applyIdentity_Name bp y :
  modelinfo.Property_Name (applyIdentity bp y) = generator.Property_Name bp.
Proof. unfold applyIdentity. by destruct (negb _). Qed.

(** The local id of a property survives the first two steps. *)
Lemma applyIdentity_id bp y :
  modelinfo.IdUid_id (modelinfo.Property_Id (applyIdentity bp y)) =
  modelinfo.IdUid_id (modelinfo.Property_Id y).
Proof. unfold applyIdentity. by destruct (negb _). Qed.

(** The four outcomes of [mergeModelProperty] on a valid pointer, by what the
    binding requests and what the model property has. *)
Lemma mergeModelProperty_cases bp e p m y :
  propertyAt m e p = Some y ->
  let r := generator.mergeModelProperty bp (e, p) m in
  let y2 := applyIdentity bp y in
  let bp2 := generator.set_Property_IdUid
               (modelinfo.IdUid_id (modelinfo.Property_Id y2))
               (modelinfo.IdUid_uid (modelinfo.Property_Id y2)) bp in
  match generator.Property_Index bp, modelinfo.Property_IndexId y with
  | None, None => r = (Ok bp2, withProperty e p (copyAttributes bp y2) m)
  | None, Some i =>
      r = (Ok bp2,
           modelinfo.set_RetiredIndexUids
             (modelinfo.RetiredIndexUids m ++ [modelinfo.IdUid_uid i])
             (withProperty e p (copyAttributes bp (modelinfo.set_Property_IndexId None y2)) m))
  | Some _, Some i =>
      r = (Ok (generator.set_Property_Index
                 (Some (generator.mkIndex (modelinfo.IdUid_id i) (modelinfo.IdUid_uid i))) bp2),
           withProperty e p (copyAttributes bp y2) m)
  | Some _, None =>
      let m2 := withProperty e p y2 m in
      match modelinfo.nextId (modelinfo.LastIndexId m) with
      | Err err => r = (Err err, m2)
      | Ok id =>
          match modelinfo.draw (modelinfo.knownUids m2) (modelinfo.rand m) with
          | None => r = (Err ErrUidExhausted, modelinfo.set_pool [] (modelinfo.issued m) m2)
          | Some (u, rest) =>
              r = (Ok (generator.set_Property_Index (Some (generator.mkIndex id u)) bp2),
                   modelinfo.set_LastIndexId (modelinfo.CreateIdUid id u)
                     (modelinfo.set_pool rest (modelinfo.issued m ++ [u])
                        (withProperty e p
                           (copyAttributes bp
                              (modelinfo.set_Property_IndexId
                                 (Some (modelinfo.CreateIdUid id u)) y2)) m)))
          end
      end
  end.
Proof.
  intros Hy. cbv zeta.
  destruct (generator.Property_Index bp) as [ix|] eqn:Hi;
    destruct (modelinfo.Property_IndexId y) as [i|] eqn:Hn.
  - by eapply mergeModelProperty_keep_index.
  - pose proof (mergeModelProperty_create_index bp e p m y ix Hy Hi Hn) as H.
    cbv zeta in H. rewrite H.
    destruct (modelinfo.nextId _); [|reflexivity].
    destruct (modelinfo.draw _ _) as [[u rest]|]; reflexivity.
  - by eapply mergeModelProperty_drop_index.
  - by eapply mergeModelProperty_no_index.
Qed.

(** After [mergeModelProperty], with or without error, the pointer still
    designates a property; its local id is the one it had and its name is the
    binding's; its UID is the binding's explicit UID when there is one. *)
Lemma mergeModelProperty_identity bp e p m y :
  propertyAt m e p = Some y ->
  exists y',
    propertyAt (snd (generator.mergeModelProperty bp (e, p) m)) e p = Some y' /\
    modelinfo.Property_Id y' = modelinfo.Property_Id (applyIdentity bp y) /\
    modelinfo.Property_Name y' = generator.Property_Name bp.
Proof.
  intros Hy. pose proof (mergeModelProperty_cases bp e p m y Hy) as H. cbv zeta in H.
  pose proof (applyIdentity_Name bp y) as Hname.
  destruct (generator.Property_Index bp) as [ix|]; destruct (modelinfo.Property_IndexId y) as [i|];
    try (rewrite H; simpl snd; eexists; split; [solve_at | by split]).
  destruct (modelinfo.nextId _).
  - destruct (modelinfo.draw _ _) as [[u rest]|];
      rewrite H; simpl snd; eexists; (split; [solve_at | by split]).
  - rewrite H; simpl snd; eexists; (split; [solve_at | by split]).
Qed.

(** C10: a binding property with an explicit non-zero UID that resolves to a
    model property resolves to it by UID or, failing that, by name, without
    touching the document.  The merge then leaves that property with the
    identity pair (its local id, the binding's UID), also when a later step of
    the merge fails; a successful merge returns the binding property with
    this pair read back.  The merge succeeds whenever no index has to be
    created. *)
Theorem C10_explicit_uid_overwrites bp e m ptr m1 :
  generator.Property_Uid bp <> 0 ->
  generator.getModelProperty bp e m = (Ok ptr, m1) ->
  m1 = m /\ fst ptr = e /\
  exists y,
    propertyAt m e (snd ptr) = Some y /\
    (modelinfo.IdUid_uid (modelinfo.Property_Id y) = generator.Property_Uid bp \/
     modelinfo.Property_Name y = generator.Property_Name bp) /\
    (exists y',
       propertyAt (snd (generator.mergeModelProperty bp ptr m1)) e (snd ptr) = Some y' /\
       modelinfo.Property_Id y' =
       modelinfo.CreateIdUid (modelinfo.IdUid_id (modelinfo.Property_Id y))
                             (generator.Property_Uid bp)) /\
    (forall bp', fst (generator.mergeModelProperty bp ptr m1) = Ok bp' ->
       generator.Property_Id bp' = modelinfo.IdUid_id (modelinfo.Property_Id y) /\
       generator.Property_Uid bp' = generator.Property_Uid bp) /\
    (generator.Property_Index bp = None \/ is_Some (modelinfo.Property_IndexId y) ->
     isOk (fst (generator.mergeModelProperty bp ptr m1)) = true).
Proof.
  intros Hu Hget.
  unfold generator.getModelProperty in Hget.
  destruct (modelinfo.Entities m !! e) as [x|] eqn:Hx.
  2:{ exfalso. apply Z.eqb_neq in Hu. rewrite Hu in Hget.
      change (negb false) with true in Hget. cbv beta iota in Hget.
      unfold modelinfo.FindPropertyByUid, modelinfo.FindPropertyByName, modelinfo.bind,
        modelinfo.getEntity in Hget.
      rewrite Hx in Hget. cbv beta iota in Hget. rewrite Hx in Hget. discriminate. }
  fold (generator.getModelProperty bp e m) in Hget.
  rewrite (getModelProperty_explicit bp e m x Hx Hu) in Hget.
  assert (exists p y, ptr = (e, p) /\ m1 = m /\ propertyAt m e p = Some y /\
            (modelinfo.IdUid_uid (modelinfo.Property_Id y) = generator.Property_Uid bp \/
             modelinfo.Property_Name y = generator.Property_Name bp)) as (p & y & -> & -> & Hy & Hby).
  { unfold propertyAt. rewrite Hx.
    destruct (find_index _ (modelinfo.Entity_Properties x)) as [p|] eqn:Hf.
    - destruct (find_index_Some _ _ _ Hf) as (y & Hy & Ht & _).
      injection Hget as <- <-. exists p, y. repeat split; auto. left. by apply Z.eqb_eq.
    - destruct (find_index (fun y => String.eqb _ _) (modelinfo.Entity_Properties x)) as [p|] eqn:Hg;
        [|discriminate].
      destruct (find_index_Some _ _ _ Hg) as (y & Hy & Ht & _).
      injection Hget as <- <-. exists p, y. repeat split; auto. right. by apply String.eqb_eq. }
  change (snd (e, p)) with p. change (fst (e, p)) with e. repeat split; auto.
  exists y. split; [exact Hy|]. split; [exact Hby|]. split; [|split].
  - destruct (mergeModelProperty_identity bp e p m y Hy) as (y' & Hy' & Hid & _).
    exists y'. split; auto. by rewrite Hid, applyIdentity_Id_explicit.
  - intros bp' Hok.
    pose proof (mergeModelProperty_cases bp e p m y Hy) as H. cbv zeta in H.
    pose proof (applyIdentity_Id_explicit bp y Hu) as Hid.
    destruct (generator.Property_Index bp) as [ix|]; destruct (modelinfo.Property_IndexId y) as [i|];
      try (rewrite H in Hok; injection Hok as <-; rewrite Hid; by split).
    destruct (modelinfo.nextId _); [|by rewrite H in Hok].
    destruct (modelinfo.draw _ _) as [[u rest]|]; [|by rewrite H in Hok].
    rewrite H in Hok; injection Hok as <-; rewrite Hid; by split.
  - intros Hno.
    pose proof (mergeModelProperty_cases bp e p m y Hy) as H. cbv zeta in H.
    destruct (generator.Property_Index bp) as [ix|]; destruct (modelinfo.Property_IndexId y) as [i|];
      try (by rewrite H).
    destruct Hno as [Hno|[? Hno]]; discriminate.
Qed.

Lemma C10_explicit_uid_overwrites_witness :
  exists y',
    propertyAt (snd (generator.mergeModelProperty examples.bindingName999 (0%nat, 1%nat)
                       examples.taskDoc)) 0 1 = Some y' /\
    modelinfo.Property_Id y' = modelinfo.CreateIdUid 2 999.
Proof.
  assert (generator.Property_Uid examples.bindingName999 <> 0) as Hu by discriminate.
  destruct (C10_explicit_uid_overwrites examples.bindingName999 0 examples.taskDoc
              (0%nat, 1%nat) examples.taskDoc Hu eq_refl)
    as (_ & _ & y & Hy & _ & (y' & Hy' & Hid) & _).
  injection Hy as <-. exists y'. split; [exact Hy' | exact Hid].
Defined.

(** C6: after a successful merge of a binding property into the model
    property at a valid pointer, the model property has an index identity
    exactly when the binding property requests an index.  An existing index is
    kept as it is when requested, and removed with its UID appended to
    [retiredIndexUids] when not; a missing index is created, when requested,
    with local id one past [lastIndexId.id] and a fresh UID, and
    [lastIndexId] becomes the new pair; the binding's index reads back the
    model's pair. *)
Theorem C6_index_presence bp e p m y bp' m' :
  propertyAt m e p = Some y ->
  generator.mergeModelProperty bp (e, p) m = (Ok bp', m') ->
  exists y',
    propertyAt m' e p = Some y' /\
    (is_Some (modelinfo.Property_IndexId y') <-> is_Some (generator.Property_Index bp)) /\
    match generator.Property_Index bp, modelinfo.Property_IndexId y with
    | None, None =>
        modelinfo.RetiredIndexUids m' = modelinfo.RetiredIndexUids m /\
        modelinfo.LastIndexId m' = modelinfo.LastIndexId m
    | None, Some i =>
        modelinfo.RetiredIndexUids m' = modelinfo.RetiredIndexUids m ++ [modelinfo.IdUid_uid i] /\
        modelinfo.LastIndexId m' = modelinfo.LastIndexId m
    | Some _, Some i =>
        modelinfo.Property_IndexId y' = Some i /\
        generator.Property_Index bp' =
          Some (generator.mkIndex (modelinfo.IdUid_id i) (modelinfo.IdUid_uid i)) /\
        modelinfo.RetiredIndexUids m' = modelinfo.RetiredIndexUids m /\
        modelinfo.LastIndexId m' = modelinfo.LastIndexId m
    | Some _, None =>
        exists u,
          modelinfo.Property_IndexId y' =
            Some (modelinfo.CreateIdUid (modelinfo.IdUid_id (modelinfo.LastIndexId m) + 1) u) /\
          generator.Property_Index bp' =
            Some (generator.mkIndex (modelinfo.IdUid_id (modelinfo.LastIndexId m) + 1) u) /\
          u <> 0 /\
          (u ∉ modelinfo.knownUids (withProperty e p (applyIdentity bp y) m)) /\
          modelinfo.LastIndexId m' =
            modelinfo.CreateIdUid (modelinfo.IdUid_id (modelinfo.LastIndexId m) + 1) u /\
          modelinfo.RetiredIndexUids m' = modelinfo.RetiredIndexUids m
    end.
Proof.
  intros Hy Hm.
  pose proof (mergeModelProperty_cases bp e p m y Hy) as H. cbv zeta in H.
  pose proof (applyIdentity_IndexId bp y) as Hix.
  destruct (generator.Property_Index bp) as [ix|];
    destruct (modelinfo.Property_IndexId y) as [i|].
  - rewrite Hm in H. injection H as -> ->.
    eexists. split; [solve_at|]. simpl. rewrite Hix.
    rewrite ?withProperty_RetiredIndexUids, ?withProperty_LastIndexId.
    repeat split; eauto.
  - unfold modelinfo.nextId in H.
    destruct (modelinfo.IdUid_id (modelinfo.LastIndexId m) + 1 <=? MaxId);
      [|rewrite Hm in H; discriminate].
    destruct (modelinfo.draw (modelinfo.knownUids (withProperty e p (applyIdentity bp y) m))
                (modelinfo.rand m)) as [[u rest]|] eqn:Hd; [|rewrite Hm in H; discriminate].
    rewrite Hm in H. injection H as -> ->.
    destruct (draw_fresh _ _ _ _ Hd) as (Hu0 & Hfresh & _).
    eexists. split; [solve_at|]. simpl.
    split; [split; eauto|].
    exists u. repeat split; auto. apply withProperty_RetiredIndexUids.
  - rewrite Hm in H. injection H as -> ->.
    eexists. split; [solve_at|]. simpl.
    rewrite ?withProperty_LastIndexId, ?withProperty_RetiredIndexUids.
    repeat split; auto; intros [? ?]; discriminate.
  - rewrite Hm in H. injection H as -> ->.
    eexists. split; [solve_at|]. simpl. rewrite Hix.
    rewrite ?withProperty_LastIndexId, ?withProperty_RetiredIndexUids.
    repeat split; auto; intros [? ?]; discriminate.
Qed.

Lemma C6_index_presence_witness :
  exists y',
    propertyAt (snd examples.indexedRun) 0 1 = Some y' /\
    modelinfo.Property_IndexId y' = Some (modelinfo.CreateIdUid 1 555).
Proof.
  assert (generator.mergeModelProperty examples.bindingNameIndexed (0%nat, 1%nat)
            examples.taskDoc = examples.indexedRun) as Hrun by (vm_compute; reflexivity).
  destruct (C6_index_presence examples.bindingNameIndexed 0 1 examples.taskDoc
              examples.taskName _ _ eq_refl Hrun)
    as (y' & Hy' & _ & _).
  exists y'. split; [exact Hy'|]. injection Hy' as <-. reflexivity.
Defined.

Lemma entityAt_withProperty m e p y x :
  entityAt m e = Some x ->
  entityAt (withProperty e p y m) e =
  Some (modelinfo.set_Entity_Properties (<[p := y]> (modelinfo.Entity_Properties x)) x).
Proof.
  unfold entityAt, withProperty. intros Hx. rewrite Hx.
  unfold withEntity. simpl. apply list_lookup_insert_eq. by eapply lookup_lt_Some.
Qed.

(** C7: a binding property with an explicit UID resolves to the model
    property that has this UID, and differs from it in the name only (same
    index request, type, flags and relation target).  Then the merge succeeds
    and the document it leaves is the one before with the name of that
    property replaced: the identity pair and the index identity of the
    property, and [lastPropertyId] of its entity, are the ones before. *)
Theorem C7_rename_only bp e p m x y :
  generator.Property_Uid bp <> 0 ->
  generator.getModelProperty bp e m = (Ok (e, p), m) ->
  entityAt m e = Some x ->
  propertyAt m e p = Some y ->
  modelinfo.IdUid_uid (modelinfo.Property_Id y) = generator.Property_Uid bp ->
  (is_Some (generator.Property_Index bp) <-> is_Some (modelinfo.Property_IndexId y)) ->
  generator.Property_ObType bp = modelinfo.Property_Type y ->
  generator.Property_ObFlagsCombined bp = modelinfo.Property_Flags y ->
  match generator.Property_Relation bp with Some target => target | None => "" end
    = modelinfo.Property_RelationTarget y ->
  let m' := withProperty e p (modelinfo.set_Property_Name (generator.Property_Name bp) y) m in
  (exists bp', generator.mergeModelProperty bp (e, p) m = (Ok bp', m')) /\
  (exists x' y',
     entityAt m' e = Some x' /\ propertyAt m' e p = Some y' /\
     modelinfo.Property_Name y' = generator.Property_Name bp /\
     modelinfo.Property_Id y' = modelinfo.Property_Id y /\
     modelinfo.Property_IndexId y' = modelinfo.Property_IndexId y /\
     modelinfo.Entity_LastPropertyId x' = modelinfo.Entity_LastPropertyId x /\
     modelinfo.Entity_Id x' = modelinfo.Entity_Id x).
Proof.
  intros Hu _ Hx Hy Huid Hidx Hty Hfl Hrel m'. split.
  - assert (copyAttributes bp (applyIdentity bp y) =
            modelinfo.set_Property_Name (generator.Property_Name bp) y) as Heq.
    { unfold copyAttributes, applyIdentity. apply Z.eqb_neq in Hu. rewrite Hu.
      rewrite Hty, Hfl, Hrel. simpl. rewrite <- Huid, IdUid_eta. by destruct y. }
    pose proof (mergeModelProperty_cases bp e p m y Hy) as H. cbv zeta in H.
    rewrite Heq in H. subst m'.
    destruct (generator.Property_Index bp) as [ix|];
      destruct (modelinfo.Property_IndexId y) as [i|]; try (eexists; exact H).
    + destruct Hidx as [Hidx _]. destruct Hidx as [? ?]; [eauto|discriminate].
    + destruct Hidx as [_ Hidx]. destruct Hidx as [? ?]; [eauto|discriminate].
  - subst m'. eexists. eexists. split; [by apply entityAt_withProperty|].
    split; [solve_at|]. repeat split.
Qed.

Lemma C7_rename_only_witness :
  exists bp', generator.mergeModelProperty examples.bindingTitle101 (0%nat, 1%nat) examples.taskDoc
              = (Ok bp', withProperty 0 1 (modelinfo.set_Property_Name "Title" examples.taskName)
                           examples.taskDoc).
Proof.
  assert (generator.Property_Uid examples.bindingTitle101 <> 0) as Hu by discriminate.
  assert (is_Some (generator.Property_Index examples.bindingTitle101) <->
          is_Some (modelinfo.Property_IndexId examples.taskName)) as Hidx.
  { split; intros [? H]; discriminate H. }
  exact (proj1 (C7_rename_only examples.bindingTitle101 0 1 examples.taskDoc examples.task
                  examples.taskName Hu eq_refl eq_refl eq_refl eq_refl Hidx
                  eq_refl eq_refl eq_refl)).
Defined.

(** ** Relation targets *)

(** The target of a standalone relation is looked up by name among the
    entities of the document, and the merge of the relation fails when no
    entity has the name. *)
Lemma mergeModelRelation_target_missing br e r m y :
  relationAt m e r = Some y ->
  (forall x, x ∈ modelinfo.Entities m ->
             modelinfo.Entity_Name x <> generator.Relation_Target_Name br) ->
  fst (generator.mergeModelRelation br (e, r) m) =
  Err (ErrEntityNameNotFound (generator.Relation_Target_Name br)).
Proof.
  intros Hy Hnone. unfold generator.mergeModelRelation.
  unfold modelinfo.bind at 1. rewrite (updRelation_eq _ _ _ _ _ Hy).
  assert (exists y', relationAt (withRelation e r (modelinfo.set_Relation_Name
                       (generator.Relation_Name br) y) m) e r = Some y') as [y' Hy'].
  { unfold relationAt, withRelation in *.
    destruct (modelinfo.Entities m !! e) as [x|] eqn:Hx; [|discriminate].
    unfold withEntity. simpl.
    rewrite list_lookup_insert_eq by (by eapply lookup_lt_Some). simpl.
    eexists. apply list_lookup_insert_eq. by eapply lookup_lt_Some. }
  unfold modelinfo.bind at 1. rewrite (getRelation_eq _ _ _ _ Hy').
  unfold modelinfo.bind at 1, modelinfo.lift, modelinfo.Get. cbv beta iota.
  unfold modelinfo.bind at 1, modelinfo.FindEntityByName.
  simpl generator.Relation_Target_Name.
  match goal with
  | |- context [find_index ?f ?l] =>
      assert (find_index f l = None) as ->; [|reflexivity]
  end.
  apply find_index_None. intros x Hx. apply String.eqb_neq.
  unfold withRelation in Hx.
  destruct (modelinfo.Entities m !! e) as [x0|] eqn:Hx0; [|by apply Hnone].
  unfold withEntity in Hx. simpl in Hx.
  apply list_elem_of_lookup in Hx as [i Hi].
  destruct (decide (i = e)) as [->|Hne].
  - rewrite list_lookup_insert_eq in Hi by (by eapply lookup_lt_Some).
    injection Hi as <-. simpl. apply Hnone. by eapply list_elem_of_lookup_2.
  - rewrite list_lookup_insert_ne in Hi by done.
    apply Hnone. by eapply list_elem_of_lookup_2.
Qed.

(** C8, the failing input: the entity "Old" is renamed to "New" under its
    explicit UID, and the relation "friends" of the entity "A" names "New" as
    its target.  With "A" before "New" in the binding the merge fails on the
    target lookup, although the target entity is in the binding; with "New"
    before "A" the same merge succeeds. *)
Theorem C8_relation_target_renamed :
  fst (generator.mergeBindingWithModelInfo examples.renameBinding examples.renameDoc)
    = Err (ErrEntityNameNotFound "New") /\
  isOk (fst (generator.mergeBindingWithModelInfo examples.renameBindingSwapped
               examples.renameDoc)) = true.
Proof. split; reflexivity. Qed.

(** ** Composition of steps *)

Section preserves.
Variable R : modelinfo.ModelInfo -> modelinfo.ModelInfo -> Prop.
Hypothesis R_refl : forall m, R m m.
Hypothesis R_trans : forall a b c, R a b -> R b c -> R a c.

Lemma preserves_ret {A} (a : A) : preserves R (modelinfo.ret a).
  Proof. intros m. apply R_refl. Qed.

Lemma preserves_fail {A} (err : Error) : preserves R (@modelinfo.fail A err).
  Proof. intros m. apply R_refl. Qed.

Lemma preserves_lift {A} (r : Result A) : preserves R (modelinfo.lift r).
  Proof. intros m. apply R_refl. Qed.

Lemma preserves_get : preserves R modelinfo.get.
  Proof. intros m. apply R_refl. Qed.

Lemma preserves_bind_post {A B} (c : modelinfo.M A) (k : A -> modelinfo.M B)
        (P : A -> Prop) :
    preserves R c ->
    (forall m a m', c m = (Ok a, m') -> P a) ->
    (forall a, P a -> preserves R (k a)) ->
    preserves R (modelinfo.bind c k).
  Proof.
    intros Hc HP Hk m. unfold modelinfo.bind.
    specialize (Hc m). specialize (HP m).
    destruct (c m) as [[a|err] m1]; simpl in *; [|exact Hc].
    eapply R_trans; [exact Hc|]. apply Hk. by eapply HP.
  Qed.

Lemma preserves_bind {A B} (c : modelinfo.M A) (k : A -> modelinfo.M B) :
    preserves R c -> (forall a, preserves R (k a)) -> preserves R (modelinfo.bind c k).
  Proof.
    intros Hc Hk. apply (preserves_bind_post c k (fun _ => True)); auto.
  Qed.

Lemma preserves_ignoreErr {A} (c : modelinfo.M A) :
    preserves R c -> preserves R (modelinfo.ignoreErr c).
  Proof.
    intros Hc m. unfold modelinfo.ignoreErr. specialize (Hc m).
    by destruct (c m) as [[a|err] m1].
  Qed.
End preserves.

Lemma getEntity_state e m : snd (modelinfo.getEntity e m) = m.
Proof. unfold modelinfo.getEntity. by destruct (modelinfo.Entities m !! e). Qed.

Lemma getProperty_state e p m : snd (modelinfo.getProperty e p m) = m.
Proof.
  unfold modelinfo.getProperty, modelinfo.bind, modelinfo.getEntity.
  destruct (modelinfo.Entities m !! e) as [x|]; [|reflexivity].
  by destruct (modelinfo.Entity_Properties x !! p).
Qed.

Lemma getRelation_state e r m : snd (modelinfo.getRelation e r m) = m.
Proof.
  unfold modelinfo.getRelation, modelinfo.bind, modelinfo.getEntity.
  destruct (modelinfo.Entities m !! e) as [x|]; [|reflexivity].
  by destruct (modelinfo.Entity_Relations x !! r).
Qed.

Lemma nextId_Ok last id :
  modelinfo.nextId last = Ok id -> id = modelinfo.IdUid_id last + 1 /\ id <= MaxId.
Proof.
  unfold modelinfo.nextId. destruct (_ <=? MaxId) eqn:H; [|discriminate].
  intros [= <-]. split; auto. by apply Z.leb_le.
Qed.

(** The pointers that the lookups and creations of an entity return designate
    elements of that entity. *)
Lemma FindPropertyByUid_fst e uid m ptr m' :
  modelinfo.FindPropertyByUid e uid m = (Ok ptr, m') -> fst ptr = e.
Proof.
  unfold modelinfo.FindPropertyByUid, modelinfo.bind, modelinfo.getEntity.
  destruct (modelinfo.Entities m !! e) as [x|]; [|discriminate].
  destruct (find_index _ _); [|discriminate]. by intros [= <- _].
Qed.

Lemma FindPropertyByName_fst e name m ptr m' :
  modelinfo.FindPropertyByName e name m = (Ok ptr, m') -> fst ptr = e.
Proof.
  unfold modelinfo.FindPropertyByName, modelinfo.bind, modelinfo.getEntity.
  destruct (modelinfo.Entities m !! e) as [x|]; [|discriminate].
  destruct (find_index _ _); [|discriminate]. by intros [= <- _].
Qed.

Lemma FindRelationByUid_fst e uid m ptr m' :
  modelinfo.FindRelationByUid e uid m = (Ok ptr, m') -> fst ptr = e.
Proof.
  unfold modelinfo.FindRelationByUid, modelinfo.bind, modelinfo.getEntity.
  destruct (modelinfo.Entities m !! e) as [x|]; [|discriminate].
  destruct (find_index _ _); [|discriminate]. by intros [= <- _].
Qed.

Lemma FindRelationByName_fst e name m ptr m' :
  modelinfo.FindRelationByName e name m = (Ok ptr, m') -> fst ptr = e.
Proof.
  unfold modelinfo.FindRelationByName, modelinfo.bind, modelinfo.getEntity.
  destruct (modelinfo.Entities m !! e) as [x|]; [|discriminate].
  destruct (find_index _ _); [|discriminate]. by intros [= <- _].
Qed.

Lemma CreateProperty_fst e m ptr m' :
  modelinfo.CreateProperty e m = (Ok ptr, m') -> fst ptr = e.
Proof.
  unfold modelinfo.CreateProperty, modelinfo.bind at 1 2 3 4, modelinfo.lift.
  destruct (modelinfo.getEntity e m) as [[x|?] m0]; [|discriminate].
  destruct (modelinfo.nextId _); [|discriminate].
  destruct (modelinfo.GenerateUid m0) as [[u|?] m1]; [|discriminate].
  destruct (modelinfo.updEntity e _ m1) as [[?|?] m2]; [|discriminate].
  unfold modelinfo.ret. by intros [= <- _].
Qed.

Lemma CreateRelation_fst e m ptr m' :
  modelinfo.CreateRelation e m = (Ok ptr, m') -> fst ptr = e.
Proof.
  unfold modelinfo.CreateRelation, modelinfo.bind at 1 2 3 4 5 6, modelinfo.lift,
    modelinfo.get, modelinfo.modify.
  destruct (modelinfo.getEntity e m) as [[x|?] m0]; [|discriminate].
  destruct (modelinfo.nextId _); [|discriminate].
  destruct (modelinfo.GenerateUid m0) as [[u|?] m1]; [|discriminate].
  destruct (modelinfo.updEntity e _ m1) as [[?|?] m2]; [|discriminate].
  unfold modelinfo.ret. by intros [= <- _].
Qed.

Lemma getModelProperty_fst bp e m ptr m' :
  generator.getModelProperty bp e m = (Ok ptr, m') -> fst ptr = e.
Proof.
  unfold generator.getModelProperty.
  destruct (negb (generator.Property_Uid bp =? 0)).
  - destruct (modelinfo.FindPropertyByUid e _ m) as [[q|err] m1] eqn:H1.
    + intros [= <- _]. by eapply FindPropertyByUid_fst.
    + destruct (modelinfo.FindPropertyByName e _ m1) as [[q|err2] m2] eqn:H2; [|discriminate].
      intros [= <- _]. by eapply FindPropertyByName_fst.
  - unfold modelinfo.bind, modelinfo.ignoreErr.
    destruct (modelinfo.FindPropertyByName e _ m) as [[q|err] m1] eqn:H1.
    + destruct (generator.Property_uidRequest bp).
      * destruct (modelinfo.getProperty _ _ m1) as [[y|?] m2]; [|discriminate].
        unfold modelinfo.lift. simpl.
        destruct (modelinfo.GenerateUid m2) as [[u|?] m3]; discriminate.
      * intros [= <- _]. by eapply FindPropertyByName_fst.
    + destruct (generator.Property_uidRequest bp); [discriminate|].
      apply CreateProperty_fst.
Qed.

Lemma getModelRelation_fst br e m ptr m' :
  generator.getModelRelation br e m = (Ok ptr, m') -> fst ptr = e.
Proof.
  unfold generator.getModelRelation.
  destruct (negb (generator.Relation_Uid br =? 0)); [apply FindRelationByUid_fst|].
  unfold modelinfo.bind, modelinfo.ignoreErr.
  destruct (modelinfo.FindRelationByName e _ m) as [[q|err] m1] eqn:H1.
  - destruct (generator.Relation_uidRequest br).
    + destruct (modelinfo.getEntity e m1) as [[x|?] m2]; [|discriminate].
      destruct (modelinfo.getRelation _ _ m2) as [[y|?] m3]; discriminate.
    + intros [= <- _]. by eapply FindRelationByName_fst.
  - destruct (generator.Relation_uidRequest br).
    + destruct (modelinfo.getEntity e m1) as [[x|?] m2]; discriminate.
    + apply CreateRelation_fst.
Qed.

(** ** Steps on one entity

    Every operation of the merge on the entity at [e] is a step at [e], for
    any relations [K] and [G] that the field updates it performs respect. *)

Lemma GenerateUid_Entities m :
  modelinfo.Entities (snd (modelinfo.GenerateUid m)) = modelinfo.Entities m.
Proof.
  unfold modelinfo.GenerateUid. by destruct (modelinfo.draw _ _) as [[u rest]|].
Qed.

Section steps.
Variable K : modelinfo.Entity -> modelinfo.Entity -> Prop.
Variable G : modelinfo.ModelInfo -> modelinfo.ModelInfo -> Prop.
Hypothesis K_refl : forall x, K x x.
Hypothesis K_trans : forall x y z, K x y -> K y z -> K x z.
Hypothesis G_refl : forall m, G m m.
Hypothesis G_trans : forall a b c, G a b -> G b c -> G a c.
Hypothesis G_entities : forall m l, G m (modelinfo.set_Entities l m).
Hypothesis G_pool : forall m tape handed, G m (modelinfo.set_pool tape handed m).
Hypothesis G_retiredIndex : forall m v, G m (modelinfo.set_RetiredIndexUids v m).
Hypothesis G_retiredProperty : forall m v, G m (modelinfo.set_RetiredPropertyUids v m).
Hypothesis G_retiredRelation : forall m v, G m (modelinfo.set_RetiredRelationUids v m).
Hypothesis G_lastIndex : forall m v, G m (modelinfo.set_LastIndexId v m).
Hypothesis G_lastRelation : forall m v, G m (modelinfo.set_LastRelationId v m).
Hypothesis K_name : forall x v, K x (modelinfo.set_Entity_Name v x).
Hypothesis K_properties : forall x v, K x (modelinfo.set_Entity_Properties v x).
Hypothesis K_create :
    forall x v u,
      K x (modelinfo.set_Entity_LastPropertyId
             (modelinfo.CreateIdUid (modelinfo.IdUid_id (modelinfo.Entity_LastPropertyId x) + 1) u)
             (modelinfo.set_Entity_Properties v x)).
Hypothesis K_relations : forall x v, K x (modelinfo.set_Entity_Relations v x).
Variable e : nat.

Local Abbreviation keeps := (preserves (stepAt K G e)).

Lemma stepAt_refl m : stepAt K G e m m.
  Proof. repeat split; auto. intros x Hx. exists x. split; auto. Qed.

Lemma stepAt_trans a b c : stepAt K G e a b -> stepAt K G e b c -> stepAt K G e a c.
  Proof.
    intros (L1 & O1 & K1 & G1) (L2 & O2 & K2 & G2). repeat split.
    - congruence.
    - intros e' He. rewrite O2, O1; auto.
    - intros x Hx. destruct (K1 x Hx) as (x1 & Hx1 & Hk1).
      destruct (K2 x1 Hx1) as (x2 & Hx2 & Hk2).
      exists x2. split; auto. by eapply K_trans.
    - by eapply G_trans.
  Qed.

  (** A step that leaves the entity list alone. *)
Lemma stepAt_global m m' :
    modelinfo.Entities m' = modelinfo.Entities m -> G m m' -> stepAt K G e m m'.
  Proof.
    intros H HG. unfold stepAt, entityAt. rewrite H. repeat split; auto.
    intros x Hx. exists x. split; auto.
  Qed.

  (** A step that replaces the entity at [e]. *)
Lemma stepAt_withEntity m x x' :
    entityAt m e = Some x -> K x x' -> stepAt K G e m (withEntity e x' m).
  Proof.
    intros Hx Hk. unfold stepAt, entityAt, withEntity in *. simpl. repeat split.
    - apply length_insert.
    - intros e' He. by apply list_lookup_insert_ne.
    - intros x0 Hx0. exists x'. split.
      + apply list_lookup_insert_eq. by eapply lookup_lt_Some.
      + congruence.
    - apply G_entities.
  Qed.

Lemma updEntity_stepAt f m :
    (forall x, entityAt m e = Some x -> K x (f x)) ->
    stepAt K G e m (snd (modelinfo.updEntity e f m)).
  Proof.
    intros Hf. destruct (entityAt m e) as [x|] eqn:Hx.
    - rewrite (updEntity_eq _ _ _ _ Hx). eapply stepAt_withEntity; eauto.
    - unfold modelinfo.updEntity, modelinfo.bind, modelinfo.getEntity.
      unfold entityAt in Hx. rewrite Hx. apply stepAt_refl.
  Qed.

Local Ltac keeps_bind := apply (preserves_bind _ stepAt_trans).
Local Ltac keeps_done :=
    first [ apply preserves_ret, stepAt_refl
          | apply preserves_fail, stepAt_refl
          | apply preserves_lift, stepAt_refl
          | apply preserves_get, stepAt_refl ].

Lemma keeps_getEntity e0 : keeps (modelinfo.getEntity e0).
  Proof. intros m. rewrite getEntity_state. apply stepAt_refl. Qed.

Lemma keeps_getProperty e0 p : keeps (modelinfo.getProperty e0 p).
  Proof. intros m. rewrite getProperty_state. apply stepAt_refl. Qed.

Lemma keeps_getRelation e0 r : keeps (modelinfo.getRelation e0 r).
  Proof. intros m. rewrite getRelation_state. apply stepAt_refl. Qed.

Lemma keeps_GenerateUid : keeps modelinfo.GenerateUid.
  Proof.
    intros m. unfold modelinfo.GenerateUid.
    destruct (modelinfo.draw _ _) as [[u rest]|];
      (apply stepAt_global; [reflexivity | apply G_pool]).
  Qed.

Lemma keeps_updEntity f :
    (forall x, K x (f x)) -> keeps (modelinfo.updEntity e f).
  Proof. intros Hf m. apply updEntity_stepAt. auto. Qed.

Lemma keeps_updProperty p f : keeps (modelinfo.updProperty e p f).
  Proof.
    unfold modelinfo.updProperty. keeps_bind; [apply keeps_getProperty|].
    intros y. by apply keeps_updEntity.
  Qed.

Lemma keeps_updRelation r f : keeps (modelinfo.updRelation e r f).
  Proof.
    unfold modelinfo.updRelation. keeps_bind; [apply keeps_getRelation|].
    intros y. by apply keeps_updEntity.
  Qed.

Lemma keeps_FindEntityByName name : keeps (modelinfo.FindEntityByName name).
  Proof.
    intros m. unfold modelinfo.FindEntityByName.
    destruct (find_index _ _); apply stepAt_refl.
  Qed.

Lemma keeps_FindPropertyByUid uid : keeps (modelinfo.FindPropertyByUid e uid).
  Proof.
    unfold modelinfo.FindPropertyByUid. keeps_bind; [apply keeps_getEntity|].
    intros x. destruct (find_index _ _); keeps_done.
  Qed.

Lemma keeps_FindPropertyByName name : keeps (modelinfo.FindPropertyByName e name).
  Proof.
    unfold modelinfo.FindPropertyByName. keeps_bind; [apply keeps_getEntity|].
    intros x. destruct (find_index _ _); keeps_done.
  Qed.

Lemma keeps_FindRelationByUid uid : keeps (modelinfo.FindRelationByUid e uid).
  Proof.
    unfold modelinfo.FindRelationByUid. keeps_bind; [apply keeps_getEntity|].
    intros x. destruct (find_index _ _); keeps_done.
  Qed.

Lemma keeps_FindRelationByName name : keeps (modelinfo.FindRelationByName e name).
  Proof.
    unfold modelinfo.FindRelationByName. keeps_bind; [apply keeps_getEntity|].
    intros x. destruct (find_index _ _); keeps_done.
  Qed.

Lemma keeps_CreateProperty : keeps (modelinfo.CreateProperty e).
  Proof.
    intros m. unfold modelinfo.CreateProperty, modelinfo.bind at 1.
    destruct (entityAt m e) as [x|] eqn:Hx.
    2:{ unfold modelinfo.getEntity. unfold entityAt in Hx. rewrite Hx. apply stepAt_refl. }
    rewrite (getEntity_eq _ _ _ Hx).
    unfold modelinfo.bind at 1, modelinfo.lift.
    destruct (modelinfo.nextId (modelinfo.Entity_LastPropertyId x)) as [id|err] eqn:Hid;
      [|apply stepAt_refl].
    apply nextId_Ok in Hid as [-> _].
    unfold modelinfo.bind at 1.
    pose proof (keeps_GenerateUid m) as HG. pose proof (GenerateUid_Entities m) as HE.
    destruct (modelinfo.GenerateUid m) as [[u|err] m1]; simpl in HG, HE; [|exact HG].
    apply (stepAt_trans m m1); [exact HG|].
    unfold modelinfo.bind.
    assert (entityAt m1 e = Some x) as Hx1.
    { destruct HG as (_ & _ & HK & _). unfold entityAt in *.
      by rewrite HE. }
    rewrite (updEntity_eq _ _ _ _ Hx1). simpl.
    eapply stepAt_withEntity; [exact Hx1 | apply K_create].
  Qed.

Lemma keeps_modify f :
    (forall m, modelinfo.Entities (f m) = modelinfo.Entities m) ->
    (forall m, G m (f m)) ->
    keeps (modelinfo.modify f).
  Proof. intros Hf HG m. apply stepAt_global; simpl; auto. Qed.

Lemma keeps_CreateRelation : keeps (modelinfo.CreateRelation e).
  Proof.
    unfold modelinfo.CreateRelation.
    keeps_bind; [apply keeps_getEntity|]. intros x.
    keeps_bind; [keeps_done|]. intros m0.
    keeps_bind; [keeps_done|]. intros id.
    keeps_bind; [apply keeps_GenerateUid|]. intros u.
    keeps_bind; [by apply keeps_updEntity|].
    intros _. keeps_bind; [by apply keeps_modify|].
    intros _. keeps_done.
  Qed.

Lemma keeps_CreateIndex p : keeps (modelinfo.CreateIndex (e, p)).
  Proof.
    unfold modelinfo.CreateIndex.
    keeps_bind; [keeps_done|]. intros m0.
    keeps_bind; [keeps_done|]. intros id.
    keeps_bind; [apply keeps_GenerateUid|]. intros u.
    keeps_bind; [apply keeps_updProperty|].
    intros _. by apply keeps_modify.
  Qed.

Lemma keeps_RemoveIndex p : keeps (modelinfo.RemoveIndex (e, p)).
  Proof.
    unfold modelinfo.RemoveIndex.
    keeps_bind; [apply keeps_getProperty|]. intros y.
    destruct (modelinfo.Property_IndexId y); [|keeps_done].
    keeps_bind; [by apply keeps_modify|].
    intros _. apply keeps_updProperty.
  Qed.

Lemma keeps_RemoveProperty p : keeps (modelinfo.RemoveProperty e p).
  Proof.
    unfold modelinfo.RemoveProperty.
    keeps_bind; [apply keeps_getProperty|]. intros y.
    keeps_bind; [destruct (modelinfo.Property_IndexId y);
                 [apply keeps_RemoveIndex | keeps_done]|]. intros _.
    keeps_bind; [by apply keeps_updEntity|].
    intros _. by apply keeps_modify.
  Qed.

Lemma keeps_RemoveRelation r : keeps (modelinfo.RemoveRelation e r).
  Proof.
    unfold modelinfo.RemoveRelation.
    keeps_bind; [apply keeps_getRelation|]. intros y.
    keeps_bind; [by apply keeps_updEntity|].
    intros _. by apply keeps_modify.
  Qed.

Lemma keeps_SetTarget r target : keeps (modelinfo.SetTarget (e, r) target).
  Proof.
    unfold modelinfo.SetTarget.
    keeps_bind; [apply keeps_getEntity | intros t; apply keeps_updRelation].
  Qed.

Lemma keeps_getModelProperty bp : keeps (generator.getModelProperty bp e).
  Proof.
    unfold generator.getModelProperty.
    destruct (negb (generator.Property_Uid bp =? 0)).
    - intros m. pose proof (keeps_FindPropertyByUid (generator.Property_Uid bp) m) as H1.
      destruct (modelinfo.FindPropertyByUid e _ m) as [[q|err] m1]; [exact H1|].
      pose proof (keeps_FindPropertyByName (generator.Property_Name bp) m1) as H2.
      simpl in H1. eapply stepAt_trans; [exact H1|].
      by destruct (modelinfo.FindPropertyByName e _ m1) as [[q|err2] m2].
    - keeps_bind; [apply preserves_ignoreErr, keeps_FindPropertyByName|].
      intros [ptr|]; destruct (generator.Property_uidRequest bp).
      + keeps_bind; [apply keeps_getProperty|]. intros y.
        keeps_bind; [keeps_done|]. intros uid.
        keeps_bind; [apply keeps_GenerateUid|]. intros u. keeps_done.
      + keeps_done.
      + keeps_done.
      + apply keeps_CreateProperty.
  Qed.

Lemma keeps_mergeModelProperty bp p : keeps (generator.mergeModelProperty bp (e, p)).
  Proof.
    unfold generator.mergeModelProperty.
    keeps_bind; [apply keeps_updProperty|]. intros _.
    keeps_bind.
    { destruct (negb _); [|keeps_done].
      keeps_bind; [apply keeps_getProperty|]. intros y.
      keeps_bind; [keeps_done|]. intros [id uid].
      apply keeps_updProperty. }
    intros _. keeps_bind; [apply keeps_getProperty|]. intros y.
    keeps_bind; [keeps_done|]. intros [id uid].
    keeps_bind.
    { cbn [generator.Property_Index generator.set_Property_IdUid].
      destruct (generator.Property_Index bp).
      - keeps_bind; [apply keeps_getProperty|]. intros y0.
        keeps_bind.
        { destruct (modelinfo.Property_IndexId y0);
            [keeps_done | apply keeps_CreateIndex]. }
        intros _. keeps_bind; [apply keeps_getProperty|]. intros y1.
        destruct (modelinfo.Property_IndexId y1); [|keeps_done].
        keeps_bind; [keeps_done|]. intros [iid iuid]. keeps_done.
      - keeps_bind; [apply keeps_getProperty|]. intros y0.
        destruct (modelinfo.Property_IndexId y0); [|keeps_done].
        keeps_bind; [apply keeps_RemoveIndex|]. intros _. keeps_done. }
    intros bp1. keeps_bind; [apply keeps_updProperty|]. intros _.
    keeps_bind; [apply keeps_updProperty|]. intros _.
    keeps_bind; [apply keeps_updProperty|]. intros _.
    keeps_done.
  Qed.

Lemma keeps_mergeProperties bps : keeps (generator.mergeProperties bps e).
  Proof.
    induction bps as [|bp bps IH]; simpl; [keeps_done|].
    apply (preserves_bind_post _ stepAt_trans _ _ (fun ptr => fst ptr = e)).
    - apply keeps_getModelProperty.
    - intros m ptr m'. apply getModelProperty_fst.
    - intros [e' p] He. simpl in He. subst e'.
      keeps_bind; [apply keeps_mergeModelProperty|]. intros bp'.
      keeps_bind; [apply IH|]. intros rest. keeps_done.
  Qed.

Lemma keeps_removeProperties removed k : keeps (generator.removeProperties e removed k).
  Proof.
    revert k. induction removed as [|p rest IH]; intros k; simpl; [keeps_done|].
    keeps_bind; [apply keeps_RemoveProperty|]. intros _. apply IH.
  Qed.

Lemma keeps_removeMissingProperties be : keeps (generator.removeMissingProperties be e).
  Proof.
    unfold generator.removeMissingProperties.
    keeps_bind; [apply keeps_getEntity|]. intros x. apply keeps_removeProperties.
  Qed.

Lemma keeps_getModelRelation br : keeps (generator.getModelRelation br e).
  Proof.
    unfold generator.getModelRelation.
    destruct (negb _); [apply keeps_FindRelationByUid|].
    keeps_bind; [apply preserves_ignoreErr, keeps_FindRelationByName|].
    intros ptr. destruct (generator.Relation_uidRequest br).
    - keeps_bind; [apply keeps_getEntity|]. intros x.
      destruct ptr as [ptr|]; [|keeps_done].
      keeps_bind; [apply keeps_getRelation|].
      intros y. keeps_bind; [keeps_done|].
      intros uid. keeps_done.
    - destruct ptr as [ptr|]; [keeps_done | apply keeps_CreateRelation].
  Qed.

Lemma keeps_mergeModelRelation br r : keeps (generator.mergeModelRelation br (e, r)).
  Proof.
    unfold generator.mergeModelRelation.
    keeps_bind; [apply keeps_updRelation|]. intros _.
    keeps_bind; [apply keeps_getRelation|]. intros y.
    keeps_bind; [keeps_done|]. intros [id uid].
    keeps_bind; [apply keeps_FindEntityByName|]. intros t.
    keeps_bind; [apply keeps_getEntity|].
    intros xt. keeps_bind; [keeps_done|]. intros [tid tuid].
    keeps_bind; [apply keeps_SetTarget|]. intros _. keeps_done.
  Qed.

Lemma keeps_mergeRelations brs : keeps (generator.mergeRelations brs e).
  Proof.
    induction brs as [|br brs IH]; simpl; [keeps_done|].
    apply (preserves_bind_post _ stepAt_trans _ _ (fun ptr => fst ptr = e)).
    - apply keeps_getModelRelation.
    - intros m ptr m'. apply getModelRelation_fst.
    - intros [e' r] He. simpl in He. subst e'.
      keeps_bind; [apply keeps_mergeModelRelation|]. intros br'.
      keeps_bind; [apply IH|]. intros rest. keeps_done.
  Qed.

Lemma keeps_removeRelations removed k : keeps (generator.removeRelations e removed k).
  Proof.
    revert k. induction removed as [|r rest IH]; intros k; simpl; [keeps_done|].
    keeps_bind; [apply keeps_RemoveRelation|]. intros _. apply IH.
  Qed.

Lemma keeps_removeMissingRelations be : keeps (generator.removeMissingRelations be e).
  Proof.
    unfold generator.removeMissingRelations.
    keeps_bind; [apply keeps_getEntity|]. intros x. apply keeps_removeRelations.
  Qed.

Lemma keeps_mergeModelEntity be : keeps (generator.mergeModelEntity be e).
  Proof.
    unfold generator.mergeModelEntity.
    keeps_bind; [by apply keeps_updEntity|].
    intros _. keeps_bind; [apply keeps_getEntity|]. intros x.
    keeps_bind; [keeps_done|]. intros [id uid].
    keeps_bind; [apply keeps_mergeProperties|]. intros bps.
    keeps_bind; [apply keeps_removeMissingProperties|]. intros _.
    keeps_bind; [apply keeps_getEntity|]. intros x1.
    keeps_bind; [apply keeps_mergeRelations|]. intros brs.
    keeps_bind; [apply keeps_removeMissingRelations|]. intros _.
    keeps_done.
  Qed.
End steps.

(** ** The relations kept by the merge *)

Lemma entityKept_refl x : entityKept x x.
Proof. split; [reflexivity | lia]. Qed.

Lemma entityKept_trans x y z : entityKept x y -> entityKept y z -> entityKept x z.
Proof. intros [H1 H2] [H3 H4]. split; [congruence | lia]. Qed.

Lemma propertiesKept_refl x : propertiesKept x x.
Proof. by repeat split. Qed.

Lemma propertiesKept_trans x y z :
  propertiesKept x y -> propertiesKept y z -> propertiesKept x z.
Proof. intros (?&?&?&?) (?&?&?&?). repeat split; congruence. Qed.

Lemma relationsKept_refl x : relationsKept x x.
Proof. by repeat split. Qed.

Lemma relationsKept_trans x y z :
  relationsKept x y -> relationsKept y z -> relationsKept x z.
Proof. intros (?&?&?) (?&?&?). repeat split; congruence. Qed.

Lemma retiredPropertiesKept_trans a b c :
  retiredPropertiesKept a b -> retiredPropertiesKept b c -> retiredPropertiesKept a c.
Proof. unfold retiredPropertiesKept. congruence. Qed.

Ltac kept_side :=
  first [ exact entityKept_refl | exact entityKept_trans
        | exact propertiesKept_refl | exact propertiesKept_trans
        | exact relationsKept_refl | exact relationsKept_trans
        | exact retiredPropertiesKept_trans
        | (intros; exact I)
        | (intros; reflexivity)
        | (intros; split; [reflexivity | simpl; lia])
        | (intros; by repeat split) ].

(** Merging into the entity at [e] leaves the other entities as they are and
    keeps the identity of the entity and the order of [lastPropertyId]. *)
Lemma mergeModelEntity_kept be e :
  preserves (stepAt entityKept anyDocument e) (generator.mergeModelEntity be e).
Proof. apply keeps_mergeModelEntity; kept_side. Qed.

(** The steps on the properties of an entity leave its name and its relations
    as they are. *)
Lemma mergeProperties_kept bps e :
  preserves (stepAt relationsKept anyDocument e) (generator.mergeProperties bps e).
Proof. apply keeps_mergeProperties; kept_side. Qed.

Lemma removeMissingProperties_kept be e :
  preserves (stepAt relationsKept anyDocument e) (generator.removeMissingProperties be e).
Proof. apply keeps_removeMissingProperties; kept_side. Qed.

(** The steps on the relations of an entity leave its name, its properties,
    its [lastPropertyId] and the retired property UIDs as they are. *)
Lemma mergeRelations_kept brs e :
  preserves (stepAt propertiesKept retiredPropertiesKept e) (generator.mergeRelations brs e).
Proof. apply keeps_mergeRelations; kept_side. Qed.

Lemma removeMissingRelations_kept be e :
  preserves (stepAt propertiesKept retiredPropertiesKept e)
            (generator.removeMissingRelations be e).
Proof. apply keeps_removeMissingRelations; kept_side. Qed.

Lemma grows_refl m : grows m m.
Proof. intros e x Hx. exists x. split; auto. apply entityKept_refl. Qed.

Lemma grows_trans a b c : grows a b -> grows b c -> grows a c.
Proof.
  intros H1 H2 e x Hx. destruct (H1 e x Hx) as (x1 & Hx1 & Hk1).
  destruct (H2 e x1 Hx1) as (x2 & Hx2 & Hk2).
  exists x2. split; auto. by eapply entityKept_trans.
Qed.

Lemma stepAt_grows G e m m' : stepAt entityKept G e m m' -> grows m m'.
Proof.
  intros (L & O & K & _) e' x Hx. destruct (decide (e' = e)) as [->|Hne]; [by apply K|].
  exists x. rewrite O by done. split; auto. apply entityKept_refl.
Qed.

Ltac grows_bind := apply (preserves_bind _ grows_trans).

(** ** The whole merge keeps every entity *)

Lemma grows_append m m' added :
  modelinfo.Entities m' = modelinfo.Entities m ++ added -> grows m m'.
Proof.
  intros H e x Hx. exists x. split; [|apply entityKept_refl].
  unfold entityAt in *. rewrite H. by apply lookup_app_l_Some.
Qed.

Lemma grows_getModelEntity be : preserves grows (generator.getModelEntity be).
Proof.
  intros m. destruct (getModelEntity_appends be m) as [added H].
  by eapply grows_append.
Qed.

Lemma grows_getModelEntities bes : preserves grows (generator.getModelEntities bes).
Proof.
  intros m. destruct (getModelEntities_appends bes m) as [added H].
  by eapply grows_append.
Qed.

Lemma grows_mergeModelEntity be e : preserves grows (generator.mergeModelEntity be e).
Proof. intros m. eapply stepAt_grows, mergeModelEntity_kept. Qed.

Lemma grows_mergeModelEntities bes models :
  preserves grows (generator.mergeModelEntities bes models).
Proof.
  revert models. induction bes as [|be bes IH]; intros models; simpl.
  - apply preserves_ret, grows_refl.
  - destruct models as [|e models]; [apply preserves_fail, grows_refl|].
    grows_bind; [apply grows_mergeModelEntity|]. intros be'.
    grows_bind; [apply IH|]. intros rest. apply preserves_ret, grows_refl.
Qed.

(** Whatever its outcome, a merge leaves every entity of the document in
    place with its identity pair and with a [lastPropertyId] whose local id
    is not below the one before. *)
Lemma grows_mergeBindingWithModelInfo binding :
  preserves grows (generator.mergeBindingWithModelInfo binding).
Proof.
  unfold generator.mergeBindingWithModelInfo.
  grows_bind; [apply grows_getModelEntities|]. intros models.
  grows_bind; [apply grows_mergeModelEntities|]. intros entities.
  grows_bind; [|intros _; apply preserves_ret, grows_refl].
  intros m. apply grows_append with (added := []). simpl. by rewrite app_nil_r.
Qed.

(** ** Removal of missing properties *)

Lemma delete_insert_same {A} (l : list A) (p : nat) (v : A) :
  delete p (<[p := v]> l) = delete p l.
Proof.
  revert p. induction l as [|a l IH]; intros [|p]; simpl; try done. by rewrite IH.
Qed.

Lemma indexUids_cons y l : indexUids (y :: l) = indexUids [y] ++ indexUids l.
Proof. unfold indexUids. simpl. by rewrite app_nil_r. Qed.

(** [RemoveProperty] on a valid pointer: the slot is deleted, the UID of the
    property is appended to [retiredPropertyUids] and the UID of its index,
    if it has one, to [retiredIndexUids]. *)
Lemma RemoveProperty_eq e p m x y :
  entityAt m e = Some x ->
  modelinfo.Entity_Properties x !! p = Some y ->
  modelinfo.RemoveProperty e p m =
  (Ok tt,
   modelinfo.set_RetiredPropertyUids
     (modelinfo.RetiredPropertyUids m ++ [modelinfo.IdUid_uid (modelinfo.Property_Id y)])
     (modelinfo.set_RetiredIndexUids
        (modelinfo.RetiredIndexUids m ++ indexUids [y])
        (withEntity e (modelinfo.set_Entity_Properties
                         (delete p (modelinfo.Entity_Properties x)) x) m))).
Proof.
  intros Hx Hy. unfold modelinfo.RemoveProperty. unfold modelinfo.bind at 1.
  assert (propertyAt m e p = Some y) as Hp.
  { unfold propertyAt. unfold entityAt in Hx. by rewrite Hx. }
  rewrite (getProperty_eq _ _ _ _ Hp).
  unfold indexUids. simpl flat_map.
  destruct (modelinfo.Property_IndexId y) as [i|] eqn:Hi.
  - unfold modelinfo.bind at 1. unfold modelinfo.RemoveIndex. cbn [fst snd].
    unfold modelinfo.bind at 1. rewrite (getProperty_eq _ _ _ _ Hp), Hi.
    unfold modelinfo.bind at 1, modelinfo.modify.
    set (m1 := modelinfo.set_RetiredIndexUids _ m).
    assert (propertyAt m1 e p = Some y) as Hp1 by exact Hp.
    assert (entityAt m1 e = Some x) as Hx1 by exact Hx.
    rewrite (updProperty_eq _ _ _ _ _ Hp1).
    unfold modelinfo.bind at 1.
    rewrite (updEntity_eq _ _ _ _ (entityAt_withProperty _ _ _ _ _ Hx1)).
    f_equal. unfold withProperty. unfold entityAt in Hx1. rewrite Hx1.
    subst m1. unfold withEntity, modelinfo.set_RetiredPropertyUids,
      modelinfo.set_RetiredIndexUids, modelinfo.set_Entities. simpl.
    by rewrite list_insert_insert_eq, delete_insert_same.
  - unfold modelinfo.bind at 1, modelinfo.ret.
    unfold modelinfo.bind at 1. rewrite (updEntity_eq _ _ _ _ Hx).
    unfold modelinfo.modify. f_equal.
    unfold withEntity, modelinfo.set_RetiredPropertyUids,
      modelinfo.set_RetiredIndexUids, modelinfo.set_Entities. simpl.
    by rewrite app_nil_r.
Qed.

Lemma withEntity_retiredProperty_twice e x1 x2 v1 v2 w1 w2 m :
  modelinfo.set_RetiredPropertyUids v2
    (modelinfo.set_RetiredIndexUids w2
       (withEntity e x2
          (modelinfo.set_RetiredPropertyUids v1
             (modelinfo.set_RetiredIndexUids w1 (withEntity e x1 m))))) =
  modelinfo.set_RetiredPropertyUids v2
    (modelinfo.set_RetiredIndexUids w2 (withEntity e x2 m)).
Proof.
  unfold withEntity, modelinfo.set_RetiredPropertyUids, modelinfo.set_RetiredIndexUids,
    modelinfo.set_Entities. simpl.
  by rewrite list_insert_insert_eq.
Qed.

(** The removal loop on the pointers gathered from [l], the part of the
    property list not yet scanned; [kept] is the part already scanned, from
    which [k] properties were removed. *)
Lemma removeProperties_eq (test : modelinfo.Property -> bool) e l :
  forall kept i k m x,
    entityAt m e = Some x ->
    modelinfo.Entity_Properties x = kept ++ l ->
    (k <= i)%nat -> length kept = (i - k)%nat ->
    generator.removeProperties e (generator.missingFrom test l i) k m =
    (Ok tt,
     modelinfo.set_RetiredPropertyUids
       (modelinfo.RetiredPropertyUids m ++
        map (fun y => modelinfo.IdUid_uid (modelinfo.Property_Id y))
            (List.filter (fun y => negb (test y)) l))
       (modelinfo.set_RetiredIndexUids
          (modelinfo.RetiredIndexUids m ++
           indexUids (List.filter (fun y => negb (test y)) l))
          (withEntity e (modelinfo.set_Entity_Properties (kept ++ List.filter test l) x) m))).
Proof.
  induction l as [|a l IH]; intros kept i k m x Hx Hprops Hk Hlen.
  - simpl. unfold modelinfo.ret. f_equal.
    rewrite app_nil_r in Hprops. rewrite !app_nil_r, <- Hprops.
    unfold withEntity, modelinfo.set_RetiredPropertyUids, modelinfo.set_RetiredIndexUids,
      modelinfo.set_Entities.
    simpl. rewrite list_insert_id; [by destruct m | by destruct x].
  - simpl. destruct (test a) eqn:Ha; simpl.
    + rewrite (IH (kept ++ [a]) (S i) k m x Hx); try lia.
      * by rewrite <- app_assoc.
      * by rewrite Hprops, <- app_assoc.
      * rewrite length_app. simpl. lia.
    + unfold modelinfo.bind.
      assert (modelinfo.Entity_Properties x !! (i - k)%nat = Some a) as Hy.
      { rewrite Hprops, <- Hlen. by rewrite list_lookup_middle. }
      rewrite (RemoveProperty_eq e _ m x a Hx Hy).
      assert (delete (i - k)%nat (modelinfo.Entity_Properties x) = kept ++ l) as Hdel.
      { rewrite Hprops, <- Hlen. clear. induction kept; simpl; [done | by f_equal]. }
      rewrite Hdel.
      set (x1 := modelinfo.set_Entity_Properties (kept ++ l) x).
      set (m1 := modelinfo.set_RetiredPropertyUids _
                   (modelinfo.set_RetiredIndexUids _ (withEntity e x1 m))).
      assert (entityAt m1 e = Some x1) as Hx1.
      { subst m1. unfold entityAt. simpl. apply list_lookup_insert_eq.
        unfold entityAt in Hx. by eapply lookup_lt_Some. }
      rewrite (IH kept (S i) (S k) m1 x1 Hx1); [|reflexivity|lia|lia].
      f_equal. subst m1 x1. simpl modelinfo.RetiredPropertyUids.
      simpl modelinfo.RetiredIndexUids.
      rewrite (indexUids_cons a), <- !app_assoc. simpl.
      apply withEntity_retiredProperty_twice.
Qed.

(** The block that removes the missing properties, on a valid pointer: the
    entity keeps the properties that have a binding property of their name,
    in order; the UIDs of the others are appended to [retiredPropertyUids]
    and the UIDs of their indexes to [retiredIndexUids], in order; nothing
    else changes. *)
Lemma removeMissingProperties_eq be e m x :
  entityAt m e = Some x ->
  generator.removeMissingProperties be e m =
  (Ok tt,
   modelinfo.set_RetiredPropertyUids
     (modelinfo.RetiredPropertyUids m ++
      map (fun y => modelinfo.IdUid_uid (modelinfo.Property_Id y))
          (List.filter (fun y => negb (generator.bindingPropertyExists y be))
                       (modelinfo.Entity_Properties x)))
     (modelinfo.set_RetiredIndexUids
        (modelinfo.RetiredIndexUids m ++
         indexUids (List.filter (fun y => negb (generator.bindingPropertyExists y be))
                                (modelinfo.Entity_Properties x)))
        (withEntity e
           (modelinfo.set_Entity_Properties
              (List.filter (fun y => generator.bindingPropertyExists y be)
                           (modelinfo.Entity_Properties x)) x) m))).
Proof.
  intros Hx. unfold generator.removeMissingProperties, modelinfo.bind.
  rewrite (getEntity_eq _ _ _ Hx).
  by rewrite (removeProperties_eq _ e (modelinfo.Entity_Properties x) [] 0 0 m x Hx).
Qed.

(** ** Successful runs *)

Lemma bind_Ok {A B} (c : modelinfo.M A) (k : A -> modelinfo.M B) m b m' :
  modelinfo.bind c k m = (Ok b, m') ->
  exists a m1, c m = (Ok a, m1) /\ k a m1 = (Ok b, m').
Proof.
  unfold modelinfo.bind. destruct (c m) as [[a|err] m1]; [|discriminate]. eauto.
Qed.

Lemma getEntity_Ok e m x m' :
  modelinfo.getEntity e m = (Ok x, m') -> m' = m /\ entityAt m e = Some x.
Proof.
  unfold modelinfo.getEntity, entityAt.
  destruct (modelinfo.Entities m !! e); [|discriminate]. by intros [= <- <-].
Qed.

Lemma getProperty_Ok e p m y m' :
  modelinfo.getProperty e p m = (Ok y, m') -> m' = m /\ propertyAt m e p = Some y.
Proof.
  unfold modelinfo.getProperty, modelinfo.bind, modelinfo.getEntity, propertyAt.
  destruct (modelinfo.Entities m !! e) as [x|]; [|discriminate].
  destruct (modelinfo.Entity_Properties x !! p); [|discriminate]. by intros [= <- <-].
Qed.

Lemma getRelation_Ok e r m y m' :
  modelinfo.getRelation e r m = (Ok y, m') -> m' = m /\ relationAt m e r = Some y.
Proof.
  unfold modelinfo.getRelation, modelinfo.bind, modelinfo.getEntity, relationAt.
  destruct (modelinfo.Entities m !! e) as [x|]; [|discriminate].
  destruct (modelinfo.Entity_Relations x !! r); [|discriminate]. by intros [= <- <-].
Qed.

(** Decomposes a successful sequence in a hypothesis. *)
Ltac inv_bind H :=
  let a := fresh "a" in
  let m := fresh "m" in
  let H1 := fresh "Hstep" in
  apply bind_Ok in H as (a & m & H1 & H).

(** The merge writes identities into the binding descriptors and leaves their
    names alone. *)
(** Decomposes the successful runs recorded in the hypotheses into their
    steps. *)
Ltac inv_run :=
  repeat match goal with
         | H : modelinfo.bind _ _ _ = (Ok _, _) |- _ =>
             let a := fresh "a" in
             let m := fresh "m" in
             let H1 := fresh "Hrun" in
             apply bind_Ok in H as (a & m & H1 & H)
         | H : modelinfo.ret _ _ = (Ok _, _) |- _ =>
             unfold modelinfo.ret in H; injection H as ? ?; subst
         | H : modelinfo.fail _ _ = (Ok _, _) |- _ => discriminate H
         | H : modelinfo.lift _ _ = (Ok _, _) |- _ =>
             unfold modelinfo.lift in H; injection H as ? ?; subst
         | H : modelinfo.get _ = (Ok _, _) |- _ =>
             unfold modelinfo.get in H; injection H as ? ?; subst
         | H : modelinfo.getEntity _ _ = (Ok _, _) |- _ =>
             apply getEntity_Ok in H as [? H]; subst
         | H : modelinfo.getProperty _ _ _ = (Ok _, _) |- _ =>
             apply getProperty_Ok in H as [? H]; subst
         | H : modelinfo.getRelation _ _ _ = (Ok _, _) |- _ =>
             apply getRelation_Ok in H as [? H]; subst
         | H : modelinfo.Get _ = Ok _ |- _ =>
             unfold modelinfo.Get in H; injection H as ? ?; subst
         | H : (let (_, _) := ?c in _) _ = (Ok _, _) |- _ => destruct c
         | H : (match ?c with _ => _ end) _ = (Ok _, _) |- _ => destruct c eqn:?
         | H : (if ?c then _ else _) _ = (Ok _, _) |- _ => destruct c eqn:?
         end.

Lemma mergeModelProperty_Name bp ptr m bp' m' :
  generator.mergeModelProperty bp ptr m = (Ok bp', m') ->
  generator.Property_Name bp' = generator.Property_Name bp.
Proof.
  destruct ptr as [e p]. unfold generator.mergeModelProperty.
  cbn [generator.Property_Index generator.set_Property_IdUid].
  intros H. inv_run; reflexivity.
Qed.

Lemma mergeProperties_Names bps e m bps' m' :
  generator.mergeProperties bps e m = (Ok bps', m') ->
  map generator.Property_Name bps' = map generator.Property_Name bps.
Proof.
  revert m bps' m'. induction bps as [|bp bps IH]; intros m bps' m' H; simpl in H.
  - by injection H as <- _.
  - inv_run. simpl. f_equal.
    + by eapply mergeModelProperty_Name.
    + by eapply IH.
Qed.

Lemma bindingPropertyExists_names y be1 be2 :
  map generator.Property_Name (generator.Entity_Properties be1) =
  map generator.Property_Name (generator.Entity_Properties be2) ->
  generator.bindingPropertyExists y be1 = generator.bindingPropertyExists y be2.
Proof.
  unfold generator.bindingPropertyExists.
  generalize (generator.Entity_Properties be1) (generator.Entity_Properties be2).
  induction l as [|a l IH]; intros [|b l2] H; simpl in *; try discriminate; auto.
  injection H as Hab Hl. rewrite Hab. f_equal. by apply IH.
Qed.

Lemma bindingPropertyExists_true y be :
  generator.bindingPropertyExists y be = true <->
  modelinfo.Property_Name y ∈ map generator.Property_Name (generator.Entity_Properties be).
Proof.
  unfold generator.bindingPropertyExists. rewrite existsb_exists. split.
  - intros (bp & Hin & Heq). apply String.eqb_eq in Heq. rewrite <- Heq.
    apply list_elem_of_In, in_map, Hin.
  - intros H. apply list_elem_of_In, in_map_iff in H as (bp & Heq & Hin).
    exists bp. split; auto. by apply String.eqb_eq.
Qed.

(** ** Creation of a property *)

Lemma CreateProperty_eq e m x :
  entityAt m e = Some x ->
  modelinfo.CreateProperty e m =
  match modelinfo.nextId (modelinfo.Entity_LastPropertyId x) with
  | Err err => (Err err, m)
  | Ok id =>
      match modelinfo.draw (modelinfo.knownUids m) (modelinfo.rand m) with
      | None => (Err ErrUidExhausted, modelinfo.set_pool [] (modelinfo.issued m) m)
      | Some (u, rest) =>
          (Ok (e, length (modelinfo.Entity_Properties x)),
           withEntity e
             (modelinfo.set_Entity_LastPropertyId (modelinfo.CreateIdUid id u)
                (modelinfo.set_Entity_Properties
                   (modelinfo.Entity_Properties x ++
                    [modelinfo.mkProperty (modelinfo.CreateIdUid id u) "" None 0 0 ""]) x))
             (modelinfo.set_pool rest (modelinfo.issued m ++ [u]) m))
      end
  end.
Proof.
  intros Hx. unfold modelinfo.CreateProperty, modelinfo.bind at 1.
  rewrite (getEntity_eq _ _ _ Hx).
  unfold modelinfo.bind at 1, modelinfo.lift.
  destruct (modelinfo.nextId _) as [id|err]; [|reflexivity].
  unfold modelinfo.bind at 1, modelinfo.GenerateUid.
  destruct (modelinfo.draw _ _) as [[u rest]|]; [|reflexivity].
  unfold modelinfo.bind.
  assert (entityAt (modelinfo.set_pool rest (modelinfo.issued m ++ [u]) m) e = Some x) as Hx1
      by exact Hx.
  by rewrite (updEntity_eq _ _ _ _ Hx1).
Qed.

(** Resolution of a binding property without explicit UID and without UID
    request: by name, else a new property. *)
Lemma getModelProperty_implicit bp e m x :
  entityAt m e = Some x ->
  generator.Property_Uid bp = 0 ->
  generator.Property_uidRequest bp = false ->
  generator.getModelProperty bp e m =
  match find_index (fun y => String.eqb (modelinfo.Property_Name y) (generator.Property_Name bp))
                   (modelinfo.Entity_Properties x) with
  | Some p => (Ok (e, p), m)
  | None => modelinfo.CreateProperty e m
  end.
Proof.
  intros Hx Hu Hr. unfold generator.getModelProperty. rewrite Hu, Hr.
  change (negb (0 =? 0)) with false. cbv iota.
  unfold modelinfo.bind, modelinfo.ignoreErr, modelinfo.FindPropertyByName.
  unfold modelinfo.bind. rewrite (getEntity_eq _ _ _ Hx).
  by destruct (find_index _ _).
Qed.

(** ** Properties that a merge step does not touch *)

Lemma propertyAt_withProperty_ne m e p q y :
  p <> q -> propertyAt (withProperty e p y m) e q = propertyAt m e q.
Proof.
  intros Hne. unfold propertyAt, withProperty.
  destruct (modelinfo.Entities m !! e) as [x|] eqn:Hx; [|by rewrite Hx].
  unfold withEntity. simpl.
  rewrite list_lookup_insert_eq by (by eapply lookup_lt_Some). simpl.
  by apply list_lookup_insert_ne.
Qed.

(** Merging into the property at [p] leaves the property at any other
    position [q] as it is, whatever the outcome. *)
Lemma mergeModelProperty_other bp e p q m y :
  propertyAt m e p = Some y -> p <> q ->
  propertyAt (snd (generator.mergeModelProperty bp (e, p) m)) e q = propertyAt m e q.
Proof.
  intros Hy Hne. pose proof (mergeModelProperty_cases bp e p m y Hy) as H. cbv zeta in H.
  destruct (generator.Property_Index bp) as [ix|]; destruct (modelinfo.Property_IndexId y) as [i|];
    try (rewrite H; simpl snd;
         rewrite ?propertyAt_retiredIndex; by apply propertyAt_withProperty_ne).
  destruct (modelinfo.nextId _).
  - destruct (modelinfo.draw _ _) as [[u rest]|]; rewrite H; simpl snd;
      rewrite ?propertyAt_lastIndex, ?propertyAt_pool; by apply propertyAt_withProperty_ne.
  - rewrite H; simpl snd. by apply propertyAt_withProperty_ne.
Qed.

Lemma propertyAt_inv m e p y :
  propertyAt m e p = Some y ->
  exists x, entityAt m e = Some x /\ modelinfo.Entity_Properties x !! p = Some y.
Proof.
  unfold propertyAt, entityAt. destruct (modelinfo.Entities m !! e) as [x|]; [|discriminate].
  eauto.
Qed.

Lemma propertyAt_intro m e p x y :
  entityAt m e = Some x -> modelinfo.Entity_Properties x !! p = Some y ->
  propertyAt m e p = Some y.
Proof. unfold propertyAt, entityAt. by intros ->. Qed.

(** A binding property that requests its UID never resolves. *)
Lemma getModelProperty_uidRequest bp e m ptr m' :
  generator.Property_Uid bp = 0 -> generator.Property_uidRequest bp = true ->
  generator.getModelProperty bp e m <> (Ok ptr, m').
Proof.
  intros Hu Hr H. unfold generator.getModelProperty in H. rewrite Hu, Hr in H.
  change (negb (0 =? 0)) with false in H. cbv iota in H.
  inv_run.
Qed.

(** One turn of the loop over the binding properties leaves a property alone
    that has neither the name nor the explicit UID of the binding property. *)
Lemma mergeProperty_untouched bp e m p y ptr m1 :
  propertyAt m e p = Some y ->
  modelinfo.Property_Name y <> generator.Property_Name bp ->
  modelinfo.IdUid_uid (modelinfo.Property_Id y) <> generator.Property_Uid bp ->
  generator.getModelProperty bp e m = (Ok ptr, m1) ->
  propertyAt (snd (generator.mergeModelProperty bp ptr m1)) e p = Some y.
Proof.
  intros Hy Hname Huid Hget.
  destruct (propertyAt_inv _ _ _ _ Hy) as (x & Hx & Hp).
  assert (exists q y', ptr = (e, q) /\ q <> p /\ propertyAt m1 e q = Some y' /\
                       propertyAt m1 e p = Some y) as (q & y' & -> & Hq & Hy' & Hy1).
  { destruct (decide (generator.Property_Uid bp = 0)) as [Hu|Hu].
    - destruct (generator.Property_uidRequest bp) eqn:Hr;
        [by destruct (getModelProperty_uidRequest bp e m ptr m1)|].
      rewrite (getModelProperty_implicit bp e m x Hx Hu Hr) in Hget.
      destruct (find_index _ (modelinfo.Entity_Properties x)) as [q|] eqn:Hf.
      + injection Hget as <- <-. destruct (find_index_Some _ _ _ Hf) as (y' & Hq & Ht & _).
        exists q, y'. repeat split; auto.
        * intros ->. apply String.eqb_eq in Ht. congruence.
        * by eapply propertyAt_intro.
      + rewrite (CreateProperty_eq e m x Hx) in Hget.
        destruct (modelinfo.nextId _) as [id|]; [|discriminate].
        destruct (modelinfo.draw _ _) as [[u rest]|]; [|discriminate].
        injection Hget as <- <-.
        assert (p < length (modelinfo.Entity_Properties x))%nat as Hlt
            by (by eapply lookup_lt_Some).
        eexists _, _. split; [reflexivity|]. split; [lia|].
        unfold propertyAt, withEntity. simpl.
        unfold entityAt in Hx.
        rewrite list_lookup_insert_eq by (by eapply lookup_lt_Some). simpl. split.
        * by rewrite list_lookup_middle.
        * by apply lookup_app_l_Some.
    - rewrite (getModelProperty_explicit bp e m x Hx Hu) in Hget.
      destruct (find_index _ (modelinfo.Entity_Properties x)) as [q|] eqn:Hf.
      + injection Hget as <- <-. destruct (find_index_Some _ _ _ Hf) as (y' & Hq & Ht & _).
        exists q, y'. repeat split; auto.
        * intros ->. apply Z.eqb_eq in Ht. congruence.
        * by eapply propertyAt_intro.
      + destruct (find_index (fun y => String.eqb _ _) (modelinfo.Entity_Properties x))
          as [q|] eqn:Hg; [|discriminate].
        injection Hget as <- <-. destruct (find_index_Some _ _ _ Hg) as (y' & Hq & Ht & _).
        exists q, y'. repeat split; auto.
        * intros ->. apply String.eqb_eq in Ht. congruence.
        * by eapply propertyAt_intro. }
  rewrite (mergeModelProperty_other bp e q p m1 y' Hy' Hq). exact Hy1.
Qed.

(** The loop over the binding properties leaves a property alone that has
    neither the name nor the explicit UID of any binding property. *)
Lemma mergeProperties_untouched bps e p y :
  forall m bps' m',
    propertyAt m e p = Some y ->
    (forall bp, bp ∈ bps ->
       modelinfo.Property_Name y <> generator.Property_Name bp /\
       modelinfo.IdUid_uid (modelinfo.Property_Id y) <> generator.Property_Uid bp) ->
    generator.mergeProperties bps e m = (Ok bps', m') ->
    propertyAt m' e p = Some y.
Proof.
  induction bps as [|bp bps IH]; intros m bps' m' Hy Hno H; simpl in H.
  - by inv_run.
  - inv_run.
    destruct (Hno bp (list_elem_of_here _ _)) as [Hname Huid].
    pose proof (mergeProperty_untouched bp e m p y _ _ Hy Hname Huid Hrun) as Hy1.
    rewrite Hrun0 in Hy1. simpl in Hy1.
    eapply IH; [exact Hy1| |exact Hrun1].
    intros bp' Hin. apply Hno. by apply list_elem_of_further.
Qed.

(** ** Removed properties *)

Lemma entityAt_lookup m e x : entityAt m e = Some x -> modelinfo.Entities m !! e = Some x.
Proof. done. Qed.

(** A successful merge into the entity at [e] leaves it with properties that
    all have a binding property of their name, and has retired the UID of
    every property the entity had before that has neither the name nor the
    explicit UID of a binding property. *)
Lemma mergeModelEntity_prunes be e m x be' m' :
  entityAt m e = Some x ->
  generator.mergeModelEntity be e m = (Ok be', m') ->
  exists x',
    entityAt m' e = Some x' /\
    (forall y, y ∈ modelinfo.Entity_Properties x' ->
               generator.bindingPropertyExists y be = true) /\
    (forall y, y ∈ modelinfo.Entity_Properties x ->
       (forall bp, bp ∈ generator.Entity_Properties be ->
          modelinfo.Property_Name y <> generator.Property_Name bp /\
          modelinfo.IdUid_uid (modelinfo.Property_Id y) <> generator.Property_Uid bp) ->
       modelinfo.IdUid_uid (modelinfo.Property_Id y) ∈ modelinfo.RetiredPropertyUids m').
Proof.
  intros Hx H. unfold generator.mergeModelEntity in H.
  cbn [generator.Entity_Properties generator.Entity_Relations generator.set_Entity_IdUid
       generator.set_Entity_Properties generator.set_Entity_LastPropertyId] in H.
  inv_run.
  match goal with H : modelinfo.updEntity _ _ _ = _ |- _ => rename H into Hname end.
  match goal with H : generator.mergeProperties _ _ _ = _ |- _ => rename H into Hprops end.
  match goal with H : generator.removeMissingProperties _ _ _ = _ |- _ =>
    rename H into Hprune end.
  match goal with H : generator.mergeRelations _ _ _ = _ |- _ => rename H into Hrels end.
  match goal with H : generator.removeMissingRelations _ _ _ = _ |- _ =>
    rename H into Hprune2 end.
  rewrite (updEntity_eq _ _ _ _ Hx) in Hname. injection Hname as _ <-.
  match type of Hprops with _ = (Ok ?bps, ?mm) => rename bps into bps'; rename mm into m3' end.
  match type of Hprune with _ = (_, ?mm) => rename mm into m4 end.
  match type of Hrels with _ = (Ok ?brs, ?mm) => rename brs into brs'; rename mm into m5' end.
  match goal with H : entityAt m4 e = Some ?z |- _ => rename H into Hx4; rename z into x4 end.
  match goal with H : entityAt (withEntity _ _ _) e = Some ?z |- _ =>
    rename H into Hx0; rename z into x0 end.
  (* the entity after the loop over the binding properties *)
  pose proof (mergeProperties_kept (generator.Entity_Properties be) e
                (withEntity e (modelinfo.set_Entity_Name (generator.Entity_Name be) x) m))
    as Hk. rewrite Hprops in Hk. cbn [snd] in Hk. destruct Hk as (_ & _ & Hk & _).
  destruct (Hk _ Hx0) as (x3 & Hx3 & _). clear Hk.
  rewrite (removeMissingProperties_eq _ e _ x3 Hx3) in Hprune. injection Hprune as _ Hm4.
  (* the steps on the relations keep the properties and the retired UIDs *)
  pose proof (mergeRelations_kept (generator.Entity_Relations be) e m4) as Hk5.
  rewrite Hrels in Hk5. cbn [snd] in Hk5. destruct Hk5 as (_ & _ & Hk5 & Hr5).
  destruct (Hk5 _ Hx4) as (x5 & Hx5 & (_ & _ & _ & Hp5)).
  match type of Hprune2 with generator.removeMissingRelations ?b _ _ = _ =>
    pose proof (removeMissingRelations_kept b e m5') as Hk6 end.
  rewrite Hprune2 in Hk6. cbn [snd] in Hk6. destruct Hk6 as (_ & _ & Hk6 & Hr6).
  destruct (Hk6 _ Hx5) as (x6 & Hx6 & (_ & _ & _ & Hp6)).
  assert (Hnames : forall y,
             generator.bindingPropertyExists y
               (generator.set_Entity_Properties bps'
                  (generator.set_Entity_IdUid
                     (modelinfo.IdUid_id (modelinfo.Entity_Id x0))
                     (modelinfo.IdUid_uid (modelinfo.Entity_Id x0)) be)) =
             generator.bindingPropertyExists y be).
  { intros y. apply bindingPropertyExists_names. simpl. by eapply mergeProperties_Names. }
  assert (Hx4' : modelinfo.Entity_Properties x4 =
                 List.filter (fun y => generator.bindingPropertyExists y be)
                             (modelinfo.Entity_Properties x3)).
  { subst m4. unfold entityAt in Hx4. simpl in Hx4.
    rewrite list_lookup_insert_eq in Hx4 by (by eapply lookup_lt_Some).
    injection Hx4 as <-. simpl. apply filter_ext. intros y. apply Hnames. }
  exists x6. split; [exact Hx6|]. split.
  - intros y Hy. rewrite Hp6, Hp5, Hx4' in Hy.
    apply list_elem_of_In, filter_In in Hy. tauto.
  - intros y Hy Hno. apply list_elem_of_lookup in Hy as [p Hp].
    assert (propertyAt (withEntity e (modelinfo.set_Entity_Name (generator.Entity_Name be) x) m)
                       e p = Some y) as Hy0.
    { eapply propertyAt_intro; [by eapply entityAt_withEntity|]. exact Hp. }
    pose proof (mergeProperties_untouched _ e p y _ _ _ Hy0 Hno Hprops) as Hy3.
    destruct (propertyAt_inv _ _ _ _ Hy3) as (x3' & Hx3' & Hp3).
    rewrite Hx3 in Hx3'. injection Hx3' as <-.
    unfold retiredPropertiesKept in Hr5, Hr6. rewrite Hr6, Hr5. subst m4. simpl.
    unfold generator.removeMissingProperties.
    apply elem_of_app. right.
    apply list_elem_of_In, in_map_iff. exists y. split; [reflexivity|].
    apply filter_In. split.
    + apply list_elem_of_In. by eapply list_elem_of_lookup_2.
    + rewrite Hnames. apply negb_true_iff.
      destruct (generator.bindingPropertyExists y be) eqn:Hex; [|reflexivity].
      apply bindingPropertyExists_true in Hex.
      apply list_elem_of_In, in_map_iff in Hex as (bp & Heq & Hin).
      destruct (Hno bp) as [Hne _]; [by apply list_elem_of_In|]. congruence.
Qed.

Lemma knownUids_retiredProperty m u :
  u ∈ modelinfo.RetiredPropertyUids m -> u ∈ modelinfo.knownUids m.
Proof.
  intros H. unfold modelinfo.knownUids. rewrite !elem_of_app. tauto.
Qed.

(** A binding property without explicit UID whose name no property of the
    entity has is given a new property, as soon as the counter is below its
    maximum and the random source holds a usable value: its local id is one
    past [lastPropertyId.id], its UID is fresh, and the merge leaves it with
    this pair and the binding's name. *)
Lemma getModelProperty_creates bp e m x :
  entityAt m e = Some x ->
  generator.Property_Uid bp = 0 -> generator.Property_uidRequest bp = false ->
  (forall y, y ∈ modelinfo.Entity_Properties x ->
             modelinfo.Property_Name y <> generator.Property_Name bp) ->
  modelinfo.IdUid_id (modelinfo.Entity_LastPropertyId x) + 1 <= MaxId ->
  forall u0, u0 ∈ modelinfo.rand m -> u0 <> 0 -> u0 ∉ modelinfo.knownUids m ->
  exists uid m1 x1 y',
    generator.getModelProperty bp e m =
      (Ok (e, length (modelinfo.Entity_Properties x)), m1) /\
    uid <> 0 /\ (uid ∉ modelinfo.knownUids m) /\
    entityAt m1 e = Some x1 /\
    modelinfo.Entity_LastPropertyId x1 =
      modelinfo.CreateIdUid (modelinfo.IdUid_id (modelinfo.Entity_LastPropertyId x) + 1) uid /\
    propertyAt (snd (generator.mergeModelProperty bp
                       (e, length (modelinfo.Entity_Properties x)) m1))
               e (length (modelinfo.Entity_Properties x)) = Some y' /\
    modelinfo.Property_Id y' =
      modelinfo.CreateIdUid (modelinfo.IdUid_id (modelinfo.Entity_LastPropertyId x) + 1) uid /\
    modelinfo.Property_Name y' = generator.Property_Name bp.
Proof.
  intros Hx Hu Hr Hnone Hid u0 Hin Hnz Hnk.
  rewrite (getModelProperty_implicit bp e m x Hx Hu Hr).
  assert (find_index (fun y => String.eqb (modelinfo.Property_Name y) (generator.Property_Name bp))
                     (modelinfo.Entity_Properties x) = None) as ->.
  { apply find_index_None. intros y Hy. apply String.eqb_neq. by apply Hnone. }
  rewrite (CreateProperty_eq e m x Hx). unfold modelinfo.nextId.
  apply Z.leb_le in Hid. rewrite Hid.
  destruct (draw_succeeds _ _ u0 Hin Hnz Hnk) as (u & rest & Hd). rewrite Hd.
  destruct (draw_fresh _ _ _ _ Hd) as (Hu0 & Hfresh & _).
  set (new := modelinfo.mkProperty _ "" None 0 0 "").
  set (x1 := modelinfo.set_Entity_LastPropertyId _ _).
  set (m1 := withEntity e x1 _).
  assert (entityAt m1 e = Some x1) as Hx1.
  { subst m1. eapply entityAt_withEntity. exact Hx. }
  assert (propertyAt m1 e (length (modelinfo.Entity_Properties x)) = Some new) as Hnew.
  { eapply propertyAt_intro; [exact Hx1|]. subst x1. simpl. by rewrite list_lookup_middle. }
  destruct (mergeModelProperty_identity bp e _ m1 new Hnew) as (y' & Hy' & Hid' & Hname').
  exists u, m1, x1, y'. repeat split; auto.
  rewrite Hid'. by rewrite applyIdentity_Id_implicit.
Qed.

(** C5, the claim as stated fails: in the binding of "Task" the property
    "Name" is renamed to "Title" under its UID 101.  The model property
    "Name" has no binding property of its name, the merge succeeds, and the
    property is neither removed nor retired: it is the property "Title" with
    its identity pair 2:101, and no UID is retired. *)
Lemma C5_removed_properties_counterexample :
  generator.bindingPropertyExists examples.taskName examples.bindingTaskTitle = false /\
  isOk (fst (generator.mergeBindingWithModelInfo examples.bindingTitle examples.taskDoc))
    = true /\
  modelinfo.Entities
    (snd (generator.mergeBindingWithModelInfo examples.bindingTitle examples.taskDoc)) =
  [modelinfo.set_Entity_Properties
     [examples.taskId; modelinfo.set_Property_Name "Title" examples.taskName]
     examples.task] /\
  modelinfo.RetiredPropertyUids
    (snd (generator.mergeBindingWithModelInfo examples.bindingTitle examples.taskDoc)) = [].
Proof. vm_compute. repeat split; reflexivity. Qed.

(** C5, amended.  (1) The step of the merge that removes the missing
    properties keeps, in order, the properties that have a binding property
    of their name when the step runs, removes every other property, appends
    its UID to [retiredPropertyUids] and the UID of its index, if it has one,
    to [retiredIndexUids].  (2) A successful merge into an entity leaves it
    with properties that all have a binding property of their name; a
    property the entity had before that has neither the name nor the explicit
    UID of a binding property is removed (no property of its name is left)
    and its UID is in [retiredPropertyUids].  (3) Whatever its outcome, a
    merge leaves every entity in place with its identity pair and with a
    [lastPropertyId] whose local id is not below the one before.  (4) A
    binding property without explicit UID whose name no property of the
    entity has, such as one named like a property removed earlier, is given a
    new property whenever the counter is below its maximum and the random
    source holds a usable value: its local id is one past
    [lastPropertyId.id], and its UID is not zero, is in none of the retired
    lists and is not the UID of anything in the document. *)
Theorem C5_removed_properties_amended :
  (forall be e m x,
     entityAt m e = Some x ->
     exists m',
       generator.removeMissingProperties be e m = (Ok tt, m') /\
       entityAt m' e =
         Some (modelinfo.set_Entity_Properties
                 (List.filter (fun y => generator.bindingPropertyExists y be)
                              (modelinfo.Entity_Properties x)) x) /\
       modelinfo.RetiredPropertyUids m' =
         modelinfo.RetiredPropertyUids m ++
         map (fun y => modelinfo.IdUid_uid (modelinfo.Property_Id y))
             (List.filter (fun y => negb (generator.bindingPropertyExists y be))
                          (modelinfo.Entity_Properties x)) /\
       modelinfo.RetiredIndexUids m' =
         modelinfo.RetiredIndexUids m ++
         indexUids (List.filter (fun y => negb (generator.bindingPropertyExists y be))
                                (modelinfo.Entity_Properties x))) /\
  (forall be e m x be' m',
     entityAt m e = Some x ->
     generator.mergeModelEntity be e m = (Ok be', m') ->
     exists x',
       entityAt m' e = Some x' /\
       (forall y, y ∈ modelinfo.Entity_Properties x' ->
                  generator.bindingPropertyExists y be = true) /\
       (forall y, y ∈ modelinfo.Entity_Properties x ->
          (forall bp, bp ∈ generator.Entity_Properties be ->
             modelinfo.Property_Name y <> generator.Property_Name bp /\
             modelinfo.IdUid_uid (modelinfo.Property_Id y) <> generator.Property_Uid bp) ->
          (forall y', y' ∈ modelinfo.Entity_Properties x' ->
                      modelinfo.Property_Name y' <> modelinfo.Property_Name y) /\
          modelinfo.IdUid_uid (modelinfo.Property_Id y) ∈ modelinfo.RetiredPropertyUids m')) /\
  (forall binding m e x,
     entityAt m e = Some x ->
     exists x',
       entityAt (snd (generator.mergeBindingWithModelInfo binding m)) e = Some x' /\
       modelinfo.Entity_Id x' = modelinfo.Entity_Id x /\
       modelinfo.IdUid_id (modelinfo.Entity_LastPropertyId x) <=
       modelinfo.IdUid_id (modelinfo.Entity_LastPropertyId x')) /\
  (forall bp e m x,
     entityAt m e = Some x ->
     generator.Property_Uid bp = 0 -> generator.Property_uidRequest bp = false ->
     (forall y, y ∈ modelinfo.Entity_Properties x ->
                modelinfo.Property_Name y <> generator.Property_Name bp) ->
     modelinfo.IdUid_id (modelinfo.Entity_LastPropertyId x) + 1 <= MaxId ->
     forall u0, u0 ∈ modelinfo.rand m -> u0 <> 0 -> u0 ∉ modelinfo.knownUids m ->
     exists uid m1 x1 y',
       generator.getModelProperty bp e m =
         (Ok (e, length (modelinfo.Entity_Properties x)), m1) /\
       uid <> 0 /\ (uid ∉ modelinfo.knownUids m) /\
       (uid ∉ modelinfo.RetiredPropertyUids m) /\
       entityAt m1 e = Some x1 /\
       modelinfo.Entity_LastPropertyId x1 =
         modelinfo.CreateIdUid (modelinfo.IdUid_id (modelinfo.Entity_LastPropertyId x) + 1) uid /\
       propertyAt (snd (generator.mergeModelProperty bp
                          (e, length (modelinfo.Entity_Properties x)) m1))
                  e (length (modelinfo.Entity_Properties x)) = Some y' /\
       modelinfo.Property_Id y' =
         modelinfo.CreateIdUid (modelinfo.IdUid_id (modelinfo.Entity_LastPropertyId x) + 1) uid /\
       modelinfo.Property_Name y' = generator.Property_Name bp).
Proof.
  split; [|split; [|split]].
  - intros be e m x Hx. eexists. split; [by apply removeMissingProperties_eq|].
    split; [|split; reflexivity]. simpl. by eapply entityAt_withEntity.
  - intros be e m x be' m' Hx Hrun.
    destruct (mergeModelEntity_prunes be e m x be' m' Hx Hrun) as (x' & Hx' & Hall & Hret).
    exists x'. split; [exact Hx'|]. split; [exact Hall|].
    intros y Hy Hno. split; [|by apply Hret].
    intros y' Hy' Heq. specialize (Hall y' Hy').
    apply bindingPropertyExists_true in Hall.
    apply list_elem_of_fmap in Hall as (bp & Hbp & Hin).
    destruct (Hno bp Hin) as [Hne _]. congruence.
  - intros binding m e x Hx.
    destruct (grows_mergeBindingWithModelInfo binding m e x Hx) as (x' & Hx' & Hid & Hlast).
    eauto.
  - intros bp e m x Hx Hu Hr Hnone Hid u0 Hin Hnz Hnk.
    destruct (getModelProperty_creates bp e m x Hx Hu Hr Hnone Hid u0 Hin Hnz Hnk)
      as (uid & m1 & x1 & y' & Hget & Hu0 & Hfresh & Hx1 & Hlast & Hy' & Hid' & Hname').
    exists uid, m1, x1, y'. repeat split; auto.
    intros Hret. apply Hfresh. by apply knownUids_retiredProperty.
Qed.

Lemma C5_removed_properties_amended_witness :
  101 ∈ modelinfo.RetiredPropertyUids (snd examples.emailRun).
Proof.
  assert (generator.mergeModelEntity examples.bindingTaskEmail 0 examples.taskDoc
          = examples.emailRun) as Hrun by (vm_compute; reflexivity).
  destruct (proj1 (proj2 C5_removed_properties_amended) examples.bindingTaskEmail 0%nat
              examples.taskDoc examples.task _ _ eq_refl Hrun)
    as (x' & _ & _ & Hret).
  apply (Hret examples.taskName).
  - apply list_elem_of_further, list_elem_of_here.
  - intros bp Hbp.
    apply elem_of_cons in Hbp as [->|Hbp]; [split; discriminate|].
    apply elem_of_cons in Hbp as [->|Hbp]; [split; discriminate|]. inversion Hbp.
Defined.

(** The example of the spec, run twice: "Name" is dropped and "Email" added,
    then "Name" is added again.  The first merge retires the UID 101 and gives
    "Email" the local id 3; the second gives the new "Name" the local id 4 and
    a UID other than 101. *)
Example task_dropped_then_readded :
  let m1 := snd (generator.mergeBindingWithModelInfo
                   (generator.mkBinding "model" [examples.bindingTaskEmail]) examples.taskDoc) in
  let m2 := snd (generator.mergeBindingWithModelInfo
                   (generator.mkBinding "model" [examples.bindingTaskEmailName]) m1) in
  option_map (fun x => map (fun y => (modelinfo.Property_Name y, modelinfo.Property_Id y))
                           (modelinfo.Entity_Properties x)) (entityAt m1 0)
  = Some [("Id", modelinfo.CreateIdUid 1 100); ("Email", modelinfo.CreateIdUid 3 555)] /\
  modelinfo.RetiredPropertyUids m1 = [101] /\
  option_map (fun x => map (fun y => (modelinfo.Property_Name y, modelinfo.Property_Id y))
                           (modelinfo.Entity_Properties x)) (entityAt m2 0)
  = Some [("Id", modelinfo.CreateIdUid 1 100); ("Email", modelinfo.CreateIdUid 3 555);
          ("Name", modelinfo.CreateIdUid 4 556)] /\
  modelinfo.RetiredPropertyUids m2 = [101] /\
  option_map modelinfo.Entity_LastPropertyId (entityAt m2 0) = Some (modelinfo.CreateIdUid 4 556).
Proof. vm_compute. repeat split. Qed.

(** ** A merge into a document that reflects the binding *)

Lemma withEntity_id m e x : entityAt m e = Some x -> withEntity e x m = m.
Proof.
  intros Hx. unfold withEntity, modelinfo.set_Entities.
  rewrite list_insert_id by exact Hx. by destruct m.
Qed.

Lemma withProperty_id m e p y : propertyAt m e p = Some y -> withProperty e p y m = m.
Proof.
  intros Hy. destruct (propertyAt_inv _ _ _ _ Hy) as (x & Hx & Hp).
  unfold withProperty. rewrite (entityAt_lookup _ _ _ Hx).
  rewrite list_insert_id by exact Hp.
  replace (modelinfo.set_Entity_Properties (modelinfo.Entity_Properties x) x) with x
    by (by destruct x).
  by apply withEntity_id.
Qed.

Lemma withRelation_id m e r z : relationAt m e r = Some z -> withRelation e r z m = m.
Proof.
  unfold relationAt, withRelation.
  destruct (modelinfo.Entities m !! e) as [x|] eqn:Hx; [|done]. intros Hz.
  rewrite list_insert_id by exact Hz.
  replace (modelinfo.set_Entity_Relations (modelinfo.Entity_Relations x) x) with x
    by (by destruct x).
  by apply withEntity_id.
Qed.

(** Merging a binding property into a property that already is what the merge
    would leave changes nothing. *)
Lemma mergeModelProperty_settled bp e p m y :
  propertyAt m e p = Some y ->
  copyAttributes bp (applyIdentity bp y) = y ->
  (is_Some (modelinfo.Property_IndexId y) <-> is_Some (generator.Property_Index bp)) ->
  exists bp', generator.mergeModelProperty bp (e, p) m = (Ok bp', m).
Proof.
  intros Hy Heq Hidx.
  pose proof (mergeModelProperty_cases bp e p m y Hy) as H. cbv zeta in H.
  rewrite Heq in H. rewrite (withProperty_id _ _ _ _ Hy) in H.
  destruct (generator.Property_Index bp) as [ix|];
    destruct (modelinfo.Property_IndexId y) as [i|]; try (eexists; exact H).
  - destruct Hidx as [_ Hidx]. destruct Hidx as [? ?]; [eauto|discriminate].
  - destruct Hidx as [Hidx _]. destruct Hidx as [? ?]; [eauto|discriminate].
Qed.

Lemma mergeProperties_settled bps e m x :
  entityAt m e = Some x ->
  (forall bp, bp ∈ bps ->
     generator.Property_Uid bp = 0 /\ generator.Property_uidRequest bp = false) ->
  (forall bp, bp ∈ bps -> propertySettled bp x) ->
  exists bps', generator.mergeProperties bps e m = (Ok bps', m) /\
               map generator.Property_Name bps' = map generator.Property_Name bps.
Proof.
  intros Hx. induction bps as [|bp bps IH]; intros Himp Hset; simpl.
  - by exists [].
  - destruct (Himp bp (list_elem_of_here _ _)) as [Hu Hr].
    destruct (Hset bp (list_elem_of_here _ _)) as (p & y & Hf & Hp & Heq & Hidx).
    unfold modelinfo.bind at 1.
    rewrite (getModelProperty_implicit bp e m x Hx Hu Hr), Hf.
    assert (propertyAt m e p = Some y) as Hy by (by eapply propertyAt_intro).
    destruct (mergeModelProperty_settled bp e p m y Hy Heq Hidx) as [bp' Hm].
    unfold modelinfo.bind at 1. rewrite Hm.
    destruct IH as (bps' & Hrest & Hnames).
    + intros b Hb. apply Himp. by apply list_elem_of_further.
    + intros b Hb. apply Hset. by apply list_elem_of_further.
    + unfold modelinfo.bind. rewrite Hrest. eexists. split; [reflexivity|].
      simpl. f_equal; [|exact Hnames]. by eapply mergeModelProperty_Name.
Qed.

Lemma filter_all {A} (f : A -> bool) (l : list A) :
  (forall x, x ∈ l -> f x = true) -> List.filter f l = l.
Proof.
  induction l as [|a l IH]; intros H; simpl; [done|].
  rewrite (H a (list_elem_of_here _ _)). f_equal. apply IH.
  intros x Hx. apply H. by apply list_elem_of_further.
Qed.

Lemma filter_none {A} (f : A -> bool) (l : list A) :
  (forall x, x ∈ l -> f x = true) -> List.filter (fun x => negb (f x)) l = [].
Proof.
  induction l as [|a l IH]; intros H; simpl; [done|].
  rewrite (H a (list_elem_of_here _ _)). simpl. apply IH.
  intros x Hx. apply H. by apply list_elem_of_further.
Qed.

(** Nothing is removed from an entity whose properties all have a binding
    property of their name. *)
Lemma removeMissingProperties_settled be e m x :
  entityAt m e = Some x ->
  (forall y, y ∈ modelinfo.Entity_Properties x ->
             generator.bindingPropertyExists y be = true) ->
  generator.removeMissingProperties be e m = (Ok tt, m).
Proof.
  intros Hx Hall. rewrite (removeMissingProperties_eq be e m x Hx).
  rewrite (filter_none _ _ Hall), (filter_all _ _ Hall). simpl. rewrite !app_nil_r.
  replace (modelinfo.set_Entity_Properties (modelinfo.Entity_Properties x) x) with x
    by (by destruct x).
  rewrite (withEntity_id _ _ _ Hx). by destruct m.
Qed.

(** ** Relations: creation, merge and removal on a valid pointer *)

Lemma relationAt_inv m e r z :
  relationAt m e r = Some z ->
  exists x, entityAt m e = Some x /\ modelinfo.Entity_Relations x !! r = Some z.
Proof.
  unfold relationAt, entityAt. destruct (modelinfo.Entities m !! e) as [x|]; [|discriminate].
  eauto.
Qed.

Lemma relationAt_intro m e r x z :
  entityAt m e = Some x -> modelinfo.Entity_Relations x !! r = Some z ->
  relationAt m e r = Some z.
Proof. unfold relationAt, entityAt. by intros ->. Qed.

Lemma relationAt_withRelation m e r z z' :
  relationAt m e r = Some z -> relationAt (withRelation e r z' m) e r = Some z'.
Proof.
  unfold relationAt, withRelation.
  destruct (modelinfo.Entities m !! e) as [x|] eqn:Hx; [|discriminate].
  intros Hz. unfold withEntity. simpl.
  rewrite list_lookup_insert_eq by (by eapply lookup_lt_Some). simpl.
  apply list_lookup_insert_eq. by eapply lookup_lt_Some.
Qed.

Lemma withRelation_twice m e r z z' :
  withRelation e r z' (withRelation e r z m) = withRelation e r z' m.
Proof.
  unfold withRelation.
  destruct (modelinfo.Entities m !! e) as [x|] eqn:Hx; [|by rewrite Hx].
  unfold withEntity. simpl.
  rewrite list_lookup_insert_eq by (by eapply lookup_lt_Some). simpl.
  unfold modelinfo.set_Entities. simpl. f_equal.
  by rewrite list_insert_insert_eq, list_insert_insert_eq.
Qed.

(** The names and identity pairs of the entities, in order: what the lookup
    of a relation target reads. *)
Lemma find_index_ext {A} (f g : A -> bool) (l : list A) :
  (forall x, x ∈ l -> f x = g x) -> find_index f l = find_index g l.
Proof.
  induction l as [|a l IH]; intros H; simpl; [done|].
  rewrite (H a (list_elem_of_here _ _)). destruct (g a); [done|].
  f_equal. apply IH. intros x Hx. apply H. by apply list_elem_of_further.
Qed.

Lemma find_index_map {A B} (h : A -> B) (f : B -> bool) (l : list A) :
  find_index f (map h l) = find_index (fun x => f (h x)) l.
Proof.
  induction l as [|a l IH]; simpl; [done|]. destruct (f (h a)); [done|]. by rewrite IH.
Qed.

Lemma entityNames_withRelation m e r z :
  map modelinfo.Entity_Name (modelinfo.Entities (withRelation e r z m)) =
  map modelinfo.Entity_Name (modelinfo.Entities m).
Proof.
  unfold withRelation.
  destruct (modelinfo.Entities m !! e) as [x|] eqn:Hx; [|done].
  unfold withEntity. simpl. rewrite list_fmap_insert. simpl.
  apply list_insert_id. rewrite list_lookup_fmap, Hx. reflexivity.
Qed.

Lemma find_entity_names f m m' :
  map modelinfo.Entity_Name (modelinfo.Entities m') =
  map modelinfo.Entity_Name (modelinfo.Entities m) ->
  find_index (fun x => f (modelinfo.Entity_Name x)) (modelinfo.Entities m') =
  find_index (fun x => f (modelinfo.Entity_Name x)) (modelinfo.Entities m).
Proof.
  intros H.
  rewrite <- (find_index_map modelinfo.Entity_Name f (modelinfo.Entities m')).
  rewrite <- (find_index_map modelinfo.Entity_Name f (modelinfo.Entities m)).
  by rewrite H.
Qed.

(** [mergeModelRelation] on a valid pointer whose target entity exists: the
    relation takes the binding's name and the identity pair of the first
    entity of the target's name. *)
Lemma mergeModelRelation_eq br e r m z t xt :
  relationAt m e r = Some z ->
  find_index (fun x => String.eqb (modelinfo.Entity_Name x) (generator.Relation_Target_Name br))
             (modelinfo.Entities m) = Some t ->
  entityAt m t = Some xt ->
  generator.mergeModelRelation br (e, r) m =
  (Ok (generator.set_Relation_Target_IdUid
         (modelinfo.IdUid_id (modelinfo.Entity_Id xt))
         (modelinfo.IdUid_uid (modelinfo.Entity_Id xt))
         (generator.set_Relation_IdUid
            (modelinfo.IdUid_id (modelinfo.Relation_Id z))
            (modelinfo.IdUid_uid (modelinfo.Relation_Id z)) br)),
   withRelation e r
     (modelinfo.set_Relation_TargetId (modelinfo.Entity_Id xt)
        (modelinfo.set_Relation_Name (generator.Relation_Name br) z)) m).
Proof.
  intros Hz Ht Hxt. unfold generator.mergeModelRelation.
  unfold modelinfo.bind at 1. rewrite (updRelation_eq _ _ _ _ _ Hz).
  set (z1 := modelinfo.set_Relation_Name _ z). set (m1 := withRelation e r z1 m).
  assert (relationAt m1 e r = Some z1) as Hz1 by (by eapply relationAt_withRelation).
  unfold modelinfo.bind at 1. rewrite (getRelation_eq _ _ _ _ Hz1).
  unfold modelinfo.bind at 1, modelinfo.lift, modelinfo.Get. cbv beta iota.
  unfold modelinfo.bind at 1, modelinfo.FindEntityByName.
  cbn [generator.Relation_Target_Name generator.set_Relation_IdUid].
  rewrite (find_entity_names (fun n => String.eqb n (generator.Relation_Target_Name br)) m m1)
    by apply entityNames_withRelation.
  rewrite Ht.
  assert (exists xt1, entityAt m1 t = Some xt1 /\
                      modelinfo.Entity_Id xt1 = modelinfo.Entity_Id xt) as (xt1 & Hxt1 & Hid).
  { subst m1. unfold withRelation. unfold relationAt in Hz.
    destruct (modelinfo.Entities m !! e) as [x|] eqn:Hx; [|discriminate].
    destruct (decide (e = t)) as [->|Hne].
    - eexists. split; [by eapply entityAt_withEntity|].
      unfold entityAt in Hxt. rewrite Hx in Hxt. by injection Hxt as ->.
    - exists xt. split; [|done]. by rewrite entityAt_withEntity_ne. }
  unfold modelinfo.bind at 1. rewrite (getEntity_eq _ _ _ Hxt1).
  unfold modelinfo.bind at 1. cbv beta iota.
  unfold modelinfo.bind at 1, modelinfo.SetTarget. cbn [fst snd].
  unfold modelinfo.bind at 1. rewrite (getEntity_eq _ _ _ Hxt1).
  rewrite (updRelation_eq _ _ _ _ _ Hz1). unfold modelinfo.ret.
  subst m1. rewrite withRelation_twice, Hid. reflexivity.
Qed.

Lemma getModelRelation_implicit br e m x :
  entityAt m e = Some x ->
  generator.Relation_Uid br = 0 ->
  generator.Relation_uidRequest br = false ->
  generator.getModelRelation br e m =
  match find_index (fun z => String.eqb (modelinfo.Relation_Name z) (generator.Relation_Name br))
                   (modelinfo.Entity_Relations x) with
  | Some r => (Ok (e, r), m)
  | None => modelinfo.CreateRelation e m
  end.
Proof.
  intros Hx Hu Hr. unfold generator.getModelRelation. rewrite Hu, Hr.
  change (negb (0 =? 0)) with false. cbv iota.
  unfold modelinfo.bind, modelinfo.ignoreErr, modelinfo.FindRelationByName.
  unfold modelinfo.bind. rewrite (getEntity_eq _ _ _ Hx).
  by destruct (find_index _ _).
Qed.

Lemma mergeRelations_settled brs e m x :
  entityAt m e = Some x ->
  (forall br, br ∈ brs ->
     generator.Relation_Uid br = 0 /\ generator.Relation_uidRequest br = false) ->
  (forall br, br ∈ brs -> relationSettled br x m) ->
  exists brs', generator.mergeRelations brs e m = (Ok brs', m) /\
               map generator.Relation_Name brs' = map generator.Relation_Name brs.
Proof.
  intros Hx. induction brs as [|br brs IH]; intros Himp Hset; simpl.
  - by exists [].
  - destruct (Himp br (list_elem_of_here _ _)) as [Hu Hr].
    destruct (Hset br (list_elem_of_here _ _)) as (r & z & t & xt & Hf & Hz & Ht & Hxt & Htarget).
    unfold modelinfo.bind at 1.
    rewrite (getModelRelation_implicit br e m x Hx Hu Hr), Hf.
    assert (relationAt m e r = Some z) as Hrel by (by eapply relationAt_intro).
    unfold modelinfo.bind at 1.
    rewrite (mergeModelRelation_eq br e r m z t xt Hrel Ht Hxt).
    assert (modelinfo.set_Relation_TargetId (modelinfo.Entity_Id xt)
              (modelinfo.set_Relation_Name (generator.Relation_Name br) z) = z) as ->.
    { destruct (find_index_Some _ _ _ Hf) as (z' & Hz' & Hname & _).
      rewrite Hz in Hz'. injection Hz' as <-. apply String.eqb_eq in Hname.
      rewrite <- Htarget, <- Hname. by destruct z. }
    rewrite (withRelation_id _ _ _ _ Hrel).
    destruct IH as (brs' & Hrest & Hnames).
    + intros b Hb. apply Himp. by apply list_elem_of_further.
    + intros b Hb. apply Hset. by apply list_elem_of_further.
    + unfold modelinfo.bind. rewrite Hrest. eexists. split; [reflexivity|].
      simpl. by f_equal.
Qed.

(** ** Removal of missing relations *)

Lemma RemoveRelation_eq e r m x z :
  entityAt m e = Some x ->
  modelinfo.Entity_Relations x !! r = Some z ->
  modelinfo.RemoveRelation e r m =
  (Ok tt,
   modelinfo.set_RetiredRelationUids
     (modelinfo.RetiredRelationUids m ++ [modelinfo.IdUid_uid (modelinfo.Relation_Id z)])
     (withEntity e (modelinfo.set_Entity_Relations
                      (delete r (modelinfo.Entity_Relations x)) x) m)).
Proof.
  intros Hx Hz. unfold modelinfo.RemoveRelation, modelinfo.bind.
  assert (relationAt m e r = Some z) as Hp by (by eapply relationAt_intro).
  rewrite (getRelation_eq _ _ _ _ Hp), (updEntity_eq _ _ _ _ Hx). reflexivity.
Qed.

Lemma withEntity_retiredRelation_twice e x1 x2 v1 v2 m :
  modelinfo.set_RetiredRelationUids v2
    (withEntity e x2 (modelinfo.set_RetiredRelationUids v1 (withEntity e x1 m))) =
  modelinfo.set_RetiredRelationUids v2 (withEntity e x2 m).
Proof.
  unfold withEntity, modelinfo.set_RetiredRelationUids, modelinfo.set_Entities. simpl.
  by rewrite list_insert_insert_eq.
Qed.

Lemma removeRelations_eq (test : modelinfo.StandaloneRelation -> bool) e l :
  forall kept i k m x,
    entityAt m e = Some x ->
    modelinfo.Entity_Relations x = kept ++ l ->
    (k <= i)%nat -> length kept = (i - k)%nat ->
    generator.removeRelations e (generator.missingFrom test l i) k m =
    (Ok tt,
     modelinfo.set_RetiredRelationUids
       (modelinfo.RetiredRelationUids m ++
        map (fun z => modelinfo.IdUid_uid (modelinfo.Relation_Id z))
            (List.filter (fun z => negb (test z)) l))
       (withEntity e (modelinfo.set_Entity_Relations (kept ++ List.filter test l) x) m)).
Proof.
  induction l as [|a l IH]; intros kept i k m x Hx Hrels Hk Hlen.
  - simpl. unfold modelinfo.ret. f_equal.
    rewrite app_nil_r in Hrels. rewrite !app_nil_r, <- Hrels.
    unfold withEntity, modelinfo.set_RetiredRelationUids, modelinfo.set_Entities.
    simpl. rewrite list_insert_id; [by destruct m | by destruct x].
  - simpl. destruct (test a) eqn:Ha; simpl.
    + rewrite (IH (kept ++ [a]) (S i) k m x Hx); try lia.
      * by rewrite <- app_assoc.
      * by rewrite Hrels, <- app_assoc.
      * rewrite length_app. simpl. lia.
    + unfold modelinfo.bind.
      assert (modelinfo.Entity_Relations x !! (i - k)%nat = Some a) as Hy.
      { rewrite Hrels, <- Hlen. by rewrite list_lookup_middle. }
      rewrite (RemoveRelation_eq e _ m x a Hx Hy).
      assert (delete (i - k)%nat (modelinfo.Entity_Relations x) = kept ++ l) as Hdel.
      { rewrite Hrels, <- Hlen. clear. induction kept; simpl; [done | by f_equal]. }
      rewrite Hdel.
      set (x1 := modelinfo.set_Entity_Relations (kept ++ l) x).
      set (m1 := modelinfo.set_RetiredRelationUids _ (withEntity e x1 m)).
      assert (entityAt m1 e = Some x1) as Hx1.
      { subst m1. unfold entityAt. simpl. apply list_lookup_insert_eq.
        unfold entityAt in Hx. by eapply lookup_lt_Some. }
      rewrite (IH kept (S i) (S k) m1 x1 Hx1); [|reflexivity|lia|lia].
      f_equal. subst m1 x1. simpl modelinfo.RetiredRelationUids.
      rewrite <- app_assoc. simpl.
      apply withEntity_retiredRelation_twice.
Qed.

(** The block that removes the missing relations, on a valid pointer: the
    entity keeps the relations that have a binding relation of their name, in
    order, and the UIDs of the others are appended to [retiredRelationUids],
    in order; nothing else changes. *)
Lemma removeMissingRelations_eq be e m x :
  entityAt m e = Some x ->
  generator.removeMissingRelations be e m =
  (Ok tt,
   modelinfo.set_RetiredRelationUids
     (modelinfo.RetiredRelationUids m ++
      map (fun z => modelinfo.IdUid_uid (modelinfo.Relation_Id z))
          (List.filter (fun z => negb (generator.bindingRelationExists z be))
                       (modelinfo.Entity_Relations x)))
     (withEntity e
        (modelinfo.set_Entity_Relations
           (List.filter (fun z => generator.bindingRelationExists z be)
                        (modelinfo.Entity_Relations x)) x) m)).
Proof.
  intros Hx. unfold generator.removeMissingRelations, modelinfo.bind.
  rewrite (getEntity_eq _ _ _ Hx).
  by rewrite (removeRelations_eq _ e (modelinfo.Entity_Relations x) [] 0 0 m x Hx).
Qed.

Lemma removeMissingRelations_settled be e m x :
  entityAt m e = Some x ->
  (forall z, z ∈ modelinfo.Entity_Relations x ->
             generator.bindingRelationExists z be = true) ->
  generator.removeMissingRelations be e m = (Ok tt, m).
Proof.
  intros Hx Hall. rewrite (removeMissingRelations_eq be e m x Hx).
  rewrite (filter_none _ _ Hall), (filter_all _ _ Hall). simpl. rewrite app_nil_r.
  replace (modelinfo.set_Entity_Relations (modelinfo.Entity_Relations x) x) with x
    by (by destruct x).
  rewrite (withEntity_id _ _ _ Hx). by destruct m.
Qed.

Lemma bindingRelationExists_names z be1 be2 :
  map generator.Relation_Name (generator.Entity_Relations be1) =
  map generator.Relation_Name (generator.Entity_Relations be2) ->
  generator.bindingRelationExists z be1 = generator.bindingRelationExists z be2.
Proof.
  unfold generator.bindingRelationExists.
  generalize (generator.Entity_Relations be1) (generator.Entity_Relations be2).
  induction l as [|a l IH]; intros [|b l2] H; simpl in *; try discriminate; auto.
  injection H as Hab Hl. rewrite Hab. f_equal. by apply IH.
Qed.

Lemma bindingRelationExists_true z be :
  generator.bindingRelationExists z be = true <->
  modelinfo.Relation_Name z ∈ map generator.Relation_Name (generator.Entity_Relations be).
Proof.
  unfold generator.bindingRelationExists. rewrite existsb_exists. split.
  - intros (br & Hin & Heq). apply String.eqb_eq in Heq. rewrite <- Heq.
    apply list_elem_of_In, in_map, Hin.
  - intros H. apply list_elem_of_In, in_map_iff in H as (br & Heq & Hin).
    exists br. split; auto. by apply String.eqb_eq.
Qed.

(** ** The merge of a binding that the document reflects *)

Lemma getModelEntity_implicit be m :
  generator.Entity_Uid be = 0 -> generator.Entity_uidRequest be = false ->
  generator.getModelEntity be m =
  match find_index (fun x => String.eqb (modelinfo.Entity_Name x) (generator.Entity_Name be))
                   (modelinfo.Entities m) with
  | Some e => (Ok e, m)
  | None => modelinfo.CreateEntity (generator.Entity_Name be) m
  end.
Proof.
  intros Hu Hr. unfold generator.getModelEntity. rewrite Hu, Hr.
  change (negb (0 =? 0)) with false. cbv iota.
  unfold modelinfo.bind, modelinfo.ignoreErr, modelinfo.FindEntityByName.
  by destruct (find_index _ _).
Qed.

Lemma mergeModelEntity_settled be e m x :
  implicitEntity be ->
  entityAt m e = Some x ->
  modelinfo.Entity_Name x = generator.Entity_Name be ->
  (forall bp, bp ∈ generator.Entity_Properties be -> propertySettled bp x) ->
  (forall y, y ∈ modelinfo.Entity_Properties x ->
             generator.bindingPropertyExists y be = true) ->
  (forall br, br ∈ generator.Entity_Relations be -> relationSettled br x m) ->
  (forall z, z ∈ modelinfo.Entity_Relations x ->
             generator.bindingRelationExists z be = true) ->
  exists be', generator.mergeModelEntity be e m = (Ok be', m).
Proof.
  intros (_ & _ & Himp & Himr) Hx Hname Hprops Hall Hrels Hallr.
  unfold generator.mergeModelEntity.
  unfold modelinfo.bind at 1. rewrite (updEntity_eq _ _ _ _ Hx).
  assert (modelinfo.set_Entity_Name (generator.Entity_Name be) x = x) as ->
      by (rewrite <- Hname; by destruct x).
  rewrite (withEntity_id _ _ _ Hx).
  unfold modelinfo.bind at 1. rewrite (getEntity_eq _ _ _ Hx).
  unfold modelinfo.bind at 1, modelinfo.lift, modelinfo.Get. cbv beta iota.
  cbn [generator.Entity_Properties generator.set_Entity_IdUid].
  destruct (mergeProperties_settled _ e m x Hx Himp Hprops) as (bps' & Hmp & Hnp).
  unfold modelinfo.bind at 1. rewrite Hmp.
  unfold modelinfo.bind at 1.
  rewrite (removeMissingProperties_settled _ e m x Hx).
  2:{ intros y Hy. rewrite <- (Hall y Hy). apply bindingPropertyExists_names. simpl. exact Hnp. }
  unfold modelinfo.bind at 1. rewrite (getEntity_eq _ _ _ Hx).
  cbn [generator.Entity_Relations generator.set_Entity_LastPropertyId
       generator.set_Entity_Properties generator.set_Entity_IdUid].
  destruct (mergeRelations_settled _ e m x Hx Himr Hrels) as (brs' & Hmr & Hnr).
  unfold modelinfo.bind at 1. rewrite Hmr.
  unfold modelinfo.bind at 1.
  rewrite (removeMissingRelations_settled _ e m x Hx).
  2:{ intros z Hz. rewrite <- (Hallr z Hz). apply bindingRelationExists_names. simpl. exact Hnr. }
  unfold modelinfo.ret. eauto.
Qed.

(** A merge of a binding without explicit UIDs into a document that reflects
    it succeeds and leaves the document as it is. *)
Lemma merge_settled binding m :
  implicitBinding binding -> settled binding m ->
  exists binding', generator.mergeBindingWithModelInfo binding m = (Ok binding', m).
Proof.
  intros Himp [Hpkg Hset].
  unfold generator.mergeBindingWithModelInfo.
  assert (forall bes,
             (forall be, be ∈ bes -> implicitEntity be /\ entitySettled be m) ->
             exists es, generator.getModelEntities bes m = (Ok es, m) /\
                        Forall2 (fun be e =>
                                   find_index (fun x => String.eqb (modelinfo.Entity_Name x)
                                                          (generator.Entity_Name be))
                                              (modelinfo.Entities m) = Some e) bes es) as Hpass1.
  { induction bes as [|be bes IH]; intros H; simpl.
    - exists []. split; [reflexivity | constructor].
    - destruct (H be (list_elem_of_here _ _)) as [(Hu & Hr & _) (e & x & Hf & _)].
      unfold modelinfo.bind at 1. rewrite (getModelEntity_implicit be m Hu Hr), Hf.
      destruct IH as (es & Hes & Hall).
      { intros b Hb. apply H. by apply list_elem_of_further. }
      unfold modelinfo.bind. rewrite Hes. exists (e :: es). split; [reflexivity|].
      by constructor. }
  assert (forall bes es,
             (forall be, be ∈ bes -> implicitEntity be /\ entitySettled be m) ->
             Forall2 (fun be e =>
                        find_index (fun x => String.eqb (modelinfo.Entity_Name x)
                                               (generator.Entity_Name be))
                                   (modelinfo.Entities m) = Some e) bes es ->
             exists bes', generator.mergeModelEntities bes es m = (Ok bes', m)) as Hpass2.
  { intros bes es H Hall. induction Hall as [|be e bes es Hf Hall IH]; simpl.
    - by exists [].
    - destruct (H be (list_elem_of_here _ _))
        as [Hi (e' & x & Hf' & Hx & Hp & Hap & Hr & Har)].
      rewrite Hf in Hf'. injection Hf' as <-.
      destruct (find_index_Some _ _ _ Hf) as (x' & Hx' & Hname & _).
      rewrite Hx in Hx'. injection Hx' as <-. apply String.eqb_eq in Hname.
      destruct (mergeModelEntity_settled be e m x Hi Hx Hname Hp Hap Hr Har) as [be' Hm].
      unfold modelinfo.bind at 1. rewrite Hm.
      destruct IH as [bes' Hrest].
      { intros b Hb. apply H. by apply list_elem_of_further. }
      unfold modelinfo.bind. rewrite Hrest. eauto. }
  assert (forall be, be ∈ generator.Binding_Entities binding ->
                     implicitEntity be /\ entitySettled be m) as Hboth by auto.
  destruct (Hpass1 _ Hboth) as (es & Hes & Hall).
  destruct (Hpass2 _ _ Hboth Hall) as [bes' Hrun].
  unfold modelinfo.bind at 1. rewrite Hes.
  unfold modelinfo.bind at 1. rewrite Hrun.
  unfold modelinfo.bind, modelinfo.modify, modelinfo.ret.
  eexists. f_equal. rewrite <- Hpkg. by destruct m.
Qed.

(** * Further properties *)

(** ** The model file *)

(** Loading a file that decodes always succeeds, and changes nothing but
    notes and version fields: the entities, the last-used identity pairs, the
    retired UIDs and the package name are the decoded ones. *)
Theorem LoadOrCreateModel_keeps_content fs path d :
  fileio.stat fs path = Some (fileio.Decodes d) ->
  exists model,
    fileio.LoadOrCreateModel fs path = Ok model /\
    modelinfo.Entities model = modelinfo.Entities d /\
    modelinfo.LastEntityId model = modelinfo.LastEntityId d /\
    modelinfo.LastIndexId model = modelinfo.LastIndexId d /\
    modelinfo.LastRelationId model = modelinfo.LastRelationId d /\
    modelinfo.RetiredEntityUids model = modelinfo.RetiredEntityUids d /\
    modelinfo.RetiredIndexUids model = modelinfo.RetiredIndexUids d /\
    modelinfo.RetiredPropertyUids model = modelinfo.RetiredPropertyUids d /\
    modelinfo.RetiredRelationUids model = modelinfo.RetiredRelationUids d /\
    modelinfo.Package model = modelinfo.Package d.
Proof.
  intros Hstat.
  unfold fileio.LoadOrCreateModel, fileio.fileExists, fileio.loadModelFromJSONFile.
  rewrite Hstat. eexists. split; [reflexivity|].
  destruct ((modelinfo.ModelVersion d =? 0) && (modelinfo.MinimumParserVersion d =? 0)
            && (String.length (modelinfo.Note1 d) =? 0)%nat); by repeat split.
Qed.

Lemma LoadOrCreateModel_keeps_content_witness :
  exists model,
    fileio.LoadOrCreateModel (examples.fsHolding examples.taskDoc) examples.modelPath
      = Ok model /\
    modelinfo.Entities model = [examples.task].
Proof.
  destruct (LoadOrCreateModel_keeps_content (examples.fsHolding examples.taskDoc)
              examples.modelPath examples.taskDoc eq_refl) as (model & Hload & Hent & _).
  exists model. split; [exact Hload | exact Hent].
Defined.

(** ** Names of the binding *)



(** ** UID requests on properties and relations *)

(** A binding property with the UID request flag and no explicit UID never
    resolves, and the entities of the document are as before. *)
Theorem getModelProperty_uid_request_fails bp e m :
  generator.Property_Uid bp = 0 -> generator.Property_uidRequest bp = true ->
  isOk (fst (generator.getModelProperty bp e m)) = false /\
  modelinfo.Entities (snd (generator.getModelProperty bp e m)) = modelinfo.Entities m.
Proof.
  intros Hu Hr.
  assert (exists err m', generator.getModelProperty bp e m = (Err err, m') /\
                         modelinfo.Entities m' = modelinfo.Entities m)
    as (err & m' & -> & Hm'); [|by split].
  unfold generator.getModelProperty. rewrite Hu, Hr.
  change (negb (0 =? 0)) with false. cbv iota.
  unfold modelinfo.bind at 1, modelinfo.ignoreErr, modelinfo.FindPropertyByName.
  unfold modelinfo.bind at 1, modelinfo.getEntity.
  destruct (modelinfo.Entities m !! e) as [x|] eqn:Hx; [|cbn; eauto].
  destruct (find_index _ _) as [p|]; [|cbn; eauto].
  cbn [modelinfo.ret fst snd].
  unfold modelinfo.bind at 1, modelinfo.getProperty.
  unfold modelinfo.bind at 1, modelinfo.getEntity. rewrite Hx.
  destruct (modelinfo.Entity_Properties x !! p) as [y|]; [|cbn; eauto].
  cbn [modelinfo.ret modelinfo.lift].
  unfold modelinfo.bind at 1, modelinfo.lift, modelinfo.GetUid.
  unfold modelinfo.bind at 1.
  pose proof (GenerateUid_Entities m) as Hg.
  destruct (modelinfo.GenerateUid m) as [[u|err] m1]; cbn in *; eauto.
Qed.

Lemma getModelProperty_uid_request_fails_witness :
  isOk (fst (generator.getModelProperty examples.bindingNameRequest 0 examples.taskDoc))
    = false /\
  modelinfo.Entities
    (snd (generator.getModelProperty examples.bindingNameRequest 0 examples.taskDoc)) =
  modelinfo.Entities examples.taskDoc.
Proof.
  exact (getModelProperty_uid_request_fails examples.bindingNameRequest 0 examples.taskDoc
           eq_refl eq_refl).
Defined.

(** A binding relation with the UID request flag and no explicit UID never
    resolves, and the document is as before. *)
Theorem getModelRelation_uid_request_fails br e m :
  generator.Relation_Uid br = 0 -> generator.Relation_uidRequest br = true ->
  isOk (fst (generator.getModelRelation br e m)) = false /\
  snd (generator.getModelRelation br e m) = m.
Proof.
  intros Hu Hr.
  assert (exists err, generator.getModelRelation br e m = (Err err, m))
    as (err & ->); [|by split].
  unfold generator.getModelRelation. rewrite Hu, Hr.
  change (negb (0 =? 0)) with false. cbv iota.
  unfold modelinfo.bind at 1, modelinfo.ignoreErr, modelinfo.FindRelationByName.
  unfold modelinfo.bind at 1, modelinfo.getEntity.
  destruct (modelinfo.Entities m !! e) as [x|] eqn:Hx.
  - destruct (find_index _ _) as [r|]; cbn [modelinfo.ret modelinfo.fail fst snd].
    + unfold modelinfo.bind at 1, modelinfo.getEntity. rewrite Hx.
      unfold modelinfo.bind at 1, modelinfo.getRelation.
      unfold modelinfo.bind at 1, modelinfo.getEntity. rewrite Hx.
      destruct (modelinfo.Entity_Relations x !! r) as [z|]; cbn; eauto.
    + unfold modelinfo.bind at 1, modelinfo.getEntity. rewrite Hx. cbn. eauto.
  - cbn [fst snd]. unfold modelinfo.bind at 1, modelinfo.getEntity. rewrite Hx.
    cbn. eauto.
Qed.

Lemma getModelRelation_uid_request_fails_witness :
  isOk (fst (generator.getModelRelation examples.bindingFriendsRequest 0 examples.renameDoc))
    = false /\
  snd (generator.getModelRelation examples.bindingFriendsRequest 0 examples.renameDoc) =
  examples.renameDoc.
Proof.
  exact (getModelRelation_uid_request_fails examples.bindingFriendsRequest 0
           examples.renameDoc eq_refl eq_refl).
Defined.

(** ** The merge of one entity and the other entities *)

(** Whatever its outcome, the merge into the entity at [e] leaves every other
    entity of the document exactly as it was and the number of entities the
    same. *)
Theorem mergeModelEntity_other_entities be e m e' :
  e' <> e ->
  entityAt (snd (generator.mergeModelEntity be e m)) e' = entityAt m e' /\
  length (modelinfo.Entities (snd (generator.mergeModelEntity be e m))) =
  length (modelinfo.Entities m).
Proof.
  intros Hne. destruct (mergeModelEntity_kept be e m) as (Hlen & Hother & _ & _).
  split; [by apply Hother | exact Hlen].
Qed.

Lemma mergeModelEntity_other_entities_witness :
  entityAt (snd (generator.mergeModelEntity examples.bindingA 0 examples.renameDoc)) 1 =
  entityAt examples.renameDoc 1.
Proof.
  refine (proj1 (mergeModelEntity_other_entities examples.bindingA 0 examples.renameDoc 1 _)).
  discriminate.
Defined.

(** ** Relations *)

(** The step of the merge that removes the missing relations always succeeds
    on a valid entity: it keeps, in order, the relations that have a binding
    relation of their name, removes every other relation and appends its UID
    to [retiredRelationUids]; the retired property UIDs are as before. *)
Theorem missing_relations_retired be e m x :
  entityAt m e = Some x ->
  exists m',
    generator.removeMissingRelations be e m = (Ok tt, m') /\
    entityAt m' e =
      Some (modelinfo.set_Entity_Relations
              (List.filter (fun z => generator.bindingRelationExists z be)
                           (modelinfo.Entity_Relations x)) x) /\
    modelinfo.RetiredRelationUids m' =
      modelinfo.RetiredRelationUids m ++
      map (fun z => modelinfo.IdUid_uid (modelinfo.Relation_Id z))
          (List.filter (fun z => negb (generator.bindingRelationExists z be))
                       (modelinfo.Entity_Relations x)) /\
    modelinfo.RetiredPropertyUids m' = modelinfo.RetiredPropertyUids m.
Proof.
  intros Hx. eexists. split; [by apply removeMissingRelations_eq|].
  split; [|split; reflexivity]. simpl. by eapply entityAt_withEntity.
Qed.

Lemma missing_relations_retired_witness :
  exists m',
    generator.removeMissingRelations examples.bindingALone 0 examples.renameDoc = (Ok tt, m') /\
    modelinfo.RetiredRelationUids m' = [77].
Proof.
  destruct (missing_relations_retired examples.bindingALone 0 examples.renameDoc _ eq_refl)
    as (m' & Hrun & _ & Hret & _).
  exists m'. split; [exact Hrun | exact Hret].
Defined.

(** The merge of a binding relation whose target name is the name of an
    entity succeeds: the model relation gets the name of the binding
    relation, keeps its identity pair, and its target is the identity pair of
    the first entity of that name; the binding relation reads back the
    identity pairs of the relation and of the target. *)
Theorem mergeModelRelation_resolves_target br e r m z t xt :
  relationAt m e r = Some z ->
  find_index (fun x => String.eqb (modelinfo.Entity_Name x) (generator.Relation_Target_Name br))
             (modelinfo.Entities m) = Some t ->
  entityAt m t = Some xt ->
  exists br' m' z',
    generator.mergeModelRelation br (e, r) m = (Ok br', m') /\
    relationAt m' e r = Some z' /\
    modelinfo.Relation_Id z' = modelinfo.Relation_Id z /\
    modelinfo.Relation_Name z' = generator.Relation_Name br /\
    modelinfo.Relation_TargetId z' = modelinfo.Entity_Id xt /\
    generator.Relation_Id br' = modelinfo.IdUid_id (modelinfo.Relation_Id z) /\
    generator.Relation_Uid br' = modelinfo.IdUid_uid (modelinfo.Relation_Id z) /\
    generator.Relation_Target_Id br' = modelinfo.IdUid_id (modelinfo.Entity_Id xt) /\
    generator.Relation_Target_Uid br' = modelinfo.IdUid_uid (modelinfo.Entity_Id xt) /\
    generator.Relation_Name br' = generator.Relation_Name br.
Proof.
  intros Hz Ht Hxt. do 3 eexists.
  split; [by eapply mergeModelRelation_eq|].
  split; [by eapply relationAt_withRelation|]. by repeat split.
Qed.

Lemma mergeModelRelation_resolves_target_witness :
  exists br' m' z',
    generator.mergeModelRelation examples.bindingFriendsOld (0%nat, 0%nat) examples.renameDoc
      = (Ok br', m') /\
    relationAt m' 0 0 = Some z' /\
    modelinfo.Relation_TargetId z' = modelinfo.CreateIdUid 2 5.
Proof.
  destruct (mergeModelRelation_resolves_target examples.bindingFriendsOld 0 0
              examples.renameDoc _ 1 _ eq_refl eq_refl eq_refl)
    as (br' & m' & z' & Hrun & Hz' & _ & _ & Htarget & _).
  exists br', m', z'. repeat split; [exact Hrun | exact Hz' | exact Htarget].
Defined.

(** When no entity has the target name of the binding relation, the merge of
    the relation fails with the error of the lookup by name; the model
    relation has been given the name of the binding relation by then, and
    nothing else of the document has changed. *)
Theorem mergeModelRelation_unknown_target br e r m z :
  relationAt m e r = Some z ->
  (forall x, x ∈ modelinfo.Entities m ->
             modelinfo.Entity_Name x <> generator.Relation_Target_Name br) ->
  generator.mergeModelRelation br (e, r) m =
  (Err (ErrEntityNameNotFound (generator.Relation_Target_Name br)),
   withRelation e r (modelinfo.set_Relation_Name (generator.Relation_Name br) z) m).
Proof.
  intros Hz Hnone. unfold generator.mergeModelRelation.
  unfold modelinfo.bind at 1. rewrite (updRelation_eq _ _ _ _ _ Hz).
  unfold modelinfo.bind at 1.
  rewrite (getRelation_eq _ _ _ _ (relationAt_withRelation _ _ _ _ _ Hz)).
  unfold modelinfo.bind at 1, modelinfo.lift, modelinfo.Get. cbv beta iota.
  unfold modelinfo.bind at 1, modelinfo.FindEntityByName.
  cbn [generator.Relation_Target_Name generator.set_Relation_IdUid].
  rewrite (find_entity_names (fun n => String.eqb n (generator.Relation_Target_Name br)) m
             (withRelation e r (modelinfo.set_Relation_Name (generator.Relation_Name br) z) m))
    by apply entityNames_withRelation.
  match goal with
  | |- context [find_index ?f ?l] =>
      assert (find_index f l = None) as ->; [|reflexivity]
  end.
  apply find_index_None. intros x Hx. apply String.eqb_neq. by apply Hnone.
Qed.

Lemma mergeModelRelation_unknown_target_witness :
  fst (generator.mergeModelRelation examples.bindingFriendsOther (0%nat, 0%nat)
         examples.renameDoc) = Err (ErrEntityNameNotFound "Other") /\
  relationAt (snd (generator.mergeModelRelation examples.bindingFriendsOther (0%nat, 0%nat)
                     examples.renameDoc)) 0 0 =
  Some (modelinfo.set_Relation_Name "pals" examples.friends).
Proof.
  rewrite (mergeModelRelation_unknown_target examples.bindingFriendsOther 0 0
             examples.renameDoc examples.friends eq_refl).
  - split; reflexivity.
  - intros x Hx.
    apply elem_of_cons in Hx as [-> | Hx]; [discriminate|].
    apply elem_of_cons in Hx as [-> | Hx]; [discriminate|].
    by apply elem_of_nil in Hx.
Defined.

(** ** The first loop of the merge *)

Lemma CreateEntity_pointer name m e m' :
  modelinfo.CreateEntity name m = (Ok e, m') -> is_Some (entityAt m' e).
Proof.
  unfold modelinfo.CreateEntity. intros H. inv_run.
  match goal with H : modelinfo.GenerateUid _ = _ |- _ => rename H into Hgen end.
  match goal with H : modelinfo.modify _ _ = _ |- _ => rename H into Hmod end.
  unfold modelinfo.modify in Hmod. injection Hmod as _ <-.
  match type of Hgen with modelinfo.GenerateUid ?m1 = (_, ?m2) =>
    pose proof (GenerateUid_Entities m1) as Hent; rewrite Hgen in Hent; cbn [snd] in Hent
  end.
  unfold entityAt. simpl. rewrite <- Hent, list_lookup_middle by done. eauto.
Qed.

Lemma getModelEntity_pointer be m e m' :
  generator.getModelEntity be m = (Ok e, m') -> is_Some (entityAt m' e).
Proof.
  unfold generator.getModelEntity. intros H.
  destruct (negb (generator.Entity_Uid be =? 0)).
  - unfold modelinfo.FindEntityByUid in H.
    destruct (find_index _ _) as [e0|] eqn:Hf; [|discriminate].
    injection H as <- <-. apply lookup_lt_is_Some. by eapply find_index_lt.
  - apply bind_Ok in H as (found & m1 & Hfind & H).
    unfold modelinfo.ignoreErr, modelinfo.FindEntityByName in Hfind.
    destruct (find_index _ _) as [e0|] eqn:Hf; injection Hfind as <- <-.
    + destruct (generator.Entity_uidRequest be); [inv_run|].
      unfold modelinfo.ret in H. injection H as <- <-.
      apply lookup_lt_is_Some. by eapply find_index_lt.
    + destruct (generator.Entity_uidRequest be); [inv_run|].
      by eapply CreateEntity_pointer.
Qed.

(** A successful first loop returns one pointer for each binding entity, in
    order; every pointer designates an entity of the document as the loop
    leaves it, and the entities the document had are an unchanged prefix of
    the ones it has then. *)
Theorem getModelEntities_pointers bes m models m' :
  generator.getModelEntities bes m = (Ok models, m') ->
  length models = length bes /\
  Forall (fun e => is_Some (entityAt m' e)) models /\
  exists added, modelinfo.Entities m' = modelinfo.Entities m ++ added.
Proof.
  revert m models m'. induction bes as [|be bes IH]; intros m models m' H; simpl in H.
  - injection H as <- <-. repeat split; [constructor|]. exists []. by rewrite app_nil_r.
  - inv_run.
    match goal with H : generator.getModelEntity _ _ = _ |- _ => rename H into Hone end.
    match goal with H : generator.getModelEntities _ _ = _ |- _ => rename H into Hrest end.
    destruct (IH _ _ _ Hrest) as (Hlen & Hall & added2 & Happ2).
    pose proof (getModelEntity_pointer _ _ _ _ Hone) as Hptr.
    pose proof (getModelEntity_appends be m) as [added1 Happ1].
    rewrite Hone in Happ1. cbn [snd] in Happ1.
    repeat split.
    + simpl. by rewrite Hlen.
    + constructor; [|exact Hall].
      destruct Hptr as [x Hx]. exists x. unfold entityAt in *. rewrite Happ2.
      by apply lookup_app_l_Some.
    + exists (added1 ++ added2). by rewrite Happ2, Happ1, <- app_assoc.
Qed.

Lemma getModelEntities_pointers_witness :
  exists models m',
    generator.getModelEntities (generator.Binding_Entities examples.renameBinding)
      examples.renameDoc = (Ok models, m') /\
    length models = 2%nat.
Proof.
  destruct (generator.getModelEntities (generator.Binding_Entities examples.renameBinding)
              examples.renameDoc) as [[models|err] m'] eqn:Hrun.
  - exists models, m'. split; [reflexivity|].
    exact (proj1 (getModelEntities_pointers _ _ _ _ Hrun)).
  - vm_compute in Hrun. discriminate Hrun.
Defined.

(** ** The package name *)

Lemma samePackage_refl m : samePackage m m.
Proof. reflexivity. Qed.

Lemma samePackage_trans a b c : samePackage a b -> samePackage b c -> samePackage a c.
Proof. unfold samePackage. congruence. Qed.

Lemma samePackage_getModelEntity be : preserves samePackage (generator.getModelEntity be).
Proof.
  intros m. unfold samePackage, generator.getModelEntity.
  destruct (negb (generator.Entity_Uid be =? 0)).
  - unfold modelinfo.FindEntityByUid. by destruct (find_index _ _).
  - unfold modelinfo.bind at 1, modelinfo.ignoreErr, modelinfo.FindEntityByName.
    destruct (find_index _ _) as [e|] eqn:Hf.
    + destruct (generator.Entity_uidRequest be); [|reflexivity].
      unfold modelinfo.bind, modelinfo.getEntity, modelinfo.lift, modelinfo.GetUid.
      by destruct (modelinfo.Entities m !! e).
    + destruct (generator.Entity_uidRequest be); [reflexivity|].
      unfold modelinfo.CreateEntity.
      unfold modelinfo.bind at 1, modelinfo.get. unfold modelinfo.bind at 1, modelinfo.lift.
      destruct (modelinfo.nextId _) as [id|err]; [|reflexivity].
      unfold modelinfo.bind at 1, modelinfo.GenerateUid.
      by destruct (modelinfo.draw _ _) as [[u rest]|].
Qed.

Lemma samePackage_getModelEntities bes : preserves samePackage (generator.getModelEntities bes).
Proof.
  induction bes as [|be bes IH]; simpl.
  - apply preserves_ret, samePackage_refl.
  - apply (preserves_bind _ samePackage_trans); [apply samePackage_getModelEntity|].
    intros model. apply (preserves_bind _ samePackage_trans); [apply IH|].
    intros models. apply preserves_ret, samePackage_refl.
Qed.

Lemma samePackage_mergeModelEntity be e :
  preserves samePackage (generator.mergeModelEntity be e).
Proof.
  intros m.
  assert (stepAt (fun _ _ => True) samePackage e m (snd (generator.mergeModelEntity be e m)))
    as (_ & _ & _ & H); [|exact H].
  apply keeps_mergeModelEntity;
    first [ exact samePackage_refl | exact samePackage_trans
          | (intros; exact I) | (intros; reflexivity) ].
Qed.

Lemma samePackage_mergeModelEntities bes models :
  preserves samePackage (generator.mergeModelEntities bes models).
Proof.
  revert models. induction bes as [|be bes IH]; intros models; simpl.
  - apply preserves_ret, samePackage_refl.
  - destruct models as [|e models]; [apply preserves_fail, samePackage_refl|].
    apply (preserves_bind _ samePackage_trans); [apply samePackage_mergeModelEntity|].
    intros be'. apply (preserves_bind _ samePackage_trans); [apply IH|].
    intros rest. apply preserves_ret, samePackage_refl.
Qed.

(** The merge writes the package name of the binding into the document when
    it succeeds, and leaves the package name of the document as it is when it
    fails. *)
Theorem merge_package binding m :
  modelinfo.Package (snd (generator.mergeBindingWithModelInfo binding m)) =
  if isOk (fst (generator.mergeBindingWithModelInfo binding m))
  then generator.Binding_Package binding
  else modelinfo.Package m.
Proof.
  pose proof (samePackage_getModelEntities (generator.Binding_Entities binding) m) as H1.
  unfold generator.mergeBindingWithModelInfo, modelinfo.bind.
  destruct (generator.getModelEntities _ m) as [[models|err] m1]; cbn [fst snd] in *;
    [|exact H1].
  pose proof (samePackage_mergeModelEntities (generator.Binding_Entities binding) models m1)
    as H2.
  destruct (generator.mergeModelEntities _ models m1) as [[entities|err] m2];
    cbn [fst snd] in *; [reflexivity|].
  unfold samePackage in *. simpl. congruence.
Qed.

(** ** What a merged entity and its binding entity agree on *)

Lemma mergeModelRelation_Name br ptr m br' m' :
  generator.mergeModelRelation br ptr m = (Ok br', m') ->
  generator.Relation_Name br' = generator.Relation_Name br.
Proof.
  destruct ptr as [e r]. unfold generator.mergeModelRelation.
  cbn [generator.Relation_Target_Name generator.set_Relation_IdUid].
  intros H. inv_run; reflexivity.
Qed.

Lemma mergeRelations_Names brs e m brs' m' :
  generator.mergeRelations brs e m = (Ok brs', m') ->
  map generator.Relation_Name brs' = map generator.Relation_Name brs.
Proof.
  revert m brs' m'. induction brs as [|br brs IH]; intros m brs' m' H; simpl in H.
  - by injection H as <- _.
  - inv_run. simpl. f_equal.
    + by eapply mergeModelRelation_Name.
    + by eapply IH.
Qed.

Lemma mergeModelEntity_outcome be e m x be' m' :
  entityAt m e = Some x ->
  generator.mergeModelEntity be e m = (Ok be', m') ->
  exists x',
    entityAt m' e = Some x' /\
    modelinfo.Entity_Id x' = modelinfo.Entity_Id x /\
    modelinfo.Entity_Name x' = generator.Entity_Name be /\
    (forall z, z ∈ modelinfo.Entity_Relations x' ->
               generator.bindingRelationExists z be = true) /\
    generator.Entity_Id be' = modelinfo.IdUid_id (modelinfo.Entity_Id x) /\
    generator.Entity_Uid be' = modelinfo.IdUid_uid (modelinfo.Entity_Id x) /\
    generator.Entity_LastPropertyId be' = modelinfo.Entity_LastPropertyId x' /\
    generator.Entity_Name be' = generator.Entity_Name be /\
    map generator.Property_Name (generator.Entity_Properties be') =
      map generator.Property_Name (generator.Entity_Properties be) /\
    map generator.Relation_Name (generator.Entity_Relations be') =
      map generator.Relation_Name (generator.Entity_Relations be).
Proof.
  intros Hx H. unfold generator.mergeModelEntity in H.
  cbn [generator.Entity_Properties generator.Entity_Relations generator.set_Entity_IdUid
       generator.set_Entity_Properties generator.set_Entity_LastPropertyId] in H.
  inv_run.
  match goal with H : modelinfo.updEntity _ _ _ = _ |- _ => rename H into Hname end.
  match goal with H : generator.mergeProperties _ _ _ = _ |- _ => rename H into Hprops end.
  match goal with H : generator.removeMissingProperties _ _ _ = _ |- _ =>
    rename H into Hprune end.
  match goal with H : generator.mergeRelations _ _ _ = _ |- _ => rename H into Hrels end.
  match goal with H : generator.removeMissingRelations _ _ _ = _ |- _ =>
    rename H into Hprune2 end.
  rewrite (updEntity_eq _ _ _ _ Hx) in Hname. injection Hname as _ <-.
  match type of Hprops with _ = (Ok ?bps, ?mm) => rename bps into bps'; rename mm into m3' end.
  match type of Hprune with _ = (_, ?mm) => rename mm into m4 end.
  match type of Hrels with _ = (Ok ?brs, ?mm) => rename brs into brs'; rename mm into m5' end.
  match goal with H : entityAt m4 e = Some ?z |- _ => rename H into Hx4; rename z into x4 end.
  match goal with H : entityAt (withEntity _ _ _) e = Some ?z |- _ =>
    rename H into Hx0; rename z into x0 end.
  assert (x0 = modelinfo.set_Entity_Name (generator.Entity_Name be) x) as Hx0'.
  { rewrite (entityAt_withEntity _ _ _ _ Hx) in Hx0. by injection Hx0. }
  (* the steps on the properties *)
  pose proof (mergeProperties_kept (generator.Entity_Properties be) e
                (withEntity e (modelinfo.set_Entity_Name (generator.Entity_Name be) x) m))
    as Hk. rewrite Hprops in Hk. cbn [snd] in Hk. destruct Hk as (_ & _ & Hk & _).
  destruct (Hk _ Hx0) as (x3 & Hx3 & (Hid3 & Hn3 & _)). clear Hk.
  match type of Hprune with generator.removeMissingProperties ?b _ _ = _ =>
    pose proof (removeMissingProperties_kept b e m3') as Hk4 end.
  rewrite Hprune in Hk4. cbn [snd] in Hk4. destruct Hk4 as (_ & _ & Hk4 & _).
  destruct (Hk4 _ Hx3) as (x4' & Hx4' & (Hid4 & Hn4 & _)).
  rewrite Hx4 in Hx4'. injection Hx4' as <-.
  (* the steps on the relations *)
  pose proof (mergeRelations_kept (generator.Entity_Relations be) e m4) as Hk5.
  rewrite Hrels in Hk5. cbn [snd] in Hk5. destruct Hk5 as (_ & _ & Hk5 & _).
  destruct (Hk5 _ Hx4) as (x5 & Hx5 & (Hid5 & Hn5 & Hl5 & _)).
  pose proof Hprune2 as Hrun6.
  rewrite (removeMissingRelations_eq _ e _ x5 Hx5) in Hrun6. injection Hrun6 as _ Hm'.
  match type of Hprune2 with generator.removeMissingRelations ?b _ _ = _ =>
    pose proof (removeMissingRelations_kept b e m5') as Hk6 end.
  rewrite Hprune2 in Hk6. cbn [snd] in Hk6. destruct Hk6 as (_ & _ & Hk6 & _).
  destruct (Hk6 _ Hx5) as (x6 & Hx6 & (Hid6 & Hn6 & Hl6 & _)).
  pose proof (mergeProperties_Names _ _ _ _ _ Hprops) as Hpn.
  pose proof (mergeRelations_Names _ _ _ _ _ Hrels) as Hrn.
  exists x6. split; [exact Hx6|].
  split; [rewrite Hid6, Hid5, Hid4, Hid3, Hx0'; reflexivity|].
  split; [rewrite Hn6, Hn5, Hn4, Hn3, Hx0'; reflexivity|].
  split.
  { intros z Hz. pose proof Hx6 as Hx6'. rewrite <- Hm' in Hx6'.
    unfold entityAt in Hx6'. simpl in Hx6'.
    rewrite list_lookup_insert_eq in Hx6' by (by eapply lookup_lt_Some).
    injection Hx6' as <-. simpl in Hz.
    apply list_elem_of_In, filter_In in Hz as [_ Hz].
    rewrite <- Hz. apply bindingRelationExists_names. simpl. by rewrite Hrn. }
  rewrite Hx0'. simpl. rewrite Hl6, Hl5. by repeat split.
Qed.

(** After a successful merge into an entity, the binding entity reads back
    the identity pair of the model entity and its [lastPropertyId] as the
    merge leaves them; the model entity has the name of the binding entity
    and the identity pair it had; the names of the binding entity, of its
    properties and of its relations are the ones given. *)
Theorem mergeModelEntity_reads_back be e m x be' m' :
  entityAt m e = Some x ->
  generator.mergeModelEntity be e m = (Ok be', m') ->
  exists x',
    entityAt m' e = Some x' /\
    modelinfo.Entity_Id x' = modelinfo.Entity_Id x /\
    modelinfo.Entity_Name x' = generator.Entity_Name be /\
    modelinfo.CreateIdUid (generator.Entity_Id be') (generator.Entity_Uid be') =
      modelinfo.Entity_Id x' /\
    generator.Entity_LastPropertyId be' = modelinfo.Entity_LastPropertyId x' /\
    generator.Entity_Name be' = generator.Entity_Name be /\
    map generator.Property_Name (generator.Entity_Properties be') =
      map generator.Property_Name (generator.Entity_Properties be) /\
    map generator.Relation_Name (generator.Entity_Relations be') =
      map generator.Relation_Name (generator.Entity_Relations be).
Proof.
  intros Hx H.
  destruct (mergeModelEntity_outcome be e m x be' m' Hx H)
    as (x' & Hx' & Hid & Hname & _ & Hbid & Hbuid & Hlast & Hbname & Hpn & Hrn).
  exists x'. repeat split; auto.
  rewrite Hbid, Hbuid, Hid. by destruct (modelinfo.Entity_Id x).
Qed.

Lemma mergeModelEntity_reads_back_witness :
  exists be' x',
    fst examples.emailRun = Ok be' /\
    entityAt (snd examples.emailRun) 0 = Some x' /\
    generator.Entity_LastPropertyId be' = modelinfo.Entity_LastPropertyId x'.
Proof.
  assert (generator.mergeModelEntity examples.bindingTaskEmail 0 examples.taskDoc =
          examples.emailRun) as Hrun by (vm_compute; reflexivity).
  destruct (fst examples.emailRun) as [be'|err] eqn:Hfst; [|discriminate Hfst].
  destruct (mergeModelEntity_reads_back examples.bindingTaskEmail 0 examples.taskDoc
              examples.task be' (snd examples.emailRun) eq_refl)
    as (x' & Hx' & _ & _ & _ & Hlast & _).
  - rewrite Hrun, <- Hfst. by destruct examples.emailRun.
  - exists be', x'. repeat split; [exact Hx' | exact Hlast].
Defined.

(** After a successful merge into an entity, every standalone relation of the
    entity has a binding relation of its name. *)
Theorem mergeModelEntity_prunes_relations be e m x be' m' :
  entityAt m e = Some x ->
  generator.mergeModelEntity be e m = (Ok be', m') ->
  exists x',
    entityAt m' e = Some x' /\
    forall z, z ∈ modelinfo.Entity_Relations x' ->
      exists br, br ∈ generator.Entity_Relations be /\
                 generator.Relation_Name br = modelinfo.Relation_Name z.
Proof.
  intros Hx H.
  destruct (mergeModelEntity_outcome be e m x be' m' Hx H) as (x' & Hx' & _ & _ & Hall & _).
  exists x'. split; [exact Hx'|]. intros z Hz.
  specialize (Hall z Hz). unfold generator.bindingRelationExists in Hall.
  apply existsb_exists in Hall as (br & Hin & Heq).
  exists br. split; [by apply list_elem_of_In | by apply String.eqb_eq].
Qed.

Lemma mergeModelEntity_prunes_relations_witness :
  exists x',
    entityAt (snd (generator.mergeModelEntity examples.bindingALone 0 examples.renameDoc)) 0
      = Some x' /\
    modelinfo.Entity_Relations x' = [].
Proof.
  destruct (generator.mergeModelEntity examples.bindingALone 0 examples.renameDoc)
    as [[be'|err] m'] eqn:Hrun.
  - destruct (mergeModelEntity_prunes_relations examples.bindingALone 0 examples.renameDoc
                _ be' m' eq_refl Hrun) as (x' & Hx' & Hall).
    exists x'. split; [exact Hx'|].
    destruct (modelinfo.Entity_Relations x') as [|z l]; [reflexivity|].
    destruct (Hall z (list_elem_of_here _ _)) as (br & Hin & _).
    simpl in Hin. by apply elem_of_nil in Hin.
  - vm_compute in Hrun. discriminate Hrun.
Defined.

(** ** Properties the loop over the binding properties passes by *)

(** A property of the entity that has neither the name nor the explicit UID
    of any binding property is, after a successful loop over the binding
    properties, at its position with all its fields as before. *)
Theorem mergeProperties_passes_by bps e m bps' m' p y :
  propertyAt m e p = Some y ->
  (forall bp, bp ∈ bps ->
     modelinfo.Property_Name y <> generator.Property_Name bp /\
     modelinfo.IdUid_uid (modelinfo.Property_Id y) <> generator.Property_Uid bp) ->
  generator.mergeProperties bps e m = (Ok bps', m') ->
  propertyAt m' e p = Some y.
Proof. intros Hy Hno Hrun. by eapply mergeProperties_untouched. Qed.

Lemma mergeProperties_passes_by_witness :
  propertyAt (snd (generator.mergeProperties [examples.bindingId] 0 examples.taskDoc)) 0 1 =
  Some examples.taskName.
Proof.
  destruct (generator.mergeProperties [examples.bindingId] 0 examples.taskDoc)
    as [[bps'|err] m'] eqn:Hrun.
  - refine (mergeProperties_passes_by [examples.bindingId] 0 examples.taskDoc bps' m' 1
              examples.taskName eq_refl _ Hrun).
    intros bp Hbp. apply elem_of_cons in Hbp as [-> | Hbp]; [|by apply elem_of_nil in Hbp].
    split; discriminate.
  - vm_compute in Hrun. discriminate Hrun.
Defined.

(** ** The merge into a document that reflects the binding *)

(** When no descriptor of the binding carries an explicit UID or a UID
    request, and the document reflects the binding (every binding entity,
    property and relation is found by name with the attributes and the target
    a merge would write, and the document holds no property or relation
    besides), the merge succeeds and leaves the document exactly as it is: no
    identity pair changes, nothing is created, nothing is retired, and no
    value of the random source is used. *)
Theorem merge_fixed_point binding m :
  implicitBinding binding -> settled binding m ->
  exists binding',
    generator.mergeBindingWithModelInfo binding m = (Ok binding', m).
Proof. apply merge_settled. Qed.

Lemma merge_fixed_point_witness :
  exists binding',
    generator.mergeBindingWithModelInfo examples.bindingTask examples.taskDoc =
    (Ok binding', examples.taskDoc).
Proof.
  apply merge_fixed_point.
  - intros be Hbe. apply elem_of_cons in Hbe as [-> | Hbe]; [|by apply elem_of_nil in Hbe].
    repeat split; try reflexivity.
    + apply elem_of_cons in H as [-> | H]; [reflexivity|].
      apply elem_of_cons in H as [-> | H]; [reflexivity|]. by apply elem_of_nil in H.
    + apply elem_of_cons in H as [-> | H]; [reflexivity|].
      apply elem_of_cons in H as [-> | H]; [reflexivity|]. by apply elem_of_nil in H.
    + by apply elem_of_nil in H.
    + by apply elem_of_nil in H.
  - split; [reflexivity|].
    intros be Hbe. apply elem_of_cons in Hbe as [-> | Hbe]; [|by apply elem_of_nil in Hbe].
    exists 0%nat, examples.task. split; [reflexivity|]. split; [reflexivity|].
    split; [|split; [|split]].
    + intros bp Hbp. apply elem_of_cons in Hbp as [-> | Hbp].
      { exists 0%nat, examples.taskId. repeat split; try reflexivity;
          intros [i Hi]; discriminate Hi. }
      apply elem_of_cons in Hbp as [-> | Hbp]; [|by apply elem_of_nil in Hbp].
      exists 1%nat, examples.taskName. repeat split; try reflexivity;
        intros [i Hi]; discriminate Hi.
    + intros y Hy. apply elem_of_cons in Hy as [-> | Hy]; [reflexivity|].
      apply elem_of_cons in Hy as [-> | Hy]; [reflexivity|]. by apply elem_of_nil in Hy.
    + intros br Hbr. by apply elem_of_nil in Hbr.
    + intros z Hz. by apply elem_of_nil in Hz.
Defined.

(** * A merge leaves a document that reflects the binding *)

(** ** Lookups by name in a list that a step modifies *)

Lemma find_index_app_l {A} (f : A -> bool) (l l' : list A) i :
  find_index f l = Some i -> find_index f (l ++ l') = Some i.
Proof.
  revert i. induction l as [|a l IH]; intros i; simpl; [discriminate|].
  destruct (f a); [done|].
  destruct (find_index f l) as [k|]; [|discriminate].
  intros H. by rewrite (IH k eq_refl).
Qed.

Lemma find_index_app_new {A} (f : A -> bool) (l : list A) a :
  find_index f l = None -> f a = true -> find_index f (l ++ [a]) = Some (length l).
Proof.
  induction l as [|b l IH]; simpl; intros Hn Ha; [by rewrite Ha|].
  destruct (f b); [discriminate|].
  destruct (find_index f l) as [k|]; [discriminate|]. by rewrite IH.
Qed.

Lemma find_index_app_other {A} (f : A -> bool) (l : list A) a :
  f a = false -> find_index f (l ++ [a]) = find_index f l.
Proof.
  intros Ha. induction l as [|b l IH]; simpl; [by rewrite Ha|].
  destruct (f b); [done|]. by rewrite IH.
Qed.

Lemma find_index_insert {A} (f : A -> bool) (l : list A) p y Y :
  l !! p = Some y -> f Y = f y -> find_index f (<[p := Y]> l) = find_index f l.
Proof.
  revert p. induction l as [|a l IH]; intros p Hp HY; [done|].
  destruct p as [|p]; simpl in *.
  - injection Hp as ->. by rewrite HY.
  - destruct (f a); [done|]. by rewrite (IH p Hp HY).
Qed.

Lemma find_index_filter {A} (f g : A -> bool) (l : list A) p y :
  find_index f l = Some p -> l !! p = Some y ->
  (forall x, f x = true -> g x = true) ->
  exists p', find_index f (List.filter g l) = Some p' /\ List.filter g l !! p' = Some y.
Proof.
  intros Hf Hy Hfg. revert p Hf Hy. induction l as [|a l IH]; intros p Hf Hy; [done|].
  simpl in Hf. destruct (f a) eqn:Ha.
  - injection Hf as <-. simpl in Hy. injection Hy as ->.
    simpl. rewrite (Hfg _ Ha). simpl. rewrite Ha. by exists 0%nat.
  - destruct (find_index f l) as [k|] eqn:Hk; [|discriminate]. injection Hf as <-.
    simpl in Hy. destruct (IH k eq_refl Hy) as (p' & Hp' & Hy').
    simpl. destruct (g a).
    + simpl. rewrite Ha, Hp'. by exists (S p').
    + by exists p'.
Qed.

(** ** One binding property *)

Lemma settled_attributes bp y :
  generator.Property_Uid bp = 0 ->
  copyAttributes bp (applyIdentity bp (copyAttributes bp (applyIdentity bp y))) =
  copyAttributes bp (applyIdentity bp y).
Proof.
  intros Hu. unfold applyIdentity. rewrite Hu. change (negb (0 =? 0)) with false.
  cbv iota. by destruct y.
Qed.

Lemma settled_attributes_index bp y i :
  generator.Property_Uid bp = 0 ->
  copyAttributes bp (applyIdentity bp
    (copyAttributes bp (modelinfo.set_Property_IndexId i (applyIdentity bp y)))) =
  copyAttributes bp (modelinfo.set_Property_IndexId i (applyIdentity bp y)).
Proof.
  intros Hu. unfold applyIdentity. rewrite Hu. change (negb (0 =? 0)) with false.
  cbv iota. by destruct y.
Qed.

(** The entity after the merge of a binding property without explicit UID:
    the property at the pointer is replaced by one that has the name of the
    binding property, that a further merge would leave as it is, and that has
    an index exactly when the binding property has one. *)
Lemma mergeModelProperty_entity bp e p m x y bp' m' :
  entityAt m e = Some x -> modelinfo.Entity_Properties x !! p = Some y ->
  generator.Property_Uid bp = 0 ->
  generator.mergeModelProperty bp (e, p) m = (Ok bp', m') ->
  exists Y,
    entityAt m' e =
      Some (modelinfo.set_Entity_Properties (<[p := Y]> (modelinfo.Entity_Properties x)) x) /\
    modelinfo.Entities m' =
      <[e := modelinfo.set_Entity_Properties (<[p := Y]> (modelinfo.Entity_Properties x)) x]>
        (modelinfo.Entities m) /\
    modelinfo.Property_Name Y = generator.Property_Name bp /\
    copyAttributes bp (applyIdentity bp Y) = Y /\
    (is_Some (modelinfo.Property_IndexId Y) <-> is_Some (generator.Property_Index bp)).
Proof.
  intros Hx Hp Hu Hrun.
  assert (propertyAt m e p = Some y) as Hy by (by eapply propertyAt_intro).
  pose proof (mergeModelProperty_cases bp e p m y Hy) as H. cbv zeta in H.
  assert (forall Y, modelinfo.Entities (withProperty e p Y m) =
                    <[e := modelinfo.set_Entity_Properties
                             (<[p := Y]> (modelinfo.Entity_Properties x)) x]>
                      (modelinfo.Entities m)) as Hent.
  { intros Y. unfold withProperty. unfold entityAt in Hx. by rewrite Hx. }
  assert (forall Y, modelinfo.Property_Name (copyAttributes bp Y) = modelinfo.Property_Name Y)
    as Hcn by (by intros []).
  assert (forall Y, modelinfo.Property_IndexId (copyAttributes bp Y) =
                    modelinfo.Property_IndexId Y) as Hci by (by intros []).
  assert (modelinfo.Property_IndexId (applyIdentity bp y) = modelinfo.Property_IndexId y)
    as Hai by apply applyIdentity_IndexId.
  destruct (generator.Property_Index bp) as [ix|] eqn:Hix;
    destruct (modelinfo.Property_IndexId y) as [i|] eqn:Hi.
  - rewrite H in Hrun. injection Hrun as _ <-.
    exists (copyAttributes bp (applyIdentity bp y)).
    split; [by apply entityAt_withProperty|]. split; [apply Hent|].
    split; [by rewrite Hcn, applyIdentity_Name|].
    split; [by apply settled_attributes|].
    rewrite Hci, Hai. split; eauto.
  - destruct (modelinfo.nextId _) as [id|err]; [|rewrite H in Hrun; discriminate].
    destruct (modelinfo.draw _ _) as [[u rest]|]; [|rewrite H in Hrun; discriminate].
    rewrite H in Hrun. injection Hrun as _ <-.
    exists (copyAttributes bp
              (modelinfo.set_Property_IndexId (Some (modelinfo.CreateIdUid id u))
                 (applyIdentity bp y))).
    split; [simpl; by apply entityAt_withProperty|]. split; [simpl; apply Hent|].
    split; [rewrite Hcn; simpl; by rewrite applyIdentity_Name|].
    split; [by apply settled_attributes_index|].
    rewrite Hci. simpl. split; eauto.
  - rewrite H in Hrun. injection Hrun as _ <-.
    exists (copyAttributes bp (modelinfo.set_Property_IndexId None (applyIdentity bp y))).
    split; [simpl; by apply entityAt_withProperty|]. split; [simpl; apply Hent|].
    split; [rewrite Hcn; simpl; by rewrite applyIdentity_Name|].
    split; [by apply settled_attributes_index|].
    rewrite Hci. simpl. split; intros [? ?]; discriminate.
  - rewrite H in Hrun. injection Hrun as _ <-.
    exists (copyAttributes bp (applyIdentity bp y)).
    split; [by apply entityAt_withProperty|]. split; [apply Hent|].
    split; [by rewrite Hcn, applyIdentity_Name|].
    split; [by apply settled_attributes|].
    rewrite Hci, Hai. split; intros [? ?]; discriminate.
Qed.

(** The entity after one round of the loop over the binding properties, for a
    binding property without explicit UID and without UID request. *)
Lemma property_step bp e m x ptr m1 bp' m2 :
  entityAt m e = Some x ->
  generator.Property_Uid bp = 0 -> generator.Property_uidRequest bp = false ->
  generator.getModelProperty bp e m = (Ok ptr, m1) ->
  generator.mergeModelProperty bp ptr m1 = (Ok bp', m2) ->
  exists p Y x2,
    entityAt m2 e = Some x2 /\
    modelinfo.Entity_Properties x2 !! p = Some Y /\
    find_index (fun y => String.eqb (modelinfo.Property_Name y) (generator.Property_Name bp))
               (modelinfo.Entity_Properties x2) = Some p /\
    copyAttributes bp (applyIdentity bp Y) = Y /\
    (is_Some (modelinfo.Property_IndexId Y) <-> is_Some (generator.Property_Index bp)) /\
    (forall q y, q <> p -> modelinfo.Entity_Properties x !! q = Some y ->
                 modelinfo.Entity_Properties x2 !! q = Some y) /\
    (forall n, n <> generator.Property_Name bp ->
       find_index (fun y => String.eqb (modelinfo.Property_Name y) n)
                  (modelinfo.Entity_Properties x2) =
       find_index (fun y => String.eqb (modelinfo.Property_Name y) n)
                  (modelinfo.Entity_Properties x)) /\
    (forall y, modelinfo.Entity_Properties x !! p = Some y ->
               modelinfo.Property_Name y = generator.Property_Name bp).
Proof.
  intros Hx Hu Hr Hget Hmerge.
  rewrite (getModelProperty_implicit bp e m x Hx Hu Hr) in Hget.
  destruct (find_index _ (modelinfo.Entity_Properties x)) as [p|] eqn:Hf.
  - injection Hget as <- <-.
    destruct (find_index_Some _ _ _ Hf) as (y & Hy & Hname & _).
    apply String.eqb_eq in Hname.
    destruct (mergeModelProperty_entity bp e p m x y bp' m2 Hx Hy Hu Hmerge)
      as (Y & Hx2 & _ & HnY & Hfix & Hidx).
    exists p, Y, (modelinfo.set_Entity_Properties (<[p := Y]> (modelinfo.Entity_Properties x)) x).
    split; [exact Hx2|]. simpl.
    split; [apply list_lookup_insert_eq; by eapply lookup_lt_Some|].
    split; [rewrite (find_index_insert _ _ p y Y Hy); [exact Hf | by rewrite HnY, Hname]|].
    split; [exact Hfix|]. split; [exact Hidx|].
    split; [intros q y' Hq Hy'; by rewrite list_lookup_insert_ne|].
    split; [intros n Hn; apply (find_index_insert _ _ p y Y Hy); by rewrite HnY, Hname|].
    intros y' Hy'. rewrite Hy in Hy'. by injection Hy' as <-.
  - rewrite (CreateProperty_eq e m x Hx) in Hget.
    destruct (modelinfo.nextId _) as [id|err]; [|discriminate].
    destruct (modelinfo.draw _ _) as [[u rest]|]; [|discriminate].
    injection Hget as <- <-.
    set (new := modelinfo.mkProperty (modelinfo.CreateIdUid id u) "" None 0 0 "") in *.
    set (x1 := modelinfo.set_Entity_LastPropertyId (modelinfo.CreateIdUid id u)
                 (modelinfo.set_Entity_Properties (modelinfo.Entity_Properties x ++ [new]) x))
      in *.
    set (m1 := withEntity e x1 _) in *.
    assert (entityAt m1 e = Some x1) as Hx1.
    { subst m1. eapply entityAt_withEntity. exact Hx. }
    assert (modelinfo.Entity_Properties x1 !! length (modelinfo.Entity_Properties x) = Some new)
      as Hnew by (subst x1; simpl; by rewrite list_lookup_middle).
    destruct (mergeModelProperty_entity bp e _ m1 x1 new bp' m2 Hx1 Hnew Hu Hmerge)
      as (Y & Hx2 & _ & HnY & Hfix & Hidx).
    assert (<[length (modelinfo.Entity_Properties x) := Y]> (modelinfo.Entity_Properties x1) =
            modelinfo.Entity_Properties x ++ [Y]) as Hins.
    { subst x1. simpl. rewrite insert_app_r_alt by done. by rewrite Nat.sub_diag. }
    rewrite Hins in Hx2.
    exists (length (modelinfo.Entity_Properties x)), Y,
      (modelinfo.set_Entity_Properties (modelinfo.Entity_Properties x ++ [Y]) x1).
    split; [exact Hx2|]. simpl.
    split; [by rewrite list_lookup_middle|].
    split; [apply find_index_app_new; [exact Hf | rewrite HnY; apply String.eqb_refl]|].
    split; [exact Hfix|]. split; [exact Hidx|].
    split; [intros q y' Hq Hy'; by apply lookup_app_l_Some|].
    split; [intros n Hn; apply find_index_app_other; rewrite HnY;
            apply String.eqb_neq; congruence|].
    intros y' Hy'. apply lookup_lt_Some in Hy'. lia.
Qed.

Lemma property_step_establishes bp e m x ptr m1 bp' m2 :
  entityAt m e = Some x ->
  generator.Property_Uid bp = 0 -> generator.Property_uidRequest bp = false ->
  generator.getModelProperty bp e m = (Ok ptr, m1) ->
  generator.mergeModelProperty bp ptr m1 = (Ok bp', m2) ->
  exists x2, entityAt m2 e = Some x2 /\ propertySettled bp x2.
Proof.
  intros Hx Hu Hr Hget Hmerge.
  destruct (property_step bp e m x ptr m1 bp' m2 Hx Hu Hr Hget Hmerge)
    as (p & Y & x2 & Hx2 & HY & Hf & Hfix & Hidx & _).
  exists x2. split; [exact Hx2|]. by exists p, Y.
Qed.

Lemma property_step_preserves bp0 bp e m x ptr m1 bp' m2 :
  entityAt m e = Some x ->
  generator.Property_Uid bp = 0 -> generator.Property_uidRequest bp = false ->
  generator.getModelProperty bp e m = (Ok ptr, m1) ->
  generator.mergeModelProperty bp ptr m1 = (Ok bp', m2) ->
  generator.Property_Name bp0 <> generator.Property_Name bp ->
  propertySettled bp0 x ->
  exists x2, entityAt m2 e = Some x2 /\ propertySettled bp0 x2.
Proof.
  intros Hx Hu Hr Hget Hmerge Hne (p0 & y0 & Hf0 & Hy0 & Hfix0 & Hidx0).
  destruct (property_step bp e m x ptr m1 bp' m2 Hx Hu Hr Hget Hmerge)
    as (p & Y & x2 & Hx2 & HY & Hf & Hfix & Hidx & Hother & Hnames & Hat).
  exists x2. split; [exact Hx2|]. exists p0, y0.
  split; [by rewrite Hnames|]. split; [|by split].
  apply Hother; [|exact Hy0]. intros ->.
  destruct (find_index_Some _ _ _ Hf0) as (y0' & Hy0' & Hn0 & _).
  rewrite Hy0 in Hy0'. injection Hy0' as <-. apply String.eqb_eq in Hn0.
  specialize (Hat y0 Hy0). congruence.
Qed.

(** ** The loop over the binding properties *)

Lemma mergeProperties_entity bps e m x bps' m' :
  entityAt m e = Some x ->
  generator.mergeProperties bps e m = (Ok bps', m') ->
  exists x', entityAt m' e = Some x'.
Proof.
  intros Hx Hrun. pose proof (mergeProperties_kept bps e m) as Hk.
  rewrite Hrun in Hk. destruct Hk as (_ & _ & Hk & _).
  destruct (Hk x Hx) as (x' & Hx' & _). eauto.
Qed.

Lemma mergeProperties_preserves bp0 bps e :
  forall m x bps' m',
    entityAt m e = Some x ->
    (forall bp, bp ∈ bps ->
       generator.Property_Uid bp = 0 /\ generator.Property_uidRequest bp = false) ->
    (forall bp, bp ∈ bps -> generator.Property_Name bp0 <> generator.Property_Name bp) ->
    generator.mergeProperties bps e m = (Ok bps', m') ->
    propertySettled bp0 x ->
    exists x', entityAt m' e = Some x' /\ propertySettled bp0 x'.
Proof.
  induction bps as [|bp bps IH]; intros m x bps' m' Hx Himp Hne Hrun Hset; simpl in Hrun.
  - injection Hrun as _ <-. eauto.
  - apply bind_Ok in Hrun as (ptr & m1 & Hget & Hrun).
    apply bind_Ok in Hrun as (bp' & m2 & Hmerge & Hrun).
    apply bind_Ok in Hrun as (rest & m3 & Hrest & Hrun).
    unfold modelinfo.ret in Hrun. injection Hrun as _ <-.
    destruct (Himp bp (list_elem_of_here _ _)) as [Hu Hr].
    destruct (property_step_preserves bp0 bp e m x ptr m1 bp' m2 Hx Hu Hr Hget Hmerge
                (Hne bp (list_elem_of_here _ _)) Hset) as (x2 & Hx2 & Hset2).
    eapply (IH m2 x2); eauto.
    + intros b Hb. apply Himp. by apply list_elem_of_further.
    + intros b Hb. apply Hne. by apply list_elem_of_further.
Qed.

Lemma mergeProperties_establishes bps e :
  forall m x bps' m',
    entityAt m e = Some x ->
    (forall bp, bp ∈ bps ->
       generator.Property_Uid bp = 0 /\ generator.Property_uidRequest bp = false) ->
    NoDup (map generator.Property_Name bps) ->
    generator.mergeProperties bps e m = (Ok bps', m') ->
    exists x', entityAt m' e = Some x' /\ forall bp, bp ∈ bps -> propertySettled bp x'.
Proof.
  induction bps as [|bp bps IH]; intros m x bps' m' Hx Himp Hnd Hrun.
  - destruct (mergeProperties_entity _ _ _ _ _ _ Hx Hrun) as [x' Hx'].
    exists x'. split; [exact Hx'|]. intros bp Hbp. by apply elem_of_nil in Hbp.
  - simpl in Hrun.
    apply bind_Ok in Hrun as (ptr & m1 & Hget & Hrun).
    apply bind_Ok in Hrun as (bp' & m2 & Hmerge & Hrun).
    apply bind_Ok in Hrun as (rest & m3 & Hrest & Hrun).
    unfold modelinfo.ret in Hrun. injection Hrun as _ <-.
    destruct (Himp bp (list_elem_of_here _ _)) as [Hu Hr].
    destruct (property_step_establishes bp e m x ptr m1 bp' m2 Hx Hu Hr Hget Hmerge)
      as (x2 & Hx2 & Hset2).
    simpl in Hnd. apply NoDup_cons in Hnd as [Hnotin Hnd].
    assert (forall b, b ∈ bps ->
              generator.Property_Uid b = 0 /\ generator.Property_uidRequest b = false)
      as Himp' by (intros b Hb; apply Himp; by apply list_elem_of_further).
    destruct (IH m2 x2 rest m3 Hx2 Himp' Hnd Hrest) as (x3 & Hx3 & Hall).
    destruct (mergeProperties_preserves bp bps e m2 x2 rest m3 Hx2 Himp') as (x3' & Hx3' & Hbp);
      [|exact Hrest|exact Hset2|].
    { intros b Hb Heq. apply Hnotin. rewrite Heq.
      apply list_elem_of_fmap. by exists b. }
    rewrite Hx3 in Hx3'. injection Hx3' as <-.
    exists x3. split; [exact Hx3|].
    intros b Hb. apply elem_of_cons in Hb as [-> | Hb]; [exact Hbp | by apply Hall].
Qed.

Lemma propertySettled_properties bp x x' :
  modelinfo.Entity_Properties x' = modelinfo.Entity_Properties x ->
  propertySettled bp x -> propertySettled bp x'.
Proof. unfold propertySettled. by intros ->. Qed.

Lemma propertySettled_filter bp be x x' :
  modelinfo.Entity_Properties x' =
    List.filter (fun y => generator.bindingPropertyExists y be) (modelinfo.Entity_Properties x) ->
  generator.Property_Name bp ∈ map generator.Property_Name (generator.Entity_Properties be) ->
  propertySettled bp x -> propertySettled bp x'.
Proof.
  intros Hprops Hin (p & y & Hf & Hy & Hfix & Hidx).
  destruct (find_index_filter _ (fun y => generator.bindingPropertyExists y be) _ p y Hf Hy)
    as (p' & Hf' & Hy').
  { intros y0 Hy0. apply String.eqb_eq in Hy0. apply bindingPropertyExists_true.
    by rewrite Hy0. }
  exists p', y. rewrite Hprops.
  split; [exact Hf'|]. split; [exact Hy'|]. by split.
Qed.

(** ** Names and identity pairs of the entities *)

Lemma entityHeads_names m m' :
  entityHeads m' = entityHeads m ->
  map modelinfo.Entity_Name (modelinfo.Entities m') =
  map modelinfo.Entity_Name (modelinfo.Entities m).
Proof.
  unfold entityHeads. intros H.
  apply (f_equal (map fst)) in H. by rewrite !map_map in H.
Qed.

Lemma entityHeads_lookup m m' t xt :
  entityHeads m' = entityHeads m ->
  modelinfo.Entities m !! t = Some xt ->
  exists xt', modelinfo.Entities m' !! t = Some xt' /\
              modelinfo.Entity_Name xt' = modelinfo.Entity_Name xt /\
              modelinfo.Entity_Id xt' = modelinfo.Entity_Id xt.
Proof.
  unfold entityHeads. intros H Ht.
  assert (map (fun x => (modelinfo.Entity_Name x, modelinfo.Entity_Id x)) (modelinfo.Entities m)
            !! t = Some (modelinfo.Entity_Name xt, modelinfo.Entity_Id xt)) as Hl
      by (by rewrite list_lookup_fmap, Ht).
  rewrite <- H, list_lookup_fmap in Hl.
  destruct (modelinfo.Entities m' !! t) as [xt'|]; [|discriminate].
  simpl in Hl. injection Hl as Hn Hi. eauto.
Qed.

Lemma entityHeads_withEntity m e x x' :
  entityAt m e = Some x ->
  modelinfo.Entity_Name x' = modelinfo.Entity_Name x ->
  modelinfo.Entity_Id x' = modelinfo.Entity_Id x ->
  entityHeads (withEntity e x' m) = entityHeads m.
Proof.
  intros Hx Hn Hi. unfold entityHeads, withEntity. simpl.
  rewrite list_fmap_insert. apply list_insert_id.
  unfold entityAt in Hx. by rewrite list_lookup_fmap, Hx, Hn, Hi.
Qed.

Lemma entityHeads_find f m m' :
  entityHeads m' = entityHeads m ->
  find_index (fun x => f (modelinfo.Entity_Name x)) (modelinfo.Entities m') =
  find_index (fun x => f (modelinfo.Entity_Name x)) (modelinfo.Entities m).
Proof. intros H. apply find_entity_names. by apply entityHeads_names. Qed.

Lemma stepAt_entityHeads K G e m m' :
  (forall x x', K x x' -> modelinfo.Entity_Id x' = modelinfo.Entity_Id x /\
                          modelinfo.Entity_Name x' = modelinfo.Entity_Name x) ->
  stepAt K G e m m' -> entityHeads m' = entityHeads m.
Proof.
  intros HK (Hlen & Hother & Hat & _). unfold entityHeads.
  apply list_eq. intros t. rewrite !list_lookup_fmap.
  destruct (decide (t = e)) as [->|Hne].
  - unfold entityAt in *.
    destruct (modelinfo.Entities m !! e) as [x|] eqn:Hx.
    + destruct (Hat x eq_refl) as (x' & -> & Hk). destruct (HK _ _ Hk) as [Hi Hn].
      simpl. by rewrite Hi, Hn.
    + apply lookup_ge_None in Hx. rewrite <- Hlen in Hx. apply lookup_ge_None in Hx.
      by rewrite Hx.
  - unfold entityAt in Hother. by rewrite Hother.
Qed.

Lemma relationSettled_heads br x m m' :
  entityHeads m' = entityHeads m -> relationSettled br x m -> relationSettled br x m'.
Proof.
  intros H (r & z & t & xt & Hf & Hz & Ht & Hxt & Htarget).
  destruct (entityHeads_lookup m m' t xt H Hxt) as (xt' & Hxt' & _ & Hid).
  exists r, z, t, xt'. repeat split; auto.
  - rewrite <- Ht.
    apply (entityHeads_find (fun n => String.eqb n (generator.Relation_Target_Name br)) m m' H).
  - congruence.
Qed.

(** ** One binding relation *)

Lemma CreateRelation_eq e m x :
  entityAt m e = Some x ->
  modelinfo.CreateRelation e m =
  match modelinfo.nextId (modelinfo.LastRelationId m) with
  | Err err => (Err err, m)
  | Ok id =>
      match modelinfo.draw (modelinfo.knownUids m) (modelinfo.rand m) with
      | None => (Err ErrUidExhausted, modelinfo.set_pool [] (modelinfo.issued m) m)
      | Some (u, rest) =>
          (Ok (e, length (modelinfo.Entity_Relations x)),
           modelinfo.set_LastRelationId (modelinfo.CreateIdUid id u)
             (withEntity e
                (modelinfo.set_Entity_Relations
                   (modelinfo.Entity_Relations x ++
                    [modelinfo.mkRelation (modelinfo.CreateIdUid id u) "" modelinfo.zeroIdUid]) x)
                (modelinfo.set_pool rest (modelinfo.issued m ++ [u]) m)))
      end
  end.
Proof.
  intros Hx. unfold modelinfo.CreateRelation, modelinfo.bind at 1.
  rewrite (getEntity_eq _ _ _ Hx).
  unfold modelinfo.bind at 1, modelinfo.get.
  unfold modelinfo.bind at 1, modelinfo.lift.
  destruct (modelinfo.nextId _) as [id|err]; [|reflexivity].
  unfold modelinfo.bind at 1, modelinfo.GenerateUid.
  destruct (modelinfo.draw _ _) as [[u rest]|]; [|reflexivity].
  unfold modelinfo.bind at 1.
  assert (entityAt (modelinfo.set_pool rest (modelinfo.issued m ++ [u]) m) e = Some x) as Hx1
      by exact Hx.
  rewrite (updEntity_eq _ _ _ _ Hx1). reflexivity.
Qed.

Lemma entityAt_withRelation m e r z x :
  entityAt m e = Some x ->
  entityAt (withRelation e r z m) e =
  Some (modelinfo.set_Entity_Relations (<[r := z]> (modelinfo.Entity_Relations x)) x).
Proof.
  unfold entityAt, withRelation. intros Hx. rewrite Hx.
  unfold withEntity. simpl. apply list_lookup_insert_eq. by eapply lookup_lt_Some.
Qed.

Lemma entityHeads_withRelation m e r z : entityHeads (withRelation e r z m) = entityHeads m.
Proof.
  unfold withRelation. destruct (modelinfo.Entities m !! e) as [x|] eqn:Hx; [|done].
  by apply (entityHeads_withEntity m e x).
Qed.

(** A successful merge of a binding relation found its target by name. *)
Lemma mergeModelRelation_entity br e r m x z br' m' :
  entityAt m e = Some x -> modelinfo.Entity_Relations x !! r = Some z ->
  generator.mergeModelRelation br (e, r) m = (Ok br', m') ->
  exists t xt,
    find_index (fun x => String.eqb (modelinfo.Entity_Name x) (generator.Relation_Target_Name br))
               (modelinfo.Entities m) = Some t /\
    entityAt m t = Some xt /\
    m' = withRelation e r
           (modelinfo.set_Relation_TargetId (modelinfo.Entity_Id xt)
              (modelinfo.set_Relation_Name (generator.Relation_Name br) z)) m.
Proof.
  intros Hx Hr Hrun.
  assert (relationAt m e r = Some z) as Hz by (by eapply relationAt_intro).
  destruct (find_index (fun x => String.eqb (modelinfo.Entity_Name x)
                                   (generator.Relation_Target_Name br))
                       (modelinfo.Entities m)) as [t|] eqn:Hf.
  - destruct (find_index_Some _ _ _ Hf) as (xt & Hxt & _).
    rewrite (mergeModelRelation_eq br e r m z t xt Hz Hf Hxt) in Hrun.
    injection Hrun as _ <-. by exists t, xt.
  - pose proof (mergeModelRelation_target_missing br e r m z Hz) as Herr.
    rewrite Hrun in Herr. simpl in Herr.
    assert (Ok br' = Err (ErrEntityNameNotFound (generator.Relation_Target_Name br)))
      as Habs; [|discriminate Habs].
    apply Herr. intros x0 Hx0. apply String.eqb_neq.
    by apply (proj1 (find_index_None _ _) Hf).
Qed.

(** The entity and the document after one round of the loop over the binding
    relations, for a binding relation without explicit UID and without UID
    request. *)
Lemma relation_step br e m x ptr m1 br' m2 :
  entityAt m e = Some x ->
  generator.Relation_Uid br = 0 -> generator.Relation_uidRequest br = false ->
  generator.getModelRelation br e m = (Ok ptr, m1) ->
  generator.mergeModelRelation br ptr m1 = (Ok br', m2) ->
  exists r Z x2,
    entityAt m2 e = Some x2 /\
    modelinfo.Entity_Relations x2 !! r = Some Z /\
    find_index (fun z => String.eqb (modelinfo.Relation_Name z) (generator.Relation_Name br))
               (modelinfo.Entity_Relations x2) = Some r /\
    (exists t xt,
       find_index (fun x => String.eqb (modelinfo.Entity_Name x)
                              (generator.Relation_Target_Name br))
                  (modelinfo.Entities m2) = Some t /\
       modelinfo.Entities m2 !! t = Some xt /\
       modelinfo.Relation_TargetId Z = modelinfo.Entity_Id xt) /\
    (forall q z, q <> r -> modelinfo.Entity_Relations x !! q = Some z ->
                 modelinfo.Entity_Relations x2 !! q = Some z) /\
    (forall n, n <> generator.Relation_Name br ->
       find_index (fun z => String.eqb (modelinfo.Relation_Name z) n)
                  (modelinfo.Entity_Relations x2) =
       find_index (fun z => String.eqb (modelinfo.Relation_Name z) n)
                  (modelinfo.Entity_Relations x)) /\
    (forall z, modelinfo.Entity_Relations x !! r = Some z ->
               modelinfo.Relation_Name z = generator.Relation_Name br) /\
    entityHeads m2 = entityHeads m.
Proof.
  intros Hx Hu Hr Hget Hmerge.
  rewrite (getModelRelation_implicit br e m x Hx Hu Hr) in Hget.
  assert (forall m0 r0 x0 z0 (Hx0 : entityAt m0 e = Some x0)
                 (Hz0 : modelinfo.Entity_Relations x0 !! r0 = Some z0)
                 (Hrun : generator.mergeModelRelation br (e, r0) m0 = (Ok br', m2)),
             exists Z,
               entityAt m2 e =
                 Some (modelinfo.set_Entity_Relations
                         (<[r0 := Z]> (modelinfo.Entity_Relations x0)) x0) /\
               modelinfo.Relation_Name Z = generator.Relation_Name br /\
               (exists t xt,
                  find_index (fun x => String.eqb (modelinfo.Entity_Name x)
                                         (generator.Relation_Target_Name br))
                             (modelinfo.Entities m2) = Some t /\
                  modelinfo.Entities m2 !! t = Some xt /\
                  modelinfo.Relation_TargetId Z = modelinfo.Entity_Id xt) /\
               entityHeads m2 = entityHeads m0) as Hmerged.
  { intros m0 r0 x0 z0 Hx0 Hz0 Hrun.
    destruct (mergeModelRelation_entity br e r0 m0 x0 z0 br' m2 Hx0 Hz0 Hrun)
      as (t & xt & Hf & Hxt & Hm2).
    pose proof (entityHeads_withRelation m0 e r0
                  (modelinfo.set_Relation_TargetId (modelinfo.Entity_Id xt)
                     (modelinfo.set_Relation_Name (generator.Relation_Name br) z0))) as Hh.
    rewrite <- Hm2 in Hh.
    destruct (entityHeads_lookup m0 m2 t xt Hh Hxt) as (xt' & Hxt' & _ & Hid).
    eexists. split; [rewrite Hm2; by apply entityAt_withRelation|].
    split; [reflexivity|]. split; [|exact Hh].
    exists t, xt'. split; [|split; [exact Hxt' | by rewrite Hid]].
    rewrite <- Hf.
    apply (entityHeads_find (fun n => String.eqb n (generator.Relation_Target_Name br))
             m0 m2 Hh). }
  destruct (find_index _ (modelinfo.Entity_Relations x)) as [r|] eqn:Hf.
  - injection Hget as <- <-.
    destruct (find_index_Some _ _ _ Hf) as (z & Hz & Hname & _).
    apply String.eqb_eq in Hname.
    destruct (Hmerged m r x z Hx Hz Hmerge) as (Z & Hx2 & HnZ & Htarget & Hh).
    exists r, Z, (modelinfo.set_Entity_Relations (<[r := Z]> (modelinfo.Entity_Relations x)) x).
    split; [exact Hx2|]. simpl.
    split; [apply list_lookup_insert_eq; by eapply lookup_lt_Some|].
    split; [rewrite (find_index_insert _ _ r z Z Hz); [exact Hf | by rewrite HnZ, Hname]|].
    split; [exact Htarget|].
    split; [intros q z' Hq Hz'; by rewrite list_lookup_insert_ne|].
    split; [intros n Hn; apply (find_index_insert _ _ r z Z Hz); by rewrite HnZ, Hname|].
    split; [|exact Hh].
    intros z' Hz'. rewrite Hz in Hz'. by injection Hz' as <-.
  - rewrite (CreateRelation_eq e m x Hx) in Hget.
    destruct (modelinfo.nextId _) as [id|err]; [|discriminate].
    destruct (modelinfo.draw _ _) as [[u rest]|]; [|discriminate].
    injection Hget as <- <-.
    set (new := modelinfo.mkRelation (modelinfo.CreateIdUid id u) "" modelinfo.zeroIdUid) in *.
    set (x1 := modelinfo.set_Entity_Relations (modelinfo.Entity_Relations x ++ [new]) x) in *.
    set (m0 := modelinfo.set_pool rest (modelinfo.issued m ++ [u]) m) in *.
    set (m1 := modelinfo.set_LastRelationId _ (withEntity e x1 m0)) in *.
    assert (entityAt m0 e = Some x) as Hx0 by exact Hx.
    assert (entityAt m1 e = Some x1) as Hx1.
    { subst m1. simpl. eapply entityAt_withEntity. exact Hx0. }
    assert (entityHeads m1 = entityHeads m) as Hh1.
    { subst m1. change (entityHeads (withEntity e x1 m0) = entityHeads m0).
      by apply (entityHeads_withEntity m0 e x). }
    assert (modelinfo.Entity_Relations x1 !! length (modelinfo.Entity_Relations x) = Some new)
      as Hnew by (subst x1; simpl; by rewrite list_lookup_middle).
    destruct (Hmerged m1 _ x1 new Hx1 Hnew Hmerge) as (Z & Hx2 & HnZ & Htarget & Hh).
    assert (<[length (modelinfo.Entity_Relations x) := Z]> (modelinfo.Entity_Relations x1) =
            modelinfo.Entity_Relations x ++ [Z]) as Hins.
    { subst x1. simpl. rewrite insert_app_r_alt by done. by rewrite Nat.sub_diag. }
    rewrite Hins in Hx2.
    exists (length (modelinfo.Entity_Relations x)), Z,
      (modelinfo.set_Entity_Relations (modelinfo.Entity_Relations x ++ [Z]) x1).
    split; [exact Hx2|]. simpl.
    split; [by rewrite list_lookup_middle|].
    split; [apply find_index_app_new; [exact Hf | rewrite HnZ; apply String.eqb_refl]|].
    split; [exact Htarget|].
    split; [intros q z' Hq Hz'; by apply lookup_app_l_Some|].
    split; [intros n Hn; apply find_index_app_other; rewrite HnZ;
            apply String.eqb_neq; congruence|].
    split; [|congruence].
    intros z' Hz'. apply lookup_lt_Some in Hz'. lia.
Qed.

Lemma relation_step_establishes br e m x ptr m1 br' m2 :
  entityAt m e = Some x ->
  generator.Relation_Uid br = 0 -> generator.Relation_uidRequest br = false ->
  generator.getModelRelation br e m = (Ok ptr, m1) ->
  generator.mergeModelRelation br ptr m1 = (Ok br', m2) ->
  exists x2, entityAt m2 e = Some x2 /\ relationSettled br x2 m2 /\
             entityHeads m2 = entityHeads m.
Proof.
  intros Hx Hu Hr Hget Hmerge.
  destruct (relation_step br e m x ptr m1 br' m2 Hx Hu Hr Hget Hmerge)
    as (r & Z & x2 & Hx2 & HZ & Hf & (t & xt & Ht & Hxt & Htarget) & _ & _ & _ & Hh).
  exists x2. split; [exact Hx2|]. split; [|exact Hh]. by exists r, Z, t, xt.
Qed.

Lemma relation_step_preserves br0 br e m x ptr m1 br' m2 :
  entityAt m e = Some x ->
  generator.Relation_Uid br = 0 -> generator.Relation_uidRequest br = false ->
  generator.getModelRelation br e m = (Ok ptr, m1) ->
  generator.mergeModelRelation br ptr m1 = (Ok br', m2) ->
  generator.Relation_Name br0 <> generator.Relation_Name br ->
  relationSettled br0 x m ->
  exists x2, entityAt m2 e = Some x2 /\ relationSettled br0 x2 m2.
Proof.
  intros Hx Hu Hr Hget Hmerge Hne Hset.
  destruct (relation_step br e m x ptr m1 br' m2 Hx Hu Hr Hget Hmerge)
    as (r & Z & x2 & Hx2 & HZ & Hf & _ & Hother & Hnames & Hat & Hh).
  exists x2. split; [exact Hx2|].
  apply (relationSettled_heads br0 x2 m m2 Hh).
  destruct Hset as (r0 & z0 & t0 & xt0 & Hf0 & Hz0 & Htarget0).
  exists r0, z0, t0, xt0.
  split; [by rewrite Hnames|]. split; [|exact Htarget0].
  apply Hother; [|exact Hz0]. intros ->.
  destruct (find_index_Some _ _ _ Hf0) as (z0' & Hz0' & Hn0 & _).
  rewrite Hz0 in Hz0'. injection Hz0' as <-. apply String.eqb_eq in Hn0.
  specialize (Hat z0 Hz0). congruence.
Qed.

(** ** The loop over the binding relations *)

Lemma mergeRelations_preserves br0 brs e :
  forall m x brs' m',
    entityAt m e = Some x ->
    (forall br, br ∈ brs ->
       generator.Relation_Uid br = 0 /\ generator.Relation_uidRequest br = false) ->
    (forall br, br ∈ brs -> generator.Relation_Name br0 <> generator.Relation_Name br) ->
    generator.mergeRelations brs e m = (Ok brs', m') ->
    relationSettled br0 x m ->
    exists x', entityAt m' e = Some x' /\ relationSettled br0 x' m'.
Proof.
  induction brs as [|br brs IH]; intros m x brs' m' Hx Himp Hne Hrun Hset; simpl in Hrun.
  - injection Hrun as _ <-. eauto.
  - apply bind_Ok in Hrun as (ptr & m1 & Hget & Hrun).
    apply bind_Ok in Hrun as (br' & m2 & Hmerge & Hrun).
    apply bind_Ok in Hrun as (rest & m3 & Hrest & Hrun).
    unfold modelinfo.ret in Hrun. injection Hrun as _ <-.
    destruct (Himp br (list_elem_of_here _ _)) as [Hu Hr].
    destruct (relation_step_preserves br0 br e m x ptr m1 br' m2 Hx Hu Hr Hget Hmerge
                (Hne br (list_elem_of_here _ _)) Hset) as (x2 & Hx2 & Hset2).
    eapply (IH m2 x2); eauto.
    + intros b Hb. apply Himp. by apply list_elem_of_further.
    + intros b Hb. apply Hne. by apply list_elem_of_further.
Qed.

Lemma mergeRelations_establishes brs e :
  forall m x brs' m',
    entityAt m e = Some x ->
    (forall br, br ∈ brs ->
       generator.Relation_Uid br = 0 /\ generator.Relation_uidRequest br = false) ->
    NoDup (map generator.Relation_Name brs) ->
    generator.mergeRelations brs e m = (Ok brs', m') ->
    exists x', entityAt m' e = Some x' /\ forall br, br ∈ brs -> relationSettled br x' m'.
Proof.
  induction brs as [|br brs IH]; intros m x brs' m' Hx Himp Hnd Hrun.
  - simpl in Hrun. injection Hrun as _ <-.
    exists x. split; [exact Hx|]. intros br Hbr. by apply elem_of_nil in Hbr.
  - simpl in Hrun.
    apply bind_Ok in Hrun as (ptr & m1 & Hget & Hrun).
    apply bind_Ok in Hrun as (br' & m2 & Hmerge & Hrun).
    apply bind_Ok in Hrun as (rest & m3 & Hrest & Hrun).
    unfold modelinfo.ret in Hrun. injection Hrun as _ <-.
    destruct (Himp br (list_elem_of_here _ _)) as [Hu Hr].
    destruct (relation_step_establishes br e m x ptr m1 br' m2 Hx Hu Hr Hget Hmerge)
      as (x2 & Hx2 & Hset2 & _).
    simpl in Hnd. apply NoDup_cons in Hnd as [Hnotin Hnd].
    assert (forall b, b ∈ brs ->
              generator.Relation_Uid b = 0 /\ generator.Relation_uidRequest b = false)
      as Himp' by (intros b Hb; apply Himp; by apply list_elem_of_further).
    destruct (IH m2 x2 rest m3 Hx2 Himp' Hnd Hrest) as (x3 & Hx3 & Hall).
    destruct (mergeRelations_preserves br brs e m2 x2 rest m3 Hx2 Himp') as (x3' & Hx3' & Hbr);
      [|exact Hrest|exact Hset2|].
    { intros b Hb Heq. apply Hnotin. rewrite Heq.
      apply list_elem_of_fmap. by exists b. }
    rewrite Hx3 in Hx3'. injection Hx3' as <-.
    exists x3. split; [exact Hx3|].
    intros b Hb. apply elem_of_cons in Hb as [-> | Hb]; [exact Hbr | by apply Hall].
Qed.

Lemma relationSettled_filter br be x x' m :
  modelinfo.Entity_Relations x' =
    List.filter (fun z => generator.bindingRelationExists z be) (modelinfo.Entity_Relations x) ->
  generator.Relation_Name br ∈ map generator.Relation_Name (generator.Entity_Relations be) ->
  relationSettled br x m -> relationSettled br x' m.
Proof.
  intros Hrels Hin (r & z & t & xt & Hf & Hz & Htarget).
  destruct (find_index_filter _ (fun z => generator.bindingRelationExists z be) _ r z Hf Hz)
    as (r' & Hf' & Hz').
  { intros z0 Hz0. apply String.eqb_eq in Hz0. apply bindingRelationExists_true.
    by rewrite Hz0. }
  exists r', z, t, xt. rewrite Hrels.
  split; [exact Hf'|]. split; [exact Hz' | exact Htarget].
Qed.

(** ** The merge of one binding entity *)

(** After a successful merge of a binding entity without explicit UIDs and
    with distinct property and relation names into the entity of its name,
    the entity reflects the binding entity; the names and identity pairs of
    all entities, and the other entities, are as before. *)
Lemma mergeModelEntity_establishes be e m x be' m' :
  implicitEntity be ->
  NoDup (map generator.Property_Name (generator.Entity_Properties be)) ->
  NoDup (map generator.Relation_Name (generator.Entity_Relations be)) ->
  entityAt m e = Some x ->
  modelinfo.Entity_Name x = generator.Entity_Name be ->
  generator.mergeModelEntity be e m = (Ok be', m') ->
  exists x',
    entityAt m' e = Some x' /\
    (forall bp, bp ∈ generator.Entity_Properties be -> propertySettled bp x') /\
    (forall y, y ∈ modelinfo.Entity_Properties x' ->
               generator.bindingPropertyExists y be = true) /\
    (forall br, br ∈ generator.Entity_Relations be -> relationSettled br x' m') /\
    (forall z, z ∈ modelinfo.Entity_Relations x' ->
               generator.bindingRelationExists z be = true) /\
    entityHeads m' = entityHeads m /\
    (forall e', e' <> e -> entityAt m' e' = entityAt m e').
Proof.
  intros (_ & _ & Himp & Himr) Hndp Hndr Hx Hname H.
  destruct (mergeModelEntity_prunes be e m x be' m' Hx H) as (x' & Hx' & Hallp & _).
  destruct (mergeModelEntity_outcome be e m x be' m' Hx H)
    as (x'' & Hx'' & Hid & Hn & Hallr & _).
  rewrite Hx' in Hx''. injection Hx'' as <-.
  pose proof (mergeModelEntity_kept be e m) as Hkept. rewrite H in Hkept. cbn [snd] in Hkept.
  destruct Hkept as (Hlen & Hother & _ & _).
  assert (entityHeads m' = entityHeads m) as Hheads.
  { apply (stepAt_entityHeads
             (fun x x' => modelinfo.Entity_Id x' = modelinfo.Entity_Id x /\
                          modelinfo.Entity_Name x' = modelinfo.Entity_Name x)
             anyDocument e); [tauto|].
    repeat split; auto. intros x0 Hx0. rewrite Hx in Hx0. injection Hx0 as <-.
    exists x'. repeat split; auto. congruence. }
  exists x'. split; [exact Hx'|].
  cut ((forall bp, bp ∈ generator.Entity_Properties be -> propertySettled bp x') /\
       (forall br, br ∈ generator.Entity_Relations be -> relationSettled br x' m')).
  { intros [Hp Hr]. repeat split; auto. }
  (* the steps of the run *)
  unfold generator.mergeModelEntity in H.
  cbn [generator.Entity_Properties generator.Entity_Relations generator.set_Entity_IdUid
       generator.set_Entity_Properties generator.set_Entity_LastPropertyId] in H.
  inv_run.
  match goal with H : modelinfo.updEntity _ _ _ = _ |- _ => rename H into Hrename end.
  match goal with H : generator.mergeProperties _ _ _ = _ |- _ => rename H into Hprops end.
  match goal with H : generator.removeMissingProperties _ _ _ = _ |- _ =>
    rename H into Hprune end.
  match goal with H : generator.mergeRelations _ _ _ = _ |- _ => rename H into Hrels end.
  match goal with H : generator.removeMissingRelations _ _ _ = _ |- _ =>
    rename H into Hprune2 end.
  rewrite (updEntity_eq _ _ _ _ Hx) in Hrename. injection Hrename as _ <-.
  assert (withEntity e (modelinfo.set_Entity_Name (generator.Entity_Name be) x) m = m) as Hm0.
  { rewrite <- Hname.
    replace (modelinfo.set_Entity_Name (modelinfo.Entity_Name x) x) with x by (by destruct x).
    by apply withEntity_id. }
  rewrite Hm0 in *.
  match type of Hprops with _ = (Ok ?bps, ?mm) => rename bps into bps'; rename mm into mp3 end.
  match type of Hprune with _ = (_, ?mm) => rename mm into mp4 end.
  match type of Hrels with _ = (Ok ?brs, ?mm) => rename brs into brs'; rename mm into mp5 end.
  match goal with H : entityAt mp4 e = Some ?z |- _ => rename H into Hx4; rename z into x4 end.
  pose proof (mergeProperties_Names _ _ _ _ _ Hprops) as Hpn.
  pose proof (mergeRelations_Names _ _ _ _ _ Hrels) as Hrn.
  (* the properties *)
  destruct (mergeProperties_establishes _ e m x bps' mp3 Hx Himp Hndp Hprops)
    as (x3 & Hx3 & Hset3).
  rewrite (removeMissingProperties_eq _ e mp3 x3 Hx3) in Hprune. injection Hprune as _ Hm4.
  assert (modelinfo.Entity_Properties x4 =
          List.filter (fun y => generator.bindingPropertyExists y
                         (generator.set_Entity_Properties bps'
                            (generator.set_Entity_IdUid
                               (modelinfo.IdUid_id (modelinfo.Entity_Id x))
                               (modelinfo.IdUid_uid (modelinfo.Entity_Id x)) be)))
                      (modelinfo.Entity_Properties x3)) as Hp4.
  { rewrite <- Hm4 in Hx4. unfold entityAt in Hx4. simpl in Hx4.
    rewrite list_lookup_insert_eq in Hx4 by (by eapply lookup_lt_Some).
    by injection Hx4 as <-. }
  assert (forall bp, bp ∈ generator.Entity_Properties be -> propertySettled bp x4) as Hset4.
  { intros bp Hbp. eapply propertySettled_filter; [exact Hp4| |by apply Hset3].
    simpl. rewrite Hpn. apply list_elem_of_fmap. by exists bp. }
  (* the relations *)
  destruct (mergeRelations_establishes _ e mp4 x4 brs' mp5 Hx4 Himr Hndr Hrels)
    as (x5 & Hx5 & Hset5).
  pose proof (mergeRelations_kept (generator.Entity_Relations be) e mp4) as Hk5.
  rewrite Hrels in Hk5. cbn [snd] in Hk5. destruct Hk5 as (_ & _ & Hk5 & _).
  destruct (Hk5 _ Hx4) as (x5' & Hx5' & (_ & _ & _ & Hp5)).
  rewrite Hx5 in Hx5'. injection Hx5' as <-.
  pose proof Hprune2 as Hrun6.
  rewrite (removeMissingRelations_eq _ e mp5 x5 Hx5) in Hrun6. injection Hrun6 as _ Hm'.
  set (x6 := modelinfo.set_Entity_Relations _ x5) in Hm'.
  assert (entityAt m' e = Some x6) as Hx6.
  { rewrite <- Hm'. simpl. by eapply entityAt_withEntity. }
  rewrite Hx' in Hx6. injection Hx6 as ->.
  assert (entityHeads m' = entityHeads mp5) as Hh6.
  { rewrite <- Hm'.
    change (entityHeads (withEntity e x6 mp5) = entityHeads mp5).
    by apply (entityHeads_withEntity mp5 e x5). }
  split.
  - intros bp Hbp. apply (propertySettled_properties bp x4); [|by apply Hset4].
    subst x6. simpl. exact Hp5.
  - intros br Hbr. apply (relationSettled_heads br x6 mp5 m' Hh6).
    eapply relationSettled_filter; [subst x6; simpl; reflexivity| |by apply Hset5].
    simpl. rewrite Hrn. apply list_elem_of_fmap. by exists br.
Qed.

(** ** The two loops over the binding entities *)

Lemma mergeModelEntity_frame be e m x be' m' :
  entityAt m e = Some x ->
  modelinfo.Entity_Name x = generator.Entity_Name be ->
  generator.mergeModelEntity be e m = (Ok be', m') ->
  entityHeads m' = entityHeads m /\
  (forall e', e' <> e -> entityAt m' e' = entityAt m e').
Proof.
  intros Hx Hname H.
  destruct (mergeModelEntity_outcome be e m x be' m' Hx H) as (x' & Hx' & Hid & Hn & _).
  pose proof (mergeModelEntity_kept be e m) as Hkept. rewrite H in Hkept. cbn [snd] in Hkept.
  destruct Hkept as (Hlen & Hother & _ & _).
  split; [|exact Hother].
  apply (stepAt_entityHeads
           (fun x x' => modelinfo.Entity_Id x' = modelinfo.Entity_Id x /\
                        modelinfo.Entity_Name x' = modelinfo.Entity_Name x)
           anyDocument e); [tauto|].
  repeat split; auto. intros x0 Hx0. rewrite Hx in Hx0. injection Hx0 as <-.
  exists x'. repeat split; auto. congruence.
Qed.

Lemma entitySettled_preserved be m m' e :
  find_index (fun x => String.eqb (modelinfo.Entity_Name x) (generator.Entity_Name be))
             (modelinfo.Entities m) = Some e ->
  entityHeads m' = entityHeads m ->
  entityAt m' e = entityAt m e ->
  entitySettled be m -> entitySettled be m'.
Proof.
  intros Hf Hh Hsame (e0 & x & Hf0 & Hx & Hp & Hap & Hr & Har).
  rewrite Hf in Hf0. injection Hf0 as <-.
  exists e, x. split.
  { rewrite <- Hf.
    apply (entityHeads_find (fun n => String.eqb n (generator.Entity_Name be)) m m' Hh). }
  split; [unfold entityAt in Hsame; by rewrite Hsame|].
  repeat split; auto.
  intros br Hbr. apply (relationSettled_heads br x m m' Hh). by apply Hr.
Qed.

Lemma mergeModelEntities_heads bes :
  forall es m bes' m',
    Forall2 (fun be e =>
               find_index (fun x => String.eqb (modelinfo.Entity_Name x)
                                      (generator.Entity_Name be))
                          (modelinfo.Entities m) = Some e) bes es ->
    generator.mergeModelEntities bes es m = (Ok bes', m') ->
    entityHeads m' = entityHeads m.
Proof.
  induction bes as [|be bes IH]; intros es m bes' m' Hall Hrun.
  - simpl in Hrun. by injection Hrun as _ <-.
  - inversion Hall as [|be0 e bes0 es0 Hf Hall']; subst. simpl in Hrun.
    apply bind_Ok in Hrun as (be' & m1 & Hone & Hrun).
    apply bind_Ok in Hrun as (rest & m2 & Hrest & Hrun).
    unfold modelinfo.ret in Hrun. injection Hrun as _ <-.
    destruct (find_index_Some _ _ _ Hf) as (x & Hx & Hname & _).
    apply String.eqb_eq in Hname.
    destruct (mergeModelEntity_frame be e m x be' m1 Hx Hname Hone) as [Hh1 _].
    rewrite <- Hh1. apply (IH es0 m1 rest m2); [|exact Hrest].
    eapply Forall2_impl; [exact Hall'|]. intros b e0 Hb. rewrite <- Hb.
    apply (entityHeads_find (fun n => String.eqb n (generator.Entity_Name b)) m m1 Hh1).
Qed.

Lemma mergeModelEntities_preserves be0 bes :
  forall es m bes' m',
    Forall2 (fun be e =>
               find_index (fun x => String.eqb (modelinfo.Entity_Name x)
                                      (generator.Entity_Name be))
                          (modelinfo.Entities m) = Some e) bes es ->
    (forall be, be ∈ bes -> generator.Entity_Name be0 <> generator.Entity_Name be) ->
    generator.mergeModelEntities bes es m = (Ok bes', m') ->
    entitySettled be0 m -> entitySettled be0 m'.
Proof.
  induction bes as [|be bes IH]; intros es m bes' m' Hall Hne Hrun Hset.
  - simpl in Hrun. by injection Hrun as _ <-.
  - inversion Hall as [|be1 e bes1 es1 Hf Hall']; subst. simpl in Hrun.
    apply bind_Ok in Hrun as (be' & m1 & Hone & Hrun).
    apply bind_Ok in Hrun as (rest & m2 & Hrest & Hrun).
    unfold modelinfo.ret in Hrun. injection Hrun as _ <-.
    destruct (find_index_Some _ _ _ Hf) as (x & Hx & Hname & _).
    apply String.eqb_eq in Hname.
    destruct (mergeModelEntity_frame be e m x be' m1 Hx Hname Hone) as [Hh1 Hother].
    apply (IH es1 m1 rest m2).
    + eapply Forall2_impl; [exact Hall'|]. intros b e0 Hb. rewrite <- Hb.
      apply (entityHeads_find (fun n => String.eqb n (generator.Entity_Name b)) m m1 Hh1).
    + intros b Hb. apply Hne. by apply list_elem_of_further.
    + exact Hrest.
    + destruct Hset as (e0 & x0 & Hf0 & Hx0 & Hrest0).
      apply (entitySettled_preserved be0 m m1 e0 Hf0 Hh1).
      * apply Hother. intros ->.
        destruct (find_index_Some _ _ _ Hf0) as (x0' & Hx0' & Hn0 & _).
        rewrite Hx in Hx0'. injection Hx0' as <-. apply String.eqb_eq in Hn0.
        apply (Hne be (list_elem_of_here _ _)). congruence.
      * by exists e0, x0.
Qed.

Lemma mergeModelEntities_establishes bes :
  forall es m bes' m',
    Forall2 (fun be e =>
               find_index (fun x => String.eqb (modelinfo.Entity_Name x)
                                      (generator.Entity_Name be))
                          (modelinfo.Entities m) = Some e) bes es ->
    (forall be, be ∈ bes ->
       implicitEntity be /\
       NoDup (map generator.Property_Name (generator.Entity_Properties be)) /\
       NoDup (map generator.Relation_Name (generator.Entity_Relations be))) ->
    NoDup (map generator.Entity_Name bes) ->
    generator.mergeModelEntities bes es m = (Ok bes', m') ->
    forall be, be ∈ bes -> entitySettled be m'.
Proof.
  induction bes as [|be bes IH]; intros es m bes' m' Hall Hgood Hnd Hrun.
  - intros be Hbe. by apply elem_of_nil in Hbe.
  - inversion Hall as [|be1 e bes1 es1 Hf Hall']; subst. simpl in Hrun.
    apply bind_Ok in Hrun as (be' & m1 & Hone & Hrun).
    apply bind_Ok in Hrun as (rest & m2 & Hrest & Hrun).
    unfold modelinfo.ret in Hrun. injection Hrun as _ <-.
    destruct (find_index_Some _ _ _ Hf) as (x & Hx & Hname & _).
    apply String.eqb_eq in Hname.
    destruct (Hgood be (list_elem_of_here _ _)) as (Himp & Hndp & Hndr).
    destruct (mergeModelEntity_establishes be e m x be' m1 Himp Hndp Hndr Hx Hname Hone)
      as (x1 & Hx1 & Hp & Hap & Hr & Har & Hh1 & Hother).
    simpl in Hnd. apply NoDup_cons in Hnd as [Hnotin Hnd].
    assert (Forall2 (fun be e =>
               find_index (fun x => String.eqb (modelinfo.Entity_Name x)
                                      (generator.Entity_Name be))
                          (modelinfo.Entities m1) = Some e) bes es1) as Hall1.
    { eapply Forall2_impl; [exact Hall'|]. intros b e0 Hb. rewrite <- Hb.
      apply (entityHeads_find (fun n => String.eqb n (generator.Entity_Name b)) m m1 Hh1). }
    assert (entitySettled be m1) as Hset1.
    { exists e, x1. split; [|by repeat split].
      rewrite <- Hf.
      apply (entityHeads_find (fun n => String.eqb n (generator.Entity_Name be)) m m1 Hh1). }
    intros b Hb. apply elem_of_cons in Hb as [-> | Hb].
    + apply (mergeModelEntities_preserves be bes es1 m1 rest m2 Hall1); auto.
      intros b Hb Heq. apply Hnotin. rewrite Heq. apply list_elem_of_fmap. by exists b.
    + apply (IH es1 m1 rest m2 Hall1); auto.
      intros b0 Hb0. apply Hgood. by apply list_elem_of_further.
Qed.

Lemma CreateEntity_found name m e m' :
  find_index (fun x => String.eqb (modelinfo.Entity_Name x) name) (modelinfo.Entities m) = None ->
  modelinfo.CreateEntity name m = (Ok e, m') ->
  find_index (fun x => String.eqb (modelinfo.Entity_Name x) name) (modelinfo.Entities m')
  = Some e.
Proof.
  unfold modelinfo.CreateEntity. intros Hnone H. inv_run.
  match goal with H : modelinfo.GenerateUid _ = _ |- _ => rename H into Hgen end.
  match goal with H : modelinfo.modify _ _ = _ |- _ => rename H into Hmod end.
  unfold modelinfo.modify in Hmod. injection Hmod as _ <-.
  match type of Hgen with modelinfo.GenerateUid ?m1 = (_, ?m2) =>
    pose proof (GenerateUid_Entities m1) as Hent; rewrite Hgen in Hent; cbn [snd] in Hent
  end.
  simpl. rewrite <- Hent in Hnone |- *.
  apply find_index_app_new; [exact Hnone|]. simpl. apply String.eqb_refl.
Qed.

Lemma getModelEntity_found be m e m1 :
  generator.Entity_Uid be = 0 -> generator.Entity_uidRequest be = false ->
  generator.getModelEntity be m = (Ok e, m1) ->
  find_index (fun x => String.eqb (modelinfo.Entity_Name x) (generator.Entity_Name be))
             (modelinfo.Entities m1) = Some e.
Proof.
  intros Hu Hr Hrun. rewrite (getModelEntity_implicit be m Hu Hr) in Hrun.
  destruct (find_index _ (modelinfo.Entities m)) as [e0|] eqn:Hf.
  - by injection Hrun as <- <-.
  - by eapply CreateEntity_found.
Qed.

Lemma getModelEntities_found bes :
  forall m es m1,
    (forall be, be ∈ bes ->
       generator.Entity_Uid be = 0 /\ generator.Entity_uidRequest be = false) ->
    generator.getModelEntities bes m = (Ok es, m1) ->
    Forall2 (fun be e =>
               find_index (fun x => String.eqb (modelinfo.Entity_Name x)
                                      (generator.Entity_Name be))
                          (modelinfo.Entities m1) = Some e) bes es.
Proof.
  induction bes as [|be bes IH]; intros m es m1 Himp Hrun; simpl in Hrun.
  - injection Hrun as <- _. constructor.
  - apply bind_Ok in Hrun as (e & m0 & Hone & Hrun).
    apply bind_Ok in Hrun as (rest & m2 & Hrest & Hrun).
    unfold modelinfo.ret in Hrun. injection Hrun as <- <-.
    destruct (Himp be (list_elem_of_here _ _)) as [Hu Hr].
    constructor.
    + pose proof (getModelEntities_appends bes m0) as [added Happ].
      rewrite Hrest in Happ. cbn [snd] in Happ. rewrite Happ.
      apply find_index_app_l. by eapply getModelEntity_found.
    + apply (IH m0 rest m2); [|exact Hrest].
      intros b Hb. apply Himp. by apply list_elem_of_further.
Qed.

(** ** The whole merge *)

Lemma merge_establishes binding m binding1 m1 :
  implicitBinding binding -> distinctNames binding ->
  generator.mergeBindingWithModelInfo binding m = (Ok binding1, m1) ->
  settled binding m1.
Proof.
  intros Himp [Hnd Hinner] Hrun. unfold generator.mergeBindingWithModelInfo in Hrun.
  apply bind_Ok in Hrun as (es & ma & Hpass1 & Hrun).
  apply bind_Ok in Hrun as (bes' & mb & Hpass2 & Hrun).
  apply bind_Ok in Hrun as (u & mc & Hpkg & Hrun).
  unfold modelinfo.ret in Hrun. injection Hrun as _ <-.
  unfold modelinfo.modify in Hpkg. injection Hpkg as _ <-.
  split; [reflexivity|].
  intros be Hbe.
  assert (Forall2 (fun be e =>
             find_index (fun x => String.eqb (modelinfo.Entity_Name x)
                                    (generator.Entity_Name be))
                        (modelinfo.Entities ma) = Some e)
                  (generator.Binding_Entities binding) es) as Hfound.
  { apply (getModelEntities_found _ m es ma); [|exact Hpass1].
    intros b Hb. destruct (Himp b Hb) as (Hu & Hr & _). by split. }
  assert (forall b, b ∈ generator.Binding_Entities binding ->
            implicitEntity b /\
            NoDup (map generator.Property_Name (generator.Entity_Properties b)) /\
            NoDup (map generator.Relation_Name (generator.Entity_Relations b))) as Hgood.
  { intros b Hb. destruct (Hinner b Hb) as [Hp Hr]. split; [by apply Himp|]. by split. }
  pose proof (mergeModelEntities_establishes (generator.Binding_Entities binding) es ma bes' mb
                Hfound Hgood Hnd Hpass2 be Hbe) as Hset.
  exact Hset.
Qed.

(** A successful merge of a binding that carries no explicit UID and no UID
    request, and whose names are distinct in every scope, leaves a document
    on which a further merge of the same binding succeeds and changes
    nothing: every identity pair, every counter and every retired list is as
    the first merge left it, and nothing is drawn from the random source. *)
Theorem merge_idempotent binding m binding1 m1 :
  implicitBinding binding -> distinctNames binding ->
  generator.mergeBindingWithModelInfo binding m = (Ok binding1, m1) ->
  exists binding2, generator.mergeBindingWithModelInfo binding m1 = (Ok binding2, m1).
Proof.
  intros Himp Hnd Hrun. apply merge_settled; [exact Himp|].
  by eapply merge_establishes.
Qed.

Lemma merge_idempotent_witness :
  exists binding2,
    generator.mergeBindingWithModelInfo examples.bindingEmailOnly
      (snd (generator.mergeBindingWithModelInfo examples.bindingEmailOnly examples.taskDoc)) =
    (Ok binding2,
     snd (generator.mergeBindingWithModelInfo examples.bindingEmailOnly examples.taskDoc)).
Proof.
  destruct (generator.mergeBindingWithModelInfo examples.bindingEmailOnly examples.taskDoc)
    as [[binding1|err] m1] eqn:Hrun.
  - refine (merge_idempotent examples.bindingEmailOnly examples.taskDoc binding1 m1 _ _ Hrun).
    + intros be Hbe. apply elem_of_cons in Hbe as [-> | Hbe]; [|by apply elem_of_nil in Hbe].
      split; [reflexivity|]. split; [reflexivity|]. split.
      * intros bp Hbp. apply elem_of_cons in Hbp as [-> | Hbp]; [by split|].
        apply elem_of_cons in Hbp as [-> | Hbp]; [by split|]. by apply elem_of_nil in Hbp.
      * intros br Hbr. by apply elem_of_nil in Hbr.
    + split.
      * apply NoDup_singleton.
      * intros be Hbe. apply elem_of_cons in Hbe as [-> | Hbe]; [|by apply elem_of_nil in Hbe].
        split; [|apply NoDup_nil_2].
        apply NoDup_cons. split; [|apply NoDup_singleton].
        intros Hin. apply elem_of_cons in Hin as [Hin | Hin]; [discriminate Hin|].
        by apply elem_of_nil in Hin.
  - vm_compute in Hrun. discriminate Hrun.
Defined.

(** The example document and a binding that declares "Name" twice, with an
    index the first time and without the second time: each of two merges in
    a row succeeds, creates an index identity (UIDs 555, then 556) and
    retires it at once, and the entities after the second merge are the ones
    after the first. *)
Example merge_repeated_with_duplicate_names :
  let m1 := snd (generator.mergeBindingWithModelInfo examples.bindingNameTwice
                   examples.taskDoc) in
  let m2 := snd (generator.mergeBindingWithModelInfo examples.bindingNameTwice m1) in
  isOk (fst (generator.mergeBindingWithModelInfo examples.bindingNameTwice examples.taskDoc))
    = true /\
  isOk (fst (generator.mergeBindingWithModelInfo examples.bindingNameTwice m1)) = true /\
  modelinfo.RetiredIndexUids m1 = [555] /\
  modelinfo.RetiredIndexUids m2 = [555; 556] /\
  modelinfo.Entities m2 = modelinfo.Entities m1.
Proof. vm_compute. repeat split; reflexivity. Qed.


Lemma bindingEmailOnly_implicit : implicitBinding examples.bindingEmailOnly.
Proof.
  intros be Hbe. apply elem_of_cons in Hbe as [-> | Hbe]; [|by apply elem_of_nil in Hbe].
  split; [reflexivity|]. split; [reflexivity|]. split.
  - intros bp Hbp. apply elem_of_cons in Hbp as [-> | Hbp]; [by split|].
    apply elem_of_cons in Hbp as [-> | Hbp]; [by split|]. by apply elem_of_nil in Hbp.
  - intros br Hbr. by apply elem_of_nil in Hbr.
Qed.

Lemma bindingEmailOnly_distinct : distinctNames examples.bindingEmailOnly.
Proof.
  split; [apply NoDup_singleton|].
  intros be Hbe. apply elem_of_cons in Hbe as [-> | Hbe]; [|by apply elem_of_nil in Hbe].
  split; [|apply NoDup_nil_2].
  apply NoDup_cons. split; [|apply NoDup_singleton].
  intros Hin. apply elem_of_cons in Hin as [Hin | Hin]; [discriminate Hin|].
  by apply elem_of_nil in Hin.
Qed.

(** A successful merge of a binding that carries no explicit UID and no UID
    request, and whose names are distinct in every scope, leaves a document
    that reflects the binding: the package name is the binding's; every
    binding entity is the first entity of its name; every binding property is
    the first property of its name in that entity, with the type, flags and
    relation target of the binding property and with an index exactly when
    the binding property has one; every binding relation is the first
    relation of its name, and its target is the identity pair of the first
    entity of the target's name; and the entity holds no property and no
    relation that the binding entity does not name. *)
Theorem merge_reflects_binding binding m binding1 m1 :
  implicitBinding binding -> distinctNames binding ->
  generator.mergeBindingWithModelInfo binding m = (Ok binding1, m1) ->
  settled binding m1.
Proof. apply merge_establishes. Qed.

Lemma merge_reflects_binding_witness :
  settled examples.bindingEmailOnly
    (snd (generator.mergeBindingWithModelInfo examples.bindingEmailOnly examples.taskDoc)).
Proof.
  destruct (generator.mergeBindingWithModelInfo examples.bindingEmailOnly examples.taskDoc)
    as [[binding1|err] m1] eqn:Hrun.
  - exact (merge_reflects_binding examples.bindingEmailOnly examples.taskDoc binding1 m1
             bindingEmailOnly_implicit bindingEmailOnly_distinct Hrun).
  - vm_compute in Hrun. discriminate Hrun.
Defined.

(** ** Repeated merges *)




(** ** An index requested and not requested in turn *)

(** Two binding properties are merged in turn into one model property that
    has no index, as happens for two binding properties of one name; the
    first has an index and the second has none.  When an index identity can
    be created (the counter is below its maximum and the random source holds
    a usable value), both merges succeed: the first creates the index with
    the local id one past [lastIndexId.id] and the fresh UID, the second
    removes it again.  Afterwards the property has no index, [lastIndexId]
    is the pair of the index created, and [retiredIndexUids] has grown by
    its UID. *)
Theorem index_created_then_retired bp1 bp2 e p m y ix id u rest :
  propertyAt m e p = Some y ->
  modelinfo.Property_IndexId y = None ->
  generator.Property_Index bp1 = Some ix ->
  generator.Property_Index bp2 = None ->
  modelinfo.nextId (modelinfo.LastIndexId m) = Ok id ->
  modelinfo.draw (modelinfo.knownUids (withProperty e p (applyIdentity bp1 y) m))
                 (modelinfo.rand m) = Some (u, rest) ->
  exists bp1' m1 bp2' m2 y2,
    generator.mergeModelProperty bp1 (e, p) m = (Ok bp1', m1) /\
    generator.mergeModelProperty bp2 (e, p) m1 = (Ok bp2', m2) /\
    generator.Property_Index bp1' = Some (generator.mkIndex id u) /\
    generator.Property_Index bp2' = None /\
    propertyAt m2 e p = Some y2 /\
    modelinfo.Property_IndexId y2 = None /\
    modelinfo.LastIndexId m2 = modelinfo.CreateIdUid id u /\
    modelinfo.RetiredIndexUids m2 = modelinfo.RetiredIndexUids m ++ [u].
Proof.
  intros Hy Hnone Hix1 Hix2 Hid Hdraw.
  pose proof (mergeModelProperty_create_index bp1 e p m y ix Hy Hix1 Hnone) as H1.
  cbv zeta in H1. rewrite Hid, Hdraw in H1.
  set (Y1 := copyAttributes bp1
               (modelinfo.set_Property_IndexId (Some (modelinfo.CreateIdUid id u))
                  (applyIdentity bp1 y))) in H1.
  set (m1 := modelinfo.set_LastIndexId _ _) in H1.
  assert (propertyAt m1 e p = Some Y1) as HY1.
  { subst m1. rewrite propertyAt_lastIndex, propertyAt_pool.
    by eapply propertyAt_withProperty. }
  assert (modelinfo.Property_IndexId Y1 = Some (modelinfo.CreateIdUid id u)) as Hi1
      by (subst Y1; by destruct (applyIdentity bp1 y)).
  pose proof (mergeModelProperty_drop_index bp2 e p m1 Y1 _ HY1 Hix2 Hi1) as H2.
  do 5 eexists. split; [exact H1|]. split; [exact H2|].
  split; [reflexivity|]. split; [simpl; exact Hix2|].
  split; [rewrite propertyAt_retiredIndex; by eapply propertyAt_withProperty|].
  split; [by destruct (applyIdentity bp2 Y1)|].
  split.
  - simpl. rewrite withProperty_LastIndexId. reflexivity.
  - simpl. f_equal. subst m1. simpl.
    rewrite withProperty_RetiredIndexUids. reflexivity.
Qed.

Lemma index_created_then_retired_witness :
  exists bp1' m1 bp2' m2 y2,
    generator.mergeModelProperty examples.bindingNameIndexed (0%nat, 1%nat) examples.taskDoc
      = (Ok bp1', m1) /\
    generator.mergeModelProperty examples.bindingNameAgain (0%nat, 1%nat) m1 = (Ok bp2', m2) /\
    propertyAt m2 0 1 = Some y2 /\
    modelinfo.Property_IndexId y2 = None /\
    modelinfo.RetiredIndexUids m2 = [555].
Proof.
  destruct (index_created_then_retired examples.bindingNameIndexed examples.bindingNameAgain
              0 1 examples.taskDoc examples.taskName (generator.mkIndex 0 0) 1 555 [556; 557]
              eq_refl eq_refl eq_refl eq_refl eq_refl eq_refl)
    as (bp1' & m1 & bp2' & m2 & y2 & H1 & H2 & _ & _ & Hy2 & Hi2 & _ & Hret).
  exists bp1', m1, bp2', m2, y2. repeat split; try assumption.
Defined.
